(** * OsuLikeExperiment: the trial engine of [osu-experiment.jsx]

    A shallow embedding of the path calculator, the scoring functions, the
    trial selection and the trial runner of [src/osu-experiment.jsx],
    followed by the properties of the specification stated on it.

    Modelling conventions.
    - A JavaScript number is a real number ([R]): the arithmetic of the
      source is read exactly, the rounding of IEEE doubles being outside
      the model.  [NaN] and the infinities are values of the type [number],
      used where the source can reach them from real inputs: the progress
      of a tracking trial over a duration of 0, the two quotients of the
      tracking statistics, the pointer coordinates of an event, and the
      click score computed from them.
    - The [Math] object is the module [Math] below.
    - A property read on [undefined] raises a [TypeError] in the source;
      a function that can do so returns a [result].
    - React state cells and ref cells are the fields of one [State] record;
      [setX v] of the source is the setter [setX v] on that record.  A
      handler runs on the state of the latest render.
    - [performance.now()], [Date.now()] and [Math.random()] are inputs:
      events carry the clock readings, one reading of each clock per event,
      and trial selection takes the sequence of random draws.
    - A callback handed to [setTimeout], [setInterval] or
      [requestAnimationFrame] is kept in the state with the values its
      closure captured; the host decides when it fires, by an event.
    - The visual layer (floating point labels, cursor echo, styling) is left
      out. *)

From Stdlib Require Import Reals Lra Lia ZArith List String Bool Arith.
Import ListNotations.
Open Scope string_scope.
Open Scope list_scope.
Open Scope R_scope.

(** ** Numbers and the [Math] object *)

Module Math.

Definition min (a b : R) : R := Rmin a b.
Definition max (a b : R) : R := Rmax a b.

(** [Math.floor]: the largest integer not above [x].  Its uses in the
    source are array indices, so the result is kept in [Z]. *)
Definition floor (x : R) : Z := Zfloor x.

(** [Math.round]: the nearest integer, a tie going up. *)
Definition round (x : R) : R := IZR (Zfloor (x + / 2)).

Definition sqrt (x : R) : R := R_sqrt.sqrt x.
Definition sin (x : R) : R := Rtrigo_def.sin x.
Definition cos (x : R) : R := Rtrigo_def.cos x.
Definition PI : R := Rtrigo1.PI.
Definition pow (x : R) (n : nat) : R := x ^ n.

End Math.

(** Comparisons of numbers as booleans. *)
Definition Rgtb (a b : R) : bool := if Rgt_dec a b then true else false.
Definition Rgeb (a b : R) : bool := if Rge_dec a b then true else false.
Definition Rleb (a b : R) : bool := if Rle_dec a b then true else false.

Infix ">?" := Rgtb (at level 70, no associativity) : R_scope.
Infix ">=?" := Rgeb (at level 70, no associativity) : R_scope.
Infix "<=?" := Rleb (at level 70, no associativity) : R_scope.

(** ** Special values

    A division by zero and arithmetic on [undefined] do not raise in the
    source: they give [Infinity], [-Infinity] or [NaN], and every
    comparison with [NaN] is false.  Where the source can reach one of
    these values from real inputs (the progress of a tracking trial, the
    quotients of the tracking statistics, the pointer coordinates, the
    click score computed from them) the value is a [number].  The zero of
    a [number] stands for the positive zero: the divisors of the source
    are configuration literals and array lengths. *)
Inductive number : Type :=
| Num (r : R)
| Infinity
| NegInfinity
| NaN.

Module Number.

Definition neg (a : number) : number :=
  match a with
  | Num x => Num (- x)
  | Infinity => NegInfinity
  | NegInfinity => Infinity
  | NaN => NaN
  end.

(** An infinity [inf] times or over a real of the sign of [x]; [NaN] when
    [x] is 0. *)
Definition signed (inf : number) (x : R) : number :=
  if x >? 0 then inf else if 0 >? x then neg inf else NaN.

Definition add (a b : number) : number :=
  match a, b with
  | NaN, _ | _, NaN => NaN
  | Num x, Num y => Num (x + y)
  | Infinity, NegInfinity | NegInfinity, Infinity => NaN
  | Infinity, _ | _, Infinity => Infinity
  | NegInfinity, _ | _, NegInfinity => NegInfinity
  end.

Definition sub (a b : number) : number := add a (neg b).

Definition mul (a b : number) : number :=
  match a, b with
  | NaN, _ | _, NaN => NaN
  | Num x, Num y => Num (x * y)
  | Num x, Infinity | Infinity, Num x => signed Infinity x
  | Num x, NegInfinity | NegInfinity, Num x => signed NegInfinity x
  | Infinity, Infinity | NegInfinity, NegInfinity => Infinity
  | Infinity, NegInfinity | NegInfinity, Infinity => NegInfinity
  end.

(** [a / b]: over a zero divisor a positive number gives [Infinity], a
    negative one [-Infinity], and zero gives [NaN]. *)
Definition div (a b : number) : number :=
  match a, b with
  | NaN, _ | _, NaN => NaN
  | Num x, Num y =>
      if Req_dec_T y 0 then signed Infinity x else Num (x / y)
  | Num _, Infinity | Num _, NegInfinity => Num 0
  | Infinity, Num y => if 0 >? y then NegInfinity else Infinity
  | NegInfinity, Num y => if 0 >? y then Infinity else NegInfinity
  | Infinity, Infinity | Infinity, NegInfinity
  | NegInfinity, Infinity | NegInfinity, NegInfinity => NaN
  end.

(** [a > b], [a >= b] and [a <= b]. *)
Definition gtb (a b : number) : bool :=
  match a, b with
  | Num x, Num y => x >? y
  | Num _, NegInfinity => true
  | Infinity, Num _ | Infinity, NegInfinity => true
  | _, _ => false
  end.

Definition geb (a b : number) : bool :=
  match a, b with
  | Num x, Num y => x >=? y
  | Num _, NegInfinity => true
  | Infinity, Num _ | Infinity, Infinity | Infinity, NegInfinity => true
  | NegInfinity, NegInfinity => true
  | _, _ => false
  end.

Definition leb (a b : number) : bool := geb b a.

(** [Math.max(a, b)], [Math.round(a)], [Math.sqrt(a)] and
    [Math.pow(a, n)]. *)
Definition max (a b : number) : number :=
  match a, b with
  | NaN, _ | _, NaN => NaN
  | Infinity, _ | _, Infinity => Infinity
  | NegInfinity, c | c, NegInfinity => c
  | Num x, Num y => Num (Math.max x y)
  end.

Definition round (a : number) : number :=
  match a with
  | Num x => Num (Math.round x)
  | _ => a
  end.

Definition sqrt (a : number) : number :=
  match a with
  | Num x => if 0 >? x then NaN else Num (Math.sqrt x)
  | Infinity => Infinity
  | NegInfinity | NaN => NaN
  end.

Definition pow (a : number) (n : nat) : number :=
  match n with
  | O => Num 1
  | S _ =>
      match a with
      | Num x => Num (Math.pow x n)
      | Infinity => Infinity
      | NegInfinity => if Nat.even n then Infinity else NegInfinity
      | NaN => NaN
      end
  end.

(** The real number that a [number] is, for a [number] that is one. *)
Definition real (a : number) : R :=
  match a with
  | Num x => x
  | _ => 0
  end.

End Number.

(** The outcome of a call: a value, or a [TypeError] raised on the way. *)
Inductive result (A : Type) : Type :=
| Returns (a : A)
| Throws.
Arguments Returns {A} a.
Arguments Throws {A}.

Definition bind {A B : Type} (r : result A) (k : A -> result B) : result B :=
  match r with
  | Returns a => k a
  | Throws => Throws
  end.

Notation "'let*' x ':=' r 'in' k" := (bind r (fun x => k))
  (at level 10, x pattern, r at level 100, k at level 200).

(** [a[i]] on an array: [undefined] out of range. *)
Definition array_get {A : Type} (a : list A) (i : Z) : option A :=
  if (i <? 0)%Z then None else nth_error a (Z.to_nat i).

(** ** Data model *)

(** A position [{x, y}]. *)
Record Position : Type := mkPosition { pos_x : R; pos_y : R }.

(** The [params] object of a track shape.  A field that a literal of the
    configuration omits is never read by the branch of its shape; the record
    gives it 0.  [startX] and [startY] are merged in by [initializeTrials]. *)
Record Params : Type := mkParams {
  startX : R;
  startY : R;
  endX : R;
  endY : R;
  amplitude : R;
  frequency : R;
  centerX : R;
  centerY : R;
  radius : R;
  points : list (R * R);
  duration : R
}.

(** An entry of [clickSequences]. *)
Record ClickSequence : Type := mkClickSequence {
  seq_id : string;
  positions : list Position
}.

(** An entry of [trackShapes]. *)
Record TrackShape : Type := mkTrackShape {
  track_id : string;
  shape : string;
  track_startX : R;
  track_startY : R;
  params : Params
}.

(** A trial definition; the constructor is the [type] field. *)
Inductive TrialDef : Type :=
| click_sequence (c : ClickSequence)
| track (s : TrackShape).

(** The [points] block of the configuration (field [cfgPoints] below). *)
Record PointsConfig : Type := mkPointsConfig {
  maxClickPoints : R;
  maxReactionTime : R;
  maxPointsPerSample : R;
  clickPerfectDist : R;
  clickGreatDist : R;
  clickPerfectTime : R;
  clickGreatTime : R;
  trackPerfectPct : R;
  trackGreatPct : R;
  trackOkPct : R
}.

Record Config : Type := mkConfig {
  clickSequences : list ClickSequence;
  trackShapes : list TrackShape;
  totalTrials : nat;
  targetRadius : R;
  trackingMaxDistance : R;
  samplingRate : R;
  cfgPoints : PointsConfig
}.

(** The configuration of the source. *)
Definition TRIAL_CONFIG : Config := {|
  clickSequences := [
    mkClickSequence "seq_1"
      [ mkPosition 0.2 0.3; mkPosition 0.4 0.5; mkPosition 0.6 0.3;
        mkPosition 0.8 0.5; mkPosition 0.5 0.7 ];
    mkClickSequence "seq_2"
      [ mkPosition 0.5 0.2; mkPosition 0.3 0.4; mkPosition 0.7 0.4;
        mkPosition 0.3 0.7; mkPosition 0.7 0.7 ];
    mkClickSequence "seq_3"
      [ mkPosition 0.15 0.5; mkPosition 0.35 0.3; mkPosition 0.5 0.6;
        mkPosition 0.65 0.3; mkPosition 0.85 0.5 ];
    mkClickSequence "seq_4"
      [ mkPosition 0.8 0.2; mkPosition 0.6 0.4; mkPosition 0.4 0.2;
        mkPosition 0.2 0.4; mkPosition 0.5 0.75 ];
    mkClickSequence "seq_5"
      [ mkPosition 0.5 0.15; mkPosition 0.25 0.35; mkPosition 0.75 0.35;
        mkPosition 0.35 0.65; mkPosition 0.65 0.65 ] ];
  trackShapes := [
    mkTrackShape "track_line" "line" 0.1 0.5
      {| startX := 0; startY := 0; endX := 0.9; endY := 0.5;
         amplitude := 0; frequency := 0; centerX := 0; centerY := 0;
         radius := 0; points := []; duration := 3000 |};
    mkTrackShape "track_wave" "wave" 0.1 0.5
      {| startX := 0; startY := 0; endX := 0.9; endY := 0;
         amplitude := 0.15; frequency := 2; centerX := 0; centerY := 0;
         radius := 0; points := []; duration := 4000 |};
    mkTrackShape "track_circle" "circle" 0.5 0.25
      {| startX := 0; startY := 0; endX := 0; endY := 0;
         amplitude := 0; frequency := 0; centerX := 0.5; centerY := 0.5;
         radius := 0.25; points := []; duration := 4000 |};
    mkTrackShape "track_blob" "blob" 0.3 0.3
      {| startX := 0; startY := 0; endX := 0; endY := 0;
         amplitude := 0; frequency := 0; centerX := 0; centerY := 0;
         radius := 0;
         points := [(0.3, 0.3); (0.7, 0.25); (0.75, 0.7); (0.25, 0.65)];
         duration := 5000 |};
    mkTrackShape "track_zigzag" "zigzag" 0.1 0.3
      {| startX := 0; startY := 0; endX := 0; endY := 0;
         amplitude := 0; frequency := 0; centerX := 0; centerY := 0;
         radius := 0;
         points := [(0.1, 0.3); (0.3, 0.7); (0.5, 0.3); (0.7, 0.7);
                    (0.9, 0.3)];
         duration := 4500 |} ];
  totalTrials := 20;
  targetRadius := 40;
  trackingMaxDistance := 80;
  samplingRate := 16;
  cfgPoints := {|
    maxClickPoints := 400;
    maxReactionTime := 1000;
    maxPointsPerSample := 5;
    clickPerfectDist := 10;
    clickGreatDist := 25;
    clickPerfectTime := 200;
    clickGreatTime := 400;
    trackPerfectPct := 0.9;
    trackGreatPct := 0.7;
    trackOkPct := 0.5 |}
|}.

(** ** Shape path calculators *)

Definition catmullRom (p0 p1 p2 p3 t : R) : R :=
  let t2 := t * t in
  let t3 := t2 * t in
  0.5 * (
    (2 * p1) +
    (- p0 + p2) * t +
    (2 * p0 - 5 * p1 + 4 * p2 - p3) * t2 +
    (- p0 + 3 * p1 - 3 * p2 + p3) * t3
  ).

Definition getPositionOnPath (shape : string) (params : Params)
    (progress canvasWidth canvasHeight : R) : result Position :=
  let t := Math.min 1 (Math.max 0 progress) in
  if (shape =? "line")%string then
    let x := params.(startX) + (params.(endX) - params.(startX)) * t in
    let y := params.(startY) + (params.(endY) - params.(startY)) * t in
    Returns (mkPosition (x * canvasWidth) (y * canvasHeight))
  else if (shape =? "wave")%string then
    let x := params.(startX) + (params.(endX) - params.(startX)) * t in
    let baseY := params.(startY) in
    let y := baseY
             + Math.sin (t * Math.PI * 2 * params.(frequency))
               * params.(amplitude) in
    Returns (mkPosition (x * canvasWidth) (y * canvasHeight))
  else if (shape =? "circle")%string then
    let angle := t * Math.PI * 2 - Math.PI / 2 in
    let x := params.(centerX) + Math.cos angle * params.(radius) in
    let y := params.(centerY) + Math.sin angle * params.(radius) in
    Returns (mkPosition (x * canvasWidth) (y * canvasHeight))
  else if ((shape =? "blob") || (shape =? "zigzag"))%string then
    let points := params.(points) in
    let totalSegments := (Z.of_nat (List.length points) - 1)%Z in
    let segmentProgress := t * IZR totalSegments in
    let segmentIndex :=
      Z.min (Math.floor segmentProgress) (totalSegments - 1) in
    let localT := segmentProgress - IZR segmentIndex in
    let p1 := array_get points segmentIndex in
    let p2 := array_get points (segmentIndex + 1) in
    if ((shape =? "blob")%string && (4 <=? List.length points)%nat)%bool then
      let p0 := array_get points (Z.max 0 (segmentIndex - 1)) in
      let p3 :=
        array_get points
          (Z.min (Z.of_nat (List.length points) - 1) (segmentIndex + 2)) in
      match p0, p1, p2, p3 with
      | Some p0, Some p1, Some p2, Some p3 =>
          let x := catmullRom (fst p0) (fst p1) (fst p2) (fst p3) localT in
          let y := catmullRom (snd p0) (snd p1) (snd p2) (snd p3) localT in
          Returns (mkPosition (x * canvasWidth) (y * canvasHeight))
      | _, _, _, _ => Throws
      end
    else
      match p1, p2 with
      | Some p1, Some p2 =>
          let x := fst p1 + (fst p2 - fst p1) * localT in
          let y := snd p1 + (snd p2 - snd p1) * localT in
          Returns (mkPosition (x * canvasWidth) (y * canvasHeight))
      | _, _ => Throws
      end
  else
    Returns (mkPosition (canvasWidth / 2) (canvasHeight / 2)).

(** ** Continuous point calculation *)

Inductive Grade : Type := PERFECT | GREAT | OK | POOR | MISS.

(** The object returned by [calculateClickPoints]; its [points] and [grade]
    fields are [click_points] and [click_grade]. *)
Record ClickPoints : Type := mkClickPoints {
  click_points : R;
  click_grade : Grade;
  accuracyFactor : R;
  timeFactor : R
}.

Definition calculateClickPoints (cfg : Config) (distance reactionTime : R)
    : ClickPoints :=
  let pts := cfg.(cfgPoints) in
  let radius := cfg.(targetRadius) in
  if distance >? radius then
    mkClickPoints 0 MISS 0 0
  else
    let accuracyFactor := Math.max 0 (1 - distance / radius) in
    let timeFactor :=
      Math.max 0 (1 - reactionTime / pts.(maxReactionTime)) in
    let points :=
      Math.round (pts.(maxClickPoints) * accuracyFactor * timeFactor) in
    let grade :=
      if (distance <=? pts.(clickPerfectDist))
         && (reactionTime <=? pts.(clickPerfectTime))
      then PERFECT
      else if (distance <=? pts.(clickGreatDist))
              && (reactionTime <=? pts.(clickGreatTime))
      then GREAT
      else OK in
    mkClickPoints points grade accuracyFactor timeFactor.

Definition calculateTrackingSamplePoints (cfg : Config) (distance : R)
    (isClicking : bool) : R :=
  let pts := cfg.(cfgPoints) in
  let maxDist := cfg.(trackingMaxDistance) in
  if negb isClicking then 0
  else
    let distanceFactor := Math.max 0 (1 - distance / maxDist) in
    pts.(maxPointsPerSample) * distanceFactor.

Definition getTrackingGrade (cfg : Config) (accuracy : R) : Grade :=
  let pts := cfg.(cfgPoints) in
  if accuracy >=? pts.(trackPerfectPct) then PERFECT
  else if accuracy >=? pts.(trackGreatPct) then GREAT
  else if accuracy >=? pts.(trackOkPct) then OK
  else POOR.

(** ** The trial runner: state *)

Inductive GameState : Type := Intro | Countdown | Playing | Results.

Definition GameState_eqb (a b : GameState) : bool :=
  match a, b with
  | Intro, Intro | Countdown, Countdown
  | Playing, Playing | Results, Results => true
  | _, _ => false
  end.

(** An element of [trials]: [{ ...allTrialTypes[randomIndex], instanceId }].
    [def] is [None] when the spread object was [undefined]. *)
Record TrialInstance : Type := mkTrialInstance {
  def : option TrialDef;
  instanceId : nat
}.

Record CanvasSize : Type := mkCanvasSize { width : R; height : R }.

(** An element of [samples] of a tracking trial. *)
Record Sample : Type := mkSample {
  s_time : R;
  s_progress : R;
  s_targetX : R;
  s_targetY : R;
  s_cursorX : R;
  s_cursorY : R;
  s_distance : R;
  s_isClicking : bool;
  s_samplePoints : R
}.

(** The [clickData] object. *)
Record ClickData : Type := mkClickData {
  c_trialId : string;
  c_instanceId : nat;
  c_clickIndex : nat;
  c_reactionTime : R;
  c_distance : R;
  c_points : R;
  c_grade : Grade;
  c_targetX : R;
  c_targetY : R;
  c_clickX : R;
  c_clickY : R;
  c_timestamp : R
}.

(** The [data] object of a finished tracking trial. *)
Record TrackData : Type := mkTrackData {
  t_trialId : string;
  t_instanceId : nat;
  t_shape : string;
  t_duration : R;
  t_accuracy : R;
  t_averageDistance : R;
  t_points : R;
  t_grade : Grade;
  t_samples : list Sample;
  t_timestamp : R
}.

(** An element of [trialData]; the constructor is its [type] field. *)
Inductive TrialData : Type :=
| click (c : ClickData)
| tracked (t : TrackData).

(** The closure [nextTrial] handed to [setTimeout]: it reads
    [currentTrialIndex] and [trials.length] of the render that created it. *)
Record NextTrialClosure : Type := mkNextTrialClosure {
  nt_currentTrialIndex : nat;
  nt_trialsLength : nat
}.

(** The closure of one call of [startTrackingAnimation]: the captured
    [trial], [canvasSize] and [nextTrial], the local variables shared by the
    interval callback and by [animate], and whether its interval and its
    animation frame chain are still scheduled. *)
Record Tracker : Type := mkTracker {
  tk_trial : TrackShape;
  tk_instanceId : nat;
  tk_canvasSize : CanvasSize;
  tk_nextTrial : NextTrialClosure;
  tk_startTime : R;
  tk_samples : list Sample;
  tk_lastTargetPos : Position;
  tk_accumulatedPoints : R;
  tk_sampling : bool;
  tk_animating : bool
}.

(** The state cells and ref cells of [OsuExperiment], the pending
    [setTimeout(nextTrial, 100)] calls in the order they were made, and the
    closures of [startTrackingAnimation] in the order they were created
    (an interval id is the position of its closure in [trackers]). *)
Record State : Type := mkState {
  gameState : GameState;
  trials : list TrialInstance;
  currentTrialIndex : nat;
  trialData : list TrialData;
  totalScore : R;
  countdown : nat;
  targetPosition : Position;
  cursorRef : Position;
  isClickingRef : bool;
  trackingStarted : bool;
  trialStartTime : R;
  currentClickIndex : nat;
  clickStartTime : R;
  trackingPointsRef : R;
  canvasSize : CanvasSize;
  sampleIntervalRef : option nat;
  timeouts : list NextTrialClosure;
  trackers : list Tracker
}.

Definition setGameState (v : GameState) (st : State) : State :=
  mkState v (trials st) (currentTrialIndex st) (trialData st)
    (totalScore st) (countdown st) (targetPosition st) (cursorRef st)
    (isClickingRef st) (trackingStarted st) (trialStartTime st)
    (currentClickIndex st) (clickStartTime st) (trackingPointsRef st)
    (canvasSize st) (sampleIntervalRef st) (timeouts st) (trackers st).

Definition setTrials (v : list TrialInstance) (st : State) : State :=
  mkState (gameState st) v (currentTrialIndex st) (trialData st)
    (totalScore st) (countdown st) (targetPosition st) (cursorRef st)
    (isClickingRef st) (trackingStarted st) (trialStartTime st)
    (currentClickIndex st) (clickStartTime st) (trackingPointsRef st)
    (canvasSize st) (sampleIntervalRef st) (timeouts st) (trackers st).

Definition setCurrentTrialIndex (f : nat -> nat)
    (st : State) : State :=
  mkState (gameState st) (trials st) (f (currentTrialIndex st))
    (trialData st) (totalScore st) (countdown st) (targetPosition st)
    (cursorRef st) (isClickingRef st) (trackingStarted st)
    (trialStartTime st) (currentClickIndex st) (clickStartTime st)
    (trackingPointsRef st) (canvasSize st) (sampleIntervalRef st)
    (timeouts st) (trackers st).

Definition setTrialData (f : list TrialData -> list TrialData)
    (st : State) : State :=
  mkState (gameState st) (trials st) (currentTrialIndex st)
    (f (trialData st)) (totalScore st) (countdown st) (targetPosition st)
    (cursorRef st) (isClickingRef st) (trackingStarted st)
    (trialStartTime st) (currentClickIndex st) (clickStartTime st)
    (trackingPointsRef st) (canvasSize st) (sampleIntervalRef st)
    (timeouts st) (trackers st).

Definition setTotalScore (f : R -> R)
    (st : State) : State :=
  mkState (gameState st) (trials st) (currentTrialIndex st) (trialData st)
    (f (totalScore st)) (countdown st) (targetPosition st) (cursorRef st)
    (isClickingRef st) (trackingStarted st) (trialStartTime st)
    (currentClickIndex st) (clickStartTime st) (trackingPointsRef st)
    (canvasSize st) (sampleIntervalRef st) (timeouts st) (trackers st).

Definition setCountdown (v : nat) (st : State) : State :=
  mkState (gameState st) (trials st) (currentTrialIndex st) (trialData st)
    (totalScore st) v (targetPosition st) (cursorRef st) (isClickingRef st)
    (trackingStarted st) (trialStartTime st) (currentClickIndex st)
    (clickStartTime st) (trackingPointsRef st) (canvasSize st)
    (sampleIntervalRef st) (timeouts st) (trackers st).

Definition setTargetPosition (v : Position) (st : State) : State :=
  mkState (gameState st) (trials st) (currentTrialIndex st) (trialData st)
    (totalScore st) (countdown st) v (cursorRef st) (isClickingRef st)
    (trackingStarted st) (trialStartTime st) (currentClickIndex st)
    (clickStartTime st) (trackingPointsRef st) (canvasSize st)
    (sampleIntervalRef st) (timeouts st) (trackers st).

Definition setCursorRef (v : Position) (st : State) : State :=
  mkState (gameState st) (trials st) (currentTrialIndex st) (trialData st)
    (totalScore st) (countdown st) (targetPosition st) v (isClickingRef st)
    (trackingStarted st) (trialStartTime st) (currentClickIndex st)
    (clickStartTime st) (trackingPointsRef st) (canvasSize st)
    (sampleIntervalRef st) (timeouts st) (trackers st).

Definition setIsClickingRef (v : bool) (st : State) : State :=
  mkState (gameState st) (trials st) (currentTrialIndex st) (trialData st)
    (totalScore st) (countdown st) (targetPosition st) (cursorRef st) v
    (trackingStarted st) (trialStartTime st) (currentClickIndex st)
    (clickStartTime st) (trackingPointsRef st) (canvasSize st)
    (sampleIntervalRef st) (timeouts st) (trackers st).

Definition setTrackingStarted (v : bool) (st : State) : State :=
  mkState (gameState st) (trials st) (currentTrialIndex st) (trialData st)
    (totalScore st) (countdown st) (targetPosition st) (cursorRef st)
    (isClickingRef st) v (trialStartTime st) (currentClickIndex st)
    (clickStartTime st) (trackingPointsRef st) (canvasSize st)
    (sampleIntervalRef st) (timeouts st) (trackers st).

Definition setTrialStartTime (v : R) (st : State) : State :=
  mkState (gameState st) (trials st) (currentTrialIndex st) (trialData st)
    (totalScore st) (countdown st) (targetPosition st) (cursorRef st)
    (isClickingRef st) (trackingStarted st) v (currentClickIndex st)
    (clickStartTime st) (trackingPointsRef st) (canvasSize st)
    (sampleIntervalRef st) (timeouts st) (trackers st).

Definition setCurrentClickIndex (v : nat) (st : State) : State :=
  mkState (gameState st) (trials st) (currentTrialIndex st) (trialData st)
    (totalScore st) (countdown st) (targetPosition st) (cursorRef st)
    (isClickingRef st) (trackingStarted st) (trialStartTime st) v
    (clickStartTime st) (trackingPointsRef st) (canvasSize st)
    (sampleIntervalRef st) (timeouts st) (trackers st).

Definition setClickStartTime (v : R) (st : State) : State :=
  mkState (gameState st) (trials st) (currentTrialIndex st) (trialData st)
    (totalScore st) (countdown st) (targetPosition st) (cursorRef st)
    (isClickingRef st) (trackingStarted st) (trialStartTime st)
    (currentClickIndex st) v (trackingPointsRef st) (canvasSize st)
    (sampleIntervalRef st) (timeouts st) (trackers st).

Definition setTrackingPointsRef (v : R) (st : State) : State :=
  mkState (gameState st) (trials st) (currentTrialIndex st) (trialData st)
    (totalScore st) (countdown st) (targetPosition st) (cursorRef st)
    (isClickingRef st) (trackingStarted st) (trialStartTime st)
    (currentClickIndex st) (clickStartTime st) v (canvasSize st)
    (sampleIntervalRef st) (timeouts st) (trackers st).

Definition setCanvasSize (v : CanvasSize) (st : State) : State :=
  mkState (gameState st) (trials st) (currentTrialIndex st) (trialData st)
    (totalScore st) (countdown st) (targetPosition st) (cursorRef st)
    (isClickingRef st) (trackingStarted st) (trialStartTime st)
    (currentClickIndex st) (clickStartTime st) (trackingPointsRef st) v
    (sampleIntervalRef st) (timeouts st) (trackers st).

Definition setSampleIntervalRef (v : option nat) (st : State) : State :=
  mkState (gameState st) (trials st) (currentTrialIndex st) (trialData st)
    (totalScore st) (countdown st) (targetPosition st) (cursorRef st)
    (isClickingRef st) (trackingStarted st) (trialStartTime st)
    (currentClickIndex st) (clickStartTime st) (trackingPointsRef st)
    (canvasSize st) v (timeouts st) (trackers st).

Definition setTimeouts (f : list NextTrialClosure -> list NextTrialClosure)
    (st : State) : State :=
  mkState (gameState st) (trials st) (currentTrialIndex st) (trialData st)
    (totalScore st) (countdown st) (targetPosition st) (cursorRef st)
    (isClickingRef st) (trackingStarted st) (trialStartTime st)
    (currentClickIndex st) (clickStartTime st) (trackingPointsRef st)
    (canvasSize st) (sampleIntervalRef st) (f (timeouts st)) (trackers st).

Definition setTrackers (f : list Tracker -> list Tracker)
    (st : State) : State :=
  mkState (gameState st) (trials st) (currentTrialIndex st) (trialData st)
    (totalScore st) (countdown st) (targetPosition st) (cursorRef st)
    (isClickingRef st) (trackingStarted st) (trialStartTime st)
    (currentClickIndex st) (clickStartTime st) (trackingPointsRef st)
    (canvasSize st) (sampleIntervalRef st) (timeouts st) (f (trackers st)).

Notation "st |> f" := (f st) (at level 45, left associativity, only parsing).

(** [l[k] = f(l[k])] on a closure list; nothing out of range. *)
Fixpoint update_nth {A : Type} (k : nat) (f : A -> A) (l : list A)
    {struct l} : list A :=
  match l, k with
  | [], _ => []
  | a :: l', O => f a :: l'
  | a :: l', S k' => a :: update_nth k' f l'
  end.

(** The state of the first render. *)
Definition initialState : State := {|
  gameState := Intro;
  trials := [];
  currentTrialIndex := 0;
  trialData := [];
  totalScore := 0;
  countdown := 3;
  targetPosition := mkPosition 0 0;
  cursorRef := mkPosition 0 0;
  isClickingRef := false;
  trackingStarted := false;
  trialStartTime := 0;
  currentClickIndex := 0;
  clickStartTime := 0;
  trackingPointsRef := 0;
  canvasSize := mkCanvasSize 800 600;
  sampleIntervalRef := None;
  timeouts := [];
  trackers := []
|}.

(** ** The trial runner: handlers *)

(** The object [{ ...s, params: { ...s.params, startX: s.startX,
    startY: s.startY } }] that [initializeTrials] makes of a track shape. *)
Definition withStart (s : TrackShape) : TrackShape :=
  let p := s.(params) in
  mkTrackShape s.(track_id) s.(shape) s.(track_startX) s.(track_startY)
    (mkParams s.(track_startX) s.(track_startY)
       p.(endX) p.(endY) p.(amplitude) p.(frequency)
       p.(centerX) p.(centerY) p.(radius) p.(points) p.(duration)).

(** [random i] is the value of the [i]-th call of [Math.random()]. *)
Definition initializeTrials (cfg : Config) (random : nat -> R) (st : State)
    : State :=
  let allTrialTypes :=
    map click_sequence cfg.(clickSequences) ++
    map (fun s => track (withStart s)) cfg.(trackShapes) in
  let selected :=
    map (fun i =>
           let randomIndex :=
             Math.floor (random i * INR (List.length allTrialTypes)) in
           mkTrialInstance (array_get allTrialTypes randomIndex) i)
        (seq 0 cfg.(totalTrials)) in
  st |> setTrials selected
     |> setCurrentTrialIndex (fun _ => 0%nat)
     |> setTrialData (fun _ => [])
     |> setTotalScore (fun _ => 0).

Definition startGame (cfg : Config) (random : nat -> R) (st : State)
    : State :=
  st |> initializeTrials cfg random
     |> setGameState Countdown
     |> setCountdown 3.

Definition startTrial (now : R) (st : State) : result State :=
  match nth_error st.(trials) st.(currentTrialIndex) with
  | None => Returns st
  | Some trial =>
      let st := st |> setTrialStartTime now
                   |> setTrackingStarted false
                   |> setIsClickingRef false
                   |> setTrackingPointsRef 0 in
      match trial.(def) with
      | Some (click_sequence c) =>
          match array_get c.(positions) 0 with
          | None => Throws
          | Some firstPos =>
              Returns
                (st |> setCurrentClickIndex 0
                    |> setTargetPosition
                         (mkPosition
                            (firstPos.(pos_x) * st.(canvasSize).(width))
                            (firstPos.(pos_y) * st.(canvasSize).(height)))
                    |> setClickStartTime now)
          end
      | Some (track s) =>
          let* startPos :=
            getPositionOnPath s.(shape) s.(params) 0
              st.(canvasSize).(width) st.(canvasSize).(height) in
          Returns (st |> setTargetPosition startPos)
      | None =>
          (* [trial.shape] is [undefined]: the default case of the switch *)
          Returns
            (st |> setTargetPosition
                     (mkPosition (st.(canvasSize).(width) / 2)
                                 (st.(canvasSize).(height) / 2)))
      end
  end.

(** The effect with dependencies [currentTrialIndex, gameState, trials,
    canvasSize]; it is run after each handler that writes one of them. *)
Definition startTrialEffect (now : R) (st : State) : result State :=
  if GameState_eqb st.(gameState) Playing
     && (0 <? List.length st.(trials))%nat
  then startTrial now st
  else Returns st.

(** The countdown effect: the one second timer, then the switch to
    ['playing'] on the render that shows 0. *)
Definition countdownTick (now : R) (st : State) : result State :=
  if GameState_eqb st.(gameState) Countdown && (0 <? st.(countdown))%nat
  then
    let st := st |> setCountdown (st.(countdown) - 1) in
    if (st.(countdown) =? 0)%nat
    then st |> setGameState Playing |> startTrialEffect now
    else Returns st
  else Returns st.

Definition updateSize (rectWidth rectHeight : R) (st : State) : State :=
  st |> setCanvasSize
          (mkCanvasSize (Math.min (rectWidth - 40) 900)
                        (Math.min (rectHeight - 40) 700)).

Definition handlePointerMove (x y : R) (st : State) : State :=
  st |> setCursorRef (mkPosition x y).

Definition nextTrial (c : NextTrialClosure) (st : State) : State :=
  if (c.(nt_currentTrialIndex) <? c.(nt_trialsLength) - 1)%nat
  then st |> setCurrentTrialIndex (fun prev => (prev + 1)%nat)
  else st |> setGameState Results.

(** [setTimeout(nextTrial, 100)] from the render of [st]. *)
Definition setTimeout_nextTrial (st : State) : State :=
  st |> setTimeouts
          (fun pending =>
             pending ++
             [mkNextTrialClosure st.(currentTrialIndex)
                                 (List.length st.(trials))]).

Definition startTrackingAnimation (now : R) (trial : TrackShape)
    (instance : nat) (st : State) : State :=
  let closure :=
    {| tk_trial := trial;
       tk_instanceId := instance;
       tk_canvasSize := st.(canvasSize);
       tk_nextTrial :=
         mkNextTrialClosure st.(currentTrialIndex)
                            (List.length st.(trials));
       tk_startTime := now;
       tk_samples := [];
       tk_lastTargetPos := st.(targetPosition);
       tk_accumulatedPoints := 0;
       tk_sampling := true;
       tk_animating := true |} in
  st |> setSampleIntervalRef (Some (List.length st.(trackers)))
     |> setTrackers (fun live => live ++ [closure]).

Definition handlePointerDown (cfg : Config) (x y now date : R) (st : State)
    : result State :=
  if negb (GameState_eqb st.(gameState) Playing) then Returns st
  else
    match nth_error st.(trials) st.(currentTrialIndex) with
    | None => Returns st
    | Some trial =>
        let st := st |> setIsClickingRef true in
        match trial.(def) with
        | Some (click_sequence c) =>
            let dist :=
              Math.sqrt
                (Math.pow (x - st.(targetPosition).(pos_x)) 2 +
                 Math.pow (y - st.(targetPosition).(pos_y)) 2) in
            let reactionTime := now - st.(clickStartTime) in
            let scored := calculateClickPoints cfg dist reactionTime in
            let points := scored.(click_points) in
            let grade := scored.(click_grade) in
            let clickData :=
              {| c_trialId := c.(seq_id);
                 c_instanceId := trial.(instanceId);
                 c_clickIndex := st.(currentClickIndex);
                 c_reactionTime := reactionTime;
                 c_distance := dist;
                 c_points := points;
                 c_grade := grade;
                 c_targetX := st.(targetPosition).(pos_x);
                 c_targetY := st.(targetPosition).(pos_y);
                 c_clickX := x;
                 c_clickY := y;
                 c_timestamp := date |} in
            let st := st |> setTotalScore (fun prev => prev + points)
                         |> setTrialData (fun prev => prev ++ [click clickData])
            in
            if (st.(currentClickIndex) <? List.length c.(positions) - 1)%nat
            then
              let nextIndex := (st.(currentClickIndex) + 1)%nat in
              match nth_error c.(positions) nextIndex with
              | None => Throws
              | Some nextPos =>
                  Returns
                    (st |> setCurrentClickIndex nextIndex
                        |> setTargetPosition
                             (mkPosition
                                (nextPos.(pos_x) * st.(canvasSize).(width))
                                (nextPos.(pos_y) * st.(canvasSize).(height)))
                        |> setClickStartTime now)
              end
            else Returns (st |> setTimeout_nextTrial)
        | Some (track s) =>
            if negb st.(trackingStarted)
            then
              Returns
                (st |> setTrackingStarted true
                    |> setTrialStartTime now
                    |> startTrackingAnimation now s trial.(instanceId))
            else Returns st
        | None => Returns st
        end
    end.

Definition handlePointerUp (st : State) : State :=
  st |> setIsClickingRef false.

(** ** Pointer events and special values

    The two pointer handlers compute the canvas coordinates of an event by
    [(e.clientX || e.touches?.[0]?.clientX) - rect.left], and likewise for
    the other axis (lines 459-460 and 494-495). *)

(** The fields of a mouse or touch event that the handlers read:
    [clientX] and [clientY] are [undefined] on a touch event, and
    [touches], the [clientX] and [clientY] of each touch point, is
    [undefined] on a mouse event. *)
Record PointerEvent : Type := mkPointerEvent {
  clientX : option R;
  clientY : option R;
  touches : option (list (R * R))
}.

(** The corner of [getBoundingClientRect()]. *)
Record DOMRect : Type := mkDOMRect { rect_left : R; rect_top : R }.

(** [e.touches?.[0]]. *)
Definition firstTouch (e : PointerEvent) : option (R * R) :=
  match e.(touches) with
  | Some (t :: _) => Some t
  | _ => None
  end.

(** [a || b] on two values that are each a number or [undefined]: both 0
    and [undefined] are falsy. *)
Definition or_else (a b : option R) : option R :=
  match a with
  | Some x => if Req_dec_T x 0 then b else Some x
  | None => b
  end.

(** [v - origin]: [undefined - origin] is [NaN]. *)
Definition minus_origin (v : option R) (origin : R) : number :=
  match v with
  | Some x => Num (x - origin)
  | None => NaN
  end.

Definition pointerX (e : PointerEvent) (rect : DOMRect) : number :=
  minus_origin (or_else e.(clientX) (option_map fst (firstTouch e)))
               rect.(rect_left).

Definition pointerY (e : PointerEvent) (rect : DOMRect) : number :=
  minus_origin (or_else e.(clientY) (option_map snd (firstTouch e)))
               rect.(rect_top).

(** The scoring of the source on values that may be special: the same
    expressions as above, operation for operation, over [number]. *)
Module Special.

Record ClickPoints : Type := mkClickPoints {
  click_points : number;
  click_grade : Grade;
  accuracyFactor : number;
  timeFactor : number
}.

Definition calculateClickPoints (cfg : Config) (distance : number)
    (reactionTime : R) : ClickPoints :=
  let pts := cfg.(cfgPoints) in
  let radius := cfg.(targetRadius) in
  if Number.gtb distance (Num radius) then
    mkClickPoints (Num 0) MISS (Num 0) (Num 0)
  else
    let accuracyFactor :=
      Number.max (Num 0)
        (Number.sub (Num 1) (Number.div distance (Num radius))) in
    let timeFactor :=
      Number.max (Num 0)
        (Number.sub (Num 1)
           (Number.div (Num reactionTime) (Num pts.(maxReactionTime)))) in
    let points :=
      Number.round
        (Number.mul (Number.mul (Num pts.(maxClickPoints)) accuracyFactor)
                    timeFactor) in
    let grade :=
      if Number.leb distance (Num pts.(clickPerfectDist))
         && (reactionTime <=? pts.(clickPerfectTime))
      then PERFECT
      else if Number.leb distance (Num pts.(clickGreatDist))
              && (reactionTime <=? pts.(clickGreatTime))
      then GREAT
      else OK in
    mkClickPoints points grade accuracyFactor timeFactor.

Definition calculateTrackingSamplePoints (cfg : Config) (distance : number)
    (isClicking : bool) : number :=
  let pts := cfg.(cfgPoints) in
  let maxDist := cfg.(trackingMaxDistance) in
  if negb isClicking then Num 0
  else
    let distanceFactor :=
      Number.max (Num 0)
        (Number.sub (Num 1) (Number.div distance (Num maxDist))) in
    Number.mul (Num pts.(maxPointsPerSample)) distanceFactor.

(** The distance of the pointer at [(x, y)] to a target. *)
Definition distance (x y : number) (target : Position) : number :=
  Number.sqrt
    (Number.add (Number.pow (Number.sub x (Num target.(pos_x))) 2)
                (Number.pow (Number.sub y (Num target.(pos_y))) 2)).

(** What the click branch of [handlePointerDown] computes from an event,
    up to the update of the total score at line 512. *)
Record Press : Type := mkPress {
  press_x : number;
  press_y : number;
  press_distance : number;
  press_points : number;
  press_grade : Grade;
  press_totalScore : number
}.

(** [handlePointerDown] on the event as the browser delivers it, on a
    mounted canvas: the press it scores, or [None] when the handler returns
    early or the trial is not a click sequence. *)
Definition handlePointerDown (cfg : Config) (e : PointerEvent)
    (rect : DOMRect) (now : R) (st : State) : option Press :=
  if negb (GameState_eqb st.(gameState) Playing) then None
  else
    match nth_error st.(trials) st.(currentTrialIndex) with
    | None => None
    | Some trial =>
        let x := pointerX e rect in
        let y := pointerY e rect in
        match trial.(def) with
        | Some (click_sequence c) =>
            let dist := distance x y st.(targetPosition) in
            let reactionTime := now - st.(clickStartTime) in
            let scored := calculateClickPoints cfg dist reactionTime in
            let points := scored.(click_points) in
            let grade := scored.(click_grade) in
            Some {| press_x := x;
                    press_y := y;
                    press_distance := dist;
                    press_points := points;
                    press_grade := grade;
                    press_totalScore :=
                      Number.add (Num st.(totalScore)) points |}
        | _ => None
        end
    end.

(** The accuracy and the average distance that [animate] computes at
    lines 620 to 624, with the division of the source. *)
Definition accuracy (samples : list Sample) : number :=
  let clickingSamples := filter (fun s => s.(s_isClicking)) samples in
  if (0 <? List.length samples)%nat
  then Number.div (Num (INR (List.length clickingSamples)))
                  (Num (INR (List.length samples)))
  else Num 0.

Definition avgDistance (samples : list Sample) : number :=
  if (0 <? List.length samples)%nat
  then Number.div
         (Num (fold_left (fun sum s => sum + s.(s_distance)) samples 0))
         (Num (INR (List.length samples)))
  else Num 0.

End Special.

(** ** The tracking sampler *)

(** The two callbacks of a tracking closure compute
    [progress = elapsed / duration] and test it.  The quotient is a
    [number]: over a duration of 0 it is [Infinity] once the clock has
    moved on from the start, so that the trial is over at its first frame
    and no sample is taken.  Where the progress is used as a real number
    ([Number.real progress]), for the position on the path and in the
    sample record, the duration is not 0, or else the clock reading is not
    after the start.  The clock of the source does not go back, which
    leaves a callback at the very reading of the start of a trial of
    duration 0: its progress, 0 / 0, is [NaN], for which no sample is
    taken, and the position that the animation frame computes from it is
    not represented: the model computes the position at progress 0.

    The record of a finished trial keeps the samples as they are when the
    trial is over.  The source stores the array of the closure itself,
    which an interval that was not cleared could still extend at the
    instant where the progress is exactly 1. *)

(** The callback of [setInterval] of closure [k]. *)
Definition sampleTick (cfg : Config) (k : nat) (now : R) (st : State)
    : result State :=
  match nth_error st.(trackers) k with
  | None => Returns st
  | Some tk =>
      if negb tk.(tk_sampling) then Returns st
      else
        let trial := tk.(tk_trial) in
        let elapsed := now - tk.(tk_startTime) in
        let progress :=
          Number.div (Num elapsed) (Num trial.(params).(duration)) in
        if Number.leb progress (Num 1) then
          let* targetPos :=
            getPositionOnPath trial.(shape) trial.(params)
              (Number.real progress)
              tk.(tk_canvasSize).(width) tk.(tk_canvasSize).(height) in
          let cursorPos := st.(cursorRef) in
          let distance :=
            Math.sqrt
              (Math.pow (cursorPos.(pos_x) - targetPos.(pos_x)) 2 +
               Math.pow (cursorPos.(pos_y) - targetPos.(pos_y)) 2) in
          let samplePoints :=
            calculateTrackingSamplePoints cfg distance st.(isClickingRef) in
          let accumulatedPoints :=
            tk.(tk_accumulatedPoints) + samplePoints in
          let sample :=
            {| s_time := elapsed;
               s_progress := Number.real progress;
               s_targetX := targetPos.(pos_x);
               s_targetY := targetPos.(pos_y);
               s_cursorX := cursorPos.(pos_x);
               s_cursorY := cursorPos.(pos_y);
               s_distance := distance;
               s_isClicking := st.(isClickingRef);
               s_samplePoints := samplePoints |} in
          Returns
            (st |> setTrackingPointsRef (Math.round accumulatedPoints)
                |> setTrackers
                     (update_nth k
                        (fun tk =>
                           mkTracker tk.(tk_trial) tk.(tk_instanceId)
                             tk.(tk_canvasSize) tk.(tk_nextTrial)
                             tk.(tk_startTime)
                             (tk.(tk_samples) ++ [sample])
                             targetPos
                             accumulatedPoints
                             tk.(tk_sampling) tk.(tk_animating))))
        else Returns st
  end.

(** [clearInterval(sampleIntervalRef.current)]. *)
Definition clearInterval (ref : option nat) (live : list Tracker)
    : list Tracker :=
  match ref with
  | None => live
  | Some id =>
      update_nth id
        (fun tk =>
           mkTracker tk.(tk_trial) tk.(tk_instanceId) tk.(tk_canvasSize)
             tk.(tk_nextTrial) tk.(tk_startTime) tk.(tk_samples)
             tk.(tk_lastTargetPos) tk.(tk_accumulatedPoints)
             false tk.(tk_animating))
        live
  end.

(** The statistics computed by [animate] when the trial is over.  The
    accuracy and the average distance are the quotients of
    [Special.accuracy] and [Special.avgDistance], taken with the division
    of the source under the guards of lines 621 to 624; they are real
    numbers whatever the samples, and the record keeps them as such. *)
Definition trackData (cfg : Config) (tk : Tracker) (date : R) : TrackData :=
  let samples := tk.(tk_samples) in
  let accuracy := Number.real (Special.accuracy samples) in
  let avgDistance := Number.real (Special.avgDistance samples) in
  let totalPoints := Math.round tk.(tk_accumulatedPoints) in
  let grade := getTrackingGrade cfg accuracy in
  {| t_trialId := tk.(tk_trial).(track_id);
     t_instanceId := tk.(tk_instanceId);
     t_shape := tk.(tk_trial).(shape);
     t_duration := tk.(tk_trial).(params).(duration);
     t_accuracy := accuracy;
     t_averageDistance := avgDistance;
     t_points := totalPoints;
     t_grade := grade;
     t_samples := samples;
     t_timestamp := date |}.

(** The animation frame callback [animate] of closure [k]. *)
Definition animate (cfg : Config) (k : nat) (now date : R) (st : State)
    : result State :=
  match nth_error st.(trackers) k with
  | None => Returns st
  | Some tk =>
      if negb tk.(tk_animating) then Returns st
      else
        let trial := tk.(tk_trial) in
        let elapsed := now - tk.(tk_startTime) in
        let progress :=
          Number.div (Num elapsed) (Num trial.(params).(duration)) in
        if Number.geb progress (Num 1) then
          let data := trackData cfg tk date in
          Returns
            (st |> setTrackers (clearInterval st.(sampleIntervalRef))
                |> setTotalScore (fun prev => prev + data.(t_points))
                |> setTrialData (fun prev => prev ++ [tracked data])
                |> setTimeouts (fun pending => pending ++ [tk.(tk_nextTrial)])
                |> setTrackers
                     (update_nth k
                        (fun tk =>
                           mkTracker tk.(tk_trial) tk.(tk_instanceId)
                             tk.(tk_canvasSize) tk.(tk_nextTrial)
                             tk.(tk_startTime) tk.(tk_samples)
                             tk.(tk_lastTargetPos)
                             tk.(tk_accumulatedPoints)
                             tk.(tk_sampling) false)))
        else
          let* newPos :=
            getPositionOnPath trial.(shape) trial.(params)
              (Number.real progress)
              tk.(tk_canvasSize).(width) tk.(tk_canvasSize).(height) in
          Returns
            (st |> setTargetPosition newPos
                |> setTrackers
                     (update_nth k
                        (fun tk =>
                           mkTracker tk.(tk_trial) tk.(tk_instanceId)
                             tk.(tk_canvasSize) tk.(tk_nextTrial)
                             tk.(tk_startTime) tk.(tk_samples)
                             newPos
                             tk.(tk_accumulatedPoints)
                             tk.(tk_sampling) tk.(tk_animating))))
  end.

(** ** Events and runs *)

(** What the host delivers to the component.  Clock readings come with the
    event: [now] is [performance.now()], [date] is [Date.now()].  A pointer
    event comes with its canvas coordinates [x] and [y]: it stands for the
    events [e] on a canvas at [rect] with [pointerX e rect = Num x] and
    [pointerY e rect = Num y].  An event one of whose coordinates is [NaN]
    is not an [Event]: what the click branch makes of it is
    [Special.handlePointerDown]. *)
Inductive Event : Type :=
| StartGame (random : nat -> R)
| CountdownTick (now : R)
| Resize (rectWidth rectHeight now : R)
| PointerMove (x y : R)
| PointerDown (x y now date : R)
| PointerUp
| TimeoutFires (now : R)
| SampleTick (k : nat) (now : R)
| AnimationFrame (k : nat) (now date : R)
| PlayAgain.

(** One event.  The START button exists on the intro screen only and the
    PLAY AGAIN button on the results screen only; timeouts fire in the order
    they were set, all of them having the same delay. *)
Definition step (cfg : Config) (st : State) (e : Event) : result State :=
  match e with
  | StartGame random =>
      if GameState_eqb st.(gameState) Intro
      then Returns (startGame cfg random st)
      else Returns st
  | CountdownTick now => countdownTick now st
  | Resize rectWidth rectHeight now =>
      st |> updateSize rectWidth rectHeight |> startTrialEffect now
  | PointerMove x y => Returns (handlePointerMove x y st)
  | PointerDown x y now date => handlePointerDown cfg x y now date st
  | PointerUp => Returns (handlePointerUp st)
  | TimeoutFires now =>
      match st.(timeouts) with
      | [] => Returns st
      | c :: pending =>
          st |> setTimeouts (fun _ => pending)
             |> nextTrial c
             |> startTrialEffect now
      end
  | SampleTick k now => sampleTick cfg k now st
  | AnimationFrame k now date => animate cfg k now date st
  | PlayAgain =>
      if GameState_eqb st.(gameState) Results
      then Returns (st |> setGameState Intro
                       |> setTrialData (fun _ => [])
                       |> setTotalScore (fun _ => 0))
      else Returns st
  end.

(** A sequence of events, stopped by the first uncaught [TypeError]. *)
Fixpoint run (cfg : Config) (st : State) (es : list Event) : result State :=
  match es with
  | [] => Returns st
  | e :: es' => let* st' := step cfg st e in run cfg st' es'
  end.

(** The events that begin a run: they reset the score. *)
Definition begins_run (e : Event) : bool :=
  match e with
  | StartGame _ | PlayAgain => true
  | _ => false
  end.

(** ** The results screen *)

Definition Grade_eqb (a b : Grade) : bool :=
  match a, b with
  | PERFECT, PERFECT | GREAT, GREAT | OK, OK | POOR, POOR | MISS, MISS =>
      true
  | _, _ => false
  end.

(** [trialData.filter(t => t.type === 'click')]. *)
Definition clickTrials (trialData : list TrialData) : list ClickData :=
  flat_map (fun t => match t with click c => [c] | tracked _ => [] end)
           trialData.

(** [trialData.filter(t => t.type === 'track')]. *)
Definition trackTrials (trialData : list TrialData) : list TrackData :=
  flat_map (fun t => match t with click _ => [] | tracked d => [d] end)
           trialData.

(** The figures of the CLICK SEQUENCES panel. *)
Record ClickStats : Type := mkClickStats {
  perfectHits : nat;
  greatHits : nat;
  avgRT : R;
  click_avgDist : R;
  clickPoints : R
}.

Definition clickStats (trialData : list TrialData) : ClickStats :=
  let clickTrials := clickTrials trialData in
  let perfectHits :=
    List.length
      (filter (fun t => Grade_eqb t.(c_grade) PERFECT) clickTrials) in
  let greatHits :=
    List.length
      (filter (fun t => Grade_eqb t.(c_grade) GREAT) clickTrials) in
  let avgRT :=
    if (0 <? List.length clickTrials)%nat
    then Math.round
           (fold_left (fun s t => s + t.(c_reactionTime)) clickTrials 0
            / INR (List.length clickTrials))
    else 0 in
  let avgDist :=
    if (0 <? List.length clickTrials)%nat
    then Math.round
           (fold_left (fun s t => s + t.(c_distance)) clickTrials 0
            / INR (List.length clickTrials))
    else 0 in
  let clickPoints :=
    fold_left (fun s t => s + t.(c_points)) clickTrials 0 in
  mkClickStats perfectHits greatHits avgRT avgDist clickPoints.

(** The figures of the TRACKING panel. *)
Record TrackStats : Type := mkTrackStats {
  avgAcc : R;
  track_avgDist : R;
  perfectTracks : nat;
  trackPoints : R
}.

Definition trackStats (trialData : list TrialData) : TrackStats :=
  let trackTrials := trackTrials trialData in
  let avgAcc :=
    if (0 <? List.length trackTrials)%nat
    then Math.round
           (fold_left (fun s t => s + t.(t_accuracy)) trackTrials 0
            / INR (List.length trackTrials) * 100)
    else 0 in
  let avgDist :=
    if (0 <? List.length trackTrials)%nat
    then Math.round
           (fold_left (fun s t => s + t.(t_averageDistance)) trackTrials 0
            / INR (List.length trackTrials))
    else 0 in
  let perfectTracks :=
    List.length
      (filter (fun t => Grade_eqb t.(t_grade) PERFECT) trackTrials) in
  let trackPoints :=
    fold_left (fun s t => s + t.(t_points)) trackTrials 0 in
  mkTrackStats avgAcc avgDist perfectTracks trackPoints.

(** ** Vocabulary of the properties *)

(** The [points] field of a recorded result. *)
Definition data_points (d : TrialData) : R :=
  match d with
  | click c => c.(c_points)
  | tracked t => t.(t_points)
  end.

Definition sum_points (l : list TrialData) : R :=
  fold_right (fun d acc => data_points d + acc) 0 l.

(** Every tracking closure has accumulated a non-negative amount. *)
Definition accumulators_nonneg (st : State) : Prop :=
  Forall (fun tk => 0 <= tk.(tk_accumulatedPoints)) st.(trackers).

(** [st'] extends [st] by the results [new] and by their points only. *)
Definition awards (st st' : State) (new : list TrialData) : Prop :=
  st'.(trialData) = st.(trialData) ++ new /\
  st'.(totalScore) = st.(totalScore) + sum_points new /\
  Forall (fun d => 0 <= data_points d) new.

(** The number of samples taken while the pointer was pressed. *)
Definition pressed_samples (samples : list Sample) : nat :=
  List.length (filter (fun s => s.(s_isClicking)) samples).

(** A definition that [startTrial] cannot start: a click sequence without
    positions, or a polyline shape without points. *)
Definition malformed_trial (d : TrialDef) : bool :=
  match d with
  | click_sequence c => (List.length c.(positions) =? 0)%nat
  | track s =>
      ((s.(shape) =? "blob") || (s.(shape) =? "zigzag"))%string
      && (List.length s.(params).(points) =? 0)%nat
  end.

Definition malformed_catalog (cfg : Config) : bool :=
  existsb malformed_trial
    (map click_sequence cfg.(clickSequences) ++
     map track cfg.(trackShapes)).

(** ** Example inputs *)

(** A random source whose every draw is 0: the first entry of the catalog
    is selected each time. *)
Definition always_first : nat -> R := fun _ => 0.

(** A press on the point [(x, y)] of the unit square, on the default canvas
    of 800 by 600, at clock reading [now]. *)
Definition press_on (x y now : R) : Event :=
  PointerDown (x * 800) (y * 600) now now.

(** Start, the countdown, and the five clicks of [seq_1], each on its
    target. *)
Definition five_clicks : list Event :=
  [ StartGame always_first;
    CountdownTick 0; CountdownTick 0; CountdownTick 0;
    press_on 0.2 0.3 0; press_on 0.4 0.5 0; press_on 0.6 0.3 0;
    press_on 0.8 0.5 0; press_on 0.5 0.7 0 ].

(** A sixth press, 50 ms after the fifth click, on the last target. *)
Definition late_press : Event := press_on 0.5 0.7 50.

(** A catalog whose only entry is a click sequence without positions. *)
Definition empty_sequence_config : Config := {|
  clickSequences := [ mkClickSequence "seq_empty" [] ];
  trackShapes := [];
  totalTrials := TRIAL_CONFIG.(totalTrials);
  targetRadius := TRIAL_CONFIG.(targetRadius);
  trackingMaxDistance := TRIAL_CONFIG.(trackingMaxDistance);
  samplingRate := TRIAL_CONFIG.(samplingRate);
  cfgPoints := TRIAL_CONFIG.(cfgPoints)
|}.

(** A catalog of two click sequences: the first one of the source, and
    one without positions. *)
Definition config_with_empty_sequence : Config := {|
  clickSequences :=
    [ mkClickSequence "seq_1"
        [ mkPosition 0.2 0.3; mkPosition 0.4 0.5; mkPosition 0.6 0.3;
          mkPosition 0.8 0.5; mkPosition 0.5 0.7 ];
      mkClickSequence "seq_empty" [] ];
  trackShapes := [];
  totalTrials := TRIAL_CONFIG.(totalTrials);
  targetRadius := TRIAL_CONFIG.(targetRadius);
  trackingMaxDistance := TRIAL_CONFIG.(trackingMaxDistance);
  samplingRate := TRIAL_CONFIG.(samplingRate);
  cfgPoints := TRIAL_CONFIG.(cfgPoints)
|}.

(** A tracking closure of the line shape that is over at clock reading
    3000, with two samples, the first of them pressed. *)
Definition finished_tracker : Tracker := {|
  tk_trial :=
    mkTrackShape "track_line" "line" 0.1 0.5
      (mkParams 0.1 0.5 0.9 0.5 0 0 0 0 0 [] 3000);
  tk_instanceId := 0;
  tk_canvasSize := mkCanvasSize 800 600;
  tk_nextTrial := mkNextTrialClosure 0 1;
  tk_startTime := 0;
  tk_samples :=
    [ mkSample 16 (16 / 3000) 84 300 84 300 0 true 5;
      mkSample 32 (32 / 3000) 88 300 88 300 0 false 0 ];
  tk_lastTargetPos := mkPosition 88 300;
  tk_accumulatedPoints := 5;
  tk_sampling := true;
  tk_animating := true
|}.

Definition tracking_example : State :=
  initialState |> setGameState Playing
               |> setTrackingStarted true
               |> setSampleIntervalRef (Some 0%nat)
               |> setTrackers (fun _ => [finished_tracker]).

(** The order of the grade labels, from the worst to the best. *)
Definition grade_rank (g : Grade) : nat :=
  match g with
  | MISS => 0
  | POOR => 1
  | OK => 2
  | GREAT => 3
  | PERFECT => 4
  end.

(** The sum of the points of the samples of a tracking trial. *)
Definition sample_points_sum (samples : list Sample) : R :=
  fold_right (fun s acc => s.(s_samplePoints) + acc) 0 samples.

(** A sample as the sampler records it: scored by the scoring function on
    its own distance and pressed flag, at a distance that is not negative
    and a progress that is not beyond 1. *)
Definition sample_consistent (cfg : Config) (s : Sample) : Prop :=
  s.(s_samplePoints)
  = calculateTrackingSamplePoints cfg s.(s_distance) s.(s_isClicking) /\
  0 <= s.(s_distance) /\
  s.(s_progress) <= 1.

(** A tracking closure whose accumulator is the sum of its samples. *)
Definition tracker_consistent (cfg : Config) (tk : Tracker) : Prop :=
  tk.(tk_accumulatedPoints) = sample_points_sum tk.(tk_samples) /\
  Forall (sample_consistent cfg) tk.(tk_samples).

(** A recorded result that agrees with the scoring functions. *)
Definition result_consistent (cfg : Config) (d : TrialData) : Prop :=
  match d with
  | click c =>
      c.(c_points)
      = click_points
          (calculateClickPoints cfg c.(c_distance) c.(c_reactionTime)) /\
      c.(c_grade)
      = click_grade
          (calculateClickPoints cfg c.(c_distance) c.(c_reactionTime)) /\
      0 <= c.(c_distance)
  | tracked t =>
      exists tk date, t = trackData cfg tk date /\ tracker_consistent cfg tk
  end.

(** While a click sequence is played, the click index is the index of one
    of its positions. *)
Definition click_index_in_range (st : State) : Prop :=
  st.(gameState) = Playing ->
  forall trial c,
    nth_error st.(trials) st.(currentTrialIndex) = Some trial ->
    trial.(def) = Some (click_sequence c) ->
    (st.(currentClickIndex) < List.length c.(positions))%nat.

(** A press event. *)
Definition is_press (e : Event) : Prop :=
  match e with
  | PointerDown _ _ _ _ => True
  | _ => False
  end.

(** The catalog that trial selection draws from. *)
Definition allTrialTypes (cfg : Config) : list TrialDef :=
  map click_sequence cfg.(clickSequences) ++
  map (fun s => track (withStart s)) cfg.(trackShapes).

(** What every state of a run satisfies: the score is the sum of the
    recorded points, the closures and the records agree with the scoring
    functions, and the click index is in range. *)
Definition run_invariant (cfg : Config) (st : State) : Prop :=
  st.(totalScore) = sum_points st.(trialData) /\
  Forall (tracker_consistent cfg) st.(trackers) /\
  Forall (result_consistent cfg) st.(trialData) /\
  click_index_in_range st.

(** A tracking closure held on the target for two samples. *)
Definition held_tracker : Tracker := {|
  tk_trial :=
    mkTrackShape "track_line" "line" 0.1 0.5
      (mkParams 0.1 0.5 0.9 0.5 0 0 0 0 0 [] 3000);
  tk_instanceId := 0;
  tk_canvasSize := mkCanvasSize 800 600;
  tk_nextTrial := mkNextTrialClosure 0 1;
  tk_startTime := 0;
  tk_samples :=
    [ mkSample 16 (16 / 3000) 84 300 84 300 0 true 5;
      mkSample 32 (32 / 3000) 88 300 88 300 0 true 5 ];
  tk_lastTargetPos := mkPosition 88 300;
  tk_accumulatedPoints := 10;
  tk_sampling := true;
  tk_animating := true
|}.

(** A schedule flag of closure [k] is off: [flag] is [tk_sampling] for its
    interval and [tk_animating] for its animation frame chain. *)
Definition tracker_flag_off (flag : Tracker -> bool) (k : nat) (st : State)
    : Prop :=
  exists tk, nth_error st.(trackers) k = Some tk /\ flag tk = false.

(** A flag that stays off on a closure whose two schedule flags are each
    kept or switched off. *)
Definition schedule_flag (flag : Tracker -> bool) : Prop :=
  forall a b,
    (b.(tk_sampling) = a.(tk_sampling) \/ b.(tk_sampling) = false) ->
    (b.(tk_animating) = a.(tk_animating) \/ b.(tk_animating) = false) ->
    flag a = false -> flag b = false.

(** ** Example events and catalogs *)

(** A mouse event at client coordinates [(x, y)], and a touch event whose
    first touch point is there. *)
Definition mouse (x y : R) : PointerEvent :=
  mkPointerEvent (Some x) (Some y) None.


(** A canvas 16 from the left edge of the viewport, on a page scrolled so
    that the top of the viewport is 180 below the top of the canvas: the
    first target of [seq_1], at (160, 180) on the default canvas, has the
    client coordinates (176, 0). *)
Definition scrolled_canvas : DOMRect := mkDOMRect 16 (-180).

(** Start and the countdown: the first trial is on. *)
Definition first_trial : list Event :=
  [ StartGame always_first;
    CountdownTick 0; CountdownTick 0; CountdownTick 0 ].

(** A session of two trials on a catalog of one click sequence of one
    position and the line of the source. *)
Definition click_and_line_config : Config := {|
  clickSequences := [ mkClickSequence "seq_one" [ mkPosition 0.5 0.5 ] ];
  trackShapes := [
    mkTrackShape "track_line" "line" 0.1 0.5
      {| startX := 0; startY := 0; endX := 0.9; endY := 0.5;
         amplitude := 0; frequency := 0; centerX := 0; centerY := 0;
         radius := 0; points := []; duration := 3000 |} ];
  totalTrials := 2;
  targetRadius := TRIAL_CONFIG.(targetRadius);
  trackingMaxDistance := TRIAL_CONFIG.(trackingMaxDistance);
  samplingRate := TRIAL_CONFIG.(samplingRate);
  cfgPoints := TRIAL_CONFIG.(cfgPoints)
|}.

(** Draws that select the first entry of a catalog of two, then the
    second. *)
Definition first_then_second : nat -> R :=
  fun i => match i with O => 0 | S _ => 0.5 end.

(** The click sequence is played by one click on its target; after the
    advance the line is started by a press on its first point at clock
    reading 200 and sampled twice, the pointer being released in between. *)
Definition line_sampled : list Event :=
  [ StartGame first_then_second;
    CountdownTick 0; CountdownTick 0; CountdownTick 0;
    press_on 0.5 0.5 50;
    TimeoutFires 150;
    PointerMove 80 300;
    PointerDown 80 300 200 200;
    SampleTick 0 216;
    PointerUp;
    SampleTick 0 232 ].

(** The same, to the animation frame that finds the line over. *)
Definition click_then_track : list Event :=
  line_sampled ++ [ AnimationFrame 0 3200 3200 ].

(** A session of one trial on a catalog whose only entry is a line of
    duration 0. *)
Definition zero_duration_config : Config := {|
  clickSequences := [];
  trackShapes := [
    mkTrackShape "track_still" "line" 0.1 0.5
      {| startX := 0; startY := 0; endX := 0.9; endY := 0.5;
         amplitude := 0; frequency := 0; centerX := 0; centerY := 0;
         radius := 0; points := []; duration := 0 |} ];
  totalTrials := 1;
  targetRadius := TRIAL_CONFIG.(targetRadius);
  trackingMaxDistance := TRIAL_CONFIG.(trackingMaxDistance);
  samplingRate := TRIAL_CONFIG.(samplingRate);
  cfgPoints := TRIAL_CONFIG.(cfgPoints)
|}.

(** The trial of duration 0 is started by a press at clock reading 200,
    and the interval fires once, at 216. *)
Definition zero_duration_trial : list Event :=
  [ StartGame always_first;
    CountdownTick 0; CountdownTick 0; CountdownTick 0;
    PointerDown 80 300 200 200;
    SampleTick 0 216 ].



(** * Properties *)

(** ** Numbers *)

Lemma Rgtb_true (a b : R) : (a >? b) = true <-> a > b.
Proof. unfold Rgtb. destruct (Rgt_dec a b); split; intros; try easy. Qed.

Lemma Rgtb_false (a b : R) : (a >? b) = false <-> a <= b.
Proof.
  unfold Rgtb. destruct (Rgt_dec a b); split; intros; try easy; lra.
Qed.

Lemma Rgeb_true (a b : R) : (a >=? b) = true <-> a >= b.
Proof. unfold Rgeb. destruct (Rge_dec a b); split; intros; try easy. Qed.

Lemma Rgeb_false (a b : R) : (a >=? b) = false <-> a < b.
Proof.
  unfold Rgeb. destruct (Rge_dec a b); split; intros; try easy; lra.
Qed.

Lemma Rleb_true (a b : R) : (a <=? b) = true <-> a <= b.
Proof. unfold Rleb. destruct (Rle_dec a b); split; intros; try easy. Qed.

Lemma Rleb_false (a b : R) : (a <=? b) = false <-> b < a.
Proof.
  unfold Rleb. destruct (Rle_dec a b); split; intros; try easy; lra.
Qed.

(** The quotient of two real numbers as a [number]. *)
Lemma div_nonzero (a b : R) :
  b <> 0 -> Number.div (Num a) (Num b) = Num (a / b).
Proof.
  intros Hb. unfold Number.div.
  destruct (Req_dec_T b 0); [contradiction | reflexivity].
Qed.

Lemma div_zero (a : R) :
  Number.div (Num a) (Num 0) = Number.signed Infinity a.
Proof.
  unfold Number.div. destruct (Req_dec_T 0 0); [reflexivity | lra].
Qed.

Lemma div_zero_positive (a : R) :
  0 < a -> Number.div (Num a) (Num 0) = Infinity.
Proof.
  intros Ha. rewrite div_zero. unfold Number.signed.
  rewrite (proj2 (Rgtb_true a 0)) by lra. reflexivity.
Qed.

Lemma div_zero_zero : Number.div (Num 0) (Num 0) = NaN.
Proof.
  rewrite div_zero. unfold Number.signed.
  rewrite (proj2 (Rgtb_false 0 0)) by lra. reflexivity.
Qed.

Lemma quotient_by_zero (a : R) : a / 0 = 0.
Proof. unfold Rdiv. rewrite Rinv_0. ring. Qed.

(** The real number that a quotient of real numbers is. *)
Lemma real_div (a b : R) : Number.real (Number.div (Num a) (Num b)) = a / b.
Proof.
  destruct (Req_dec_T b 0) as [-> | Hb].
  - rewrite div_zero, quotient_by_zero. unfold Number.signed.
    destruct (a >? 0); [reflexivity |].
    destruct (0 >? a); reflexivity.
  - rewrite div_nonzero by exact Hb. reflexivity.
Qed.

(** The test [elapsed / duration >= 1]: over a duration that is not 0 it
    is the test on the real quotient, and over a duration of 0 it holds
    exactly when the elapsed time is positive. *)
Lemma progress_over (a b : R) :
  Number.geb (Number.div (Num a) (Num b)) (Num 1) = true
  <-> (b <> 0 /\ a / b >= 1) \/ (b = 0 /\ 0 < a).
Proof.
  destruct (Req_dec_T b 0) as [-> | Hb].
  - rewrite div_zero. unfold Number.signed.
    destruct (a >? 0) eqn:Hpos.
    + apply Rgtb_true in Hpos. cbn. split; [right; split; lra | auto].
    + apply Rgtb_false in Hpos.
      assert (Hno : ~ ((0 <> 0 /\ a / 0 >= 1) \/ (0 = 0 /\ 0 < a)))
        by (intros [[H _] | [_ H]]; [apply H; reflexivity | lra]).
      destruct (0 >? a); cbn; split; intros H;
        try discriminate H; contradiction.
  - rewrite div_nonzero by exact Hb. cbn. rewrite Rgeb_true.
    split; [intros H; left; auto | intros [[_ H] | [H _]]; tauto].
Qed.

Lemma progress_over_of_quotient (a b : R) :
  a / b >= 1 -> Number.geb (Number.div (Num a) (Num b)) (Num 1) = true.
Proof.
  intros H. apply progress_over. left. split; [| exact H].
  intros ->. rewrite quotient_by_zero in H. lra.
Qed.

(** The test [elapsed / duration <= 1] bounds the real quotient. *)
Lemma progress_within (a b : R) :
  Number.leb (Number.div (Num a) (Num b)) (Num 1) = true -> a / b <= 1.
Proof.
  destruct (Req_dec_T b 0) as [-> | Hb].
  - intros _. rewrite quotient_by_zero. lra.
  - rewrite div_nonzero by exact Hb. unfold Number.leb. cbn.
    rewrite Rgeb_true. lra.
Qed.

Lemma progress_within_of_quotient (a b : R) :
  b <> 0 -> a / b <= 1 ->
  Number.leb (Number.div (Num a) (Num b)) (Num 1) = true.
Proof.
  intros Hb H. rewrite div_nonzero by exact Hb.
  unfold Number.leb. cbn [Number.geb]. apply Rgeb_true. lra.
Qed.

(** Over a duration of 0, once the clock has moved on from the start, the
    trial is over and beyond its last sample. *)
Lemma zero_duration_over (a : R) :
  0 < a -> Number.geb (Number.div (Num a) (Num 0)) (Num 1) = true.
Proof. intros Ha. rewrite div_zero_positive by exact Ha. reflexivity. Qed.

Lemma zero_duration_beyond (a : R) :
  0 < a -> Number.leb (Number.div (Num a) (Num 0)) (Num 1) = false.
Proof. intros Ha. rewrite div_zero_positive by exact Ha. reflexivity. Qed.

Lemma Rgeb_Rleb (a b : R) : (a >=? b) = (b <=? a).
Proof.
  destruct (b <=? a) eqn:H.
  - apply Rleb_true in H. apply Rgeb_true. lra.
  - apply Rleb_false in H. apply Rgeb_false. lra.
Qed.

Lemma add_NaN (a : number) : Number.add a NaN = NaN.
Proof. destruct a; reflexivity. Qed.

Lemma floor_zero : Math.floor 0 = 0%Z.
Proof. apply (ZfloorZ 0). Qed.

Lemma floor_half_of_two : Math.floor (5 * / 10 * INR 2) = 1%Z.
Proof.
  replace (5 * / 10 * INR 2) with (IZR 1) by (simpl; lra).
  apply ZfloorZ.
Qed.

Lemma max_nonneg (a : R) : 0 <= Math.max 0 a.
Proof. apply Rmax_l. Qed.

Lemma max_zero_of_nonpos (a : R) : a <= 0 -> Math.max 0 a = 0.
Proof. intros H. unfold Math.max. apply Rmax_left. exact H. Qed.

Lemma max_of_nonneg (a : R) : 0 <= a -> Math.max 0 a = a.
Proof. intros H. unfold Math.max. apply Rmax_right. exact H. Qed.

Lemma max_monotone (a b : R) : a <= b -> Math.max 0 a <= Math.max 0 b.
Proof. intros H. unfold Math.max. apply Rle_max_compat_l. exact H. Qed.

Lemma round_integer (z : Z) : Math.round (IZR z) = IZR z.
Proof.
  unfold Math.round. f_equal. apply Zfloor_eq. lra.
Qed.

Lemma round_zero : Math.round 0 = 0.
Proof. exact (round_integer 0). Qed.

Lemma round_monotone (a b : R) : a <= b -> Math.round a <= Math.round b.
Proof.
  intros H. unfold Math.round. apply IZR_le, Zfloor_le. lra.
Qed.

Lemma round_nonneg (a : R) : 0 <= a -> 0 <= Math.round a.
Proof.
  intros H. rewrite <- round_zero. apply round_monotone. exact H.
Qed.

Lemma clamp_zero : Math.min 1 (Math.max 0 0) = 0.
Proof.
  unfold Math.min, Math.max. rewrite Rmax_left by lra.
  apply Rmin_right. lra.
Qed.

Lemma sqrt_of_squares_zero (a b : R) :
  Math.sqrt (Math.pow (a - a) 2 + Math.pow (b - b) 2) = 0.
Proof.
  unfold Math.sqrt, Math.pow.
  replace ((a - a) ^ 2 + (b - b) ^ 2) with 0 by ring.
  apply sqrt_0.
Qed.

(** ** Scoring *)

Section Scoring.

Variable cfg : Config.

Lemma calculateClickPoints_miss (d rt : R) :
  d > cfg.(targetRadius) ->
  calculateClickPoints cfg d rt = mkClickPoints 0 MISS 0 0.
Proof.
  intros H. unfold calculateClickPoints.
  rewrite (proj2 (Rgtb_true _ _) H). reflexivity.
Qed.

Lemma calculateClickPoints_inside (d rt : R) :
  d <= cfg.(targetRadius) ->
  click_points (calculateClickPoints cfg d rt) =
  Math.round
    (cfg.(cfgPoints).(maxClickPoints)
     * Math.max 0 (1 - d / cfg.(targetRadius))
     * Math.max 0 (1 - rt / cfg.(cfgPoints).(maxReactionTime))).
Proof.
  intros H. unfold calculateClickPoints.
  rewrite (proj2 (Rgtb_false _ _) H). reflexivity.
Qed.

Lemma click_points_nonneg (d rt : R) :
  0 <= cfg.(cfgPoints).(maxClickPoints) ->
  0 <= click_points (calculateClickPoints cfg d rt).
Proof.
  intros Hm. destruct (Rle_dec d cfg.(targetRadius)) as [Hd | Hd].
  - rewrite calculateClickPoints_inside by exact Hd.
    apply round_nonneg.
    apply Rmult_le_pos; [apply Rmult_le_pos |];
      auto using max_nonneg.
  - rewrite calculateClickPoints_miss by lra. simpl. lra.
Qed.

Lemma tracking_sample_points_nonneg (d : R) (isClicking : bool) :
  0 <= cfg.(cfgPoints).(maxPointsPerSample) ->
  0 <= calculateTrackingSamplePoints cfg d isClicking.
Proof.
  intros Hm. unfold calculateTrackingSamplePoints.
  destruct isClicking; simpl; [| lra].
  apply Rmult_le_pos; auto using max_nonneg.
Qed.

(** C2. A distance strictly above the configured target radius scores 0
    points with grade MISS whatever the reaction time; any other distance
    scores [round (maxClickPoints * max 0 (1 - d / targetRadius)
    * max 0 (1 - rt / maxReactionTime))]. *)
Theorem calculateClickPoints_points (d rt : R) :
  (d > cfg.(targetRadius) ->
   click_points (calculateClickPoints cfg d rt) = 0 /\
   click_grade (calculateClickPoints cfg d rt) = MISS) /\
  (~ d > cfg.(targetRadius) ->
   click_points (calculateClickPoints cfg d rt) =
   Math.round
     (cfg.(cfgPoints).(maxClickPoints)
      * Math.max 0 (1 - d / cfg.(targetRadius))
      * Math.max 0 (1 - rt / cfg.(cfgPoints).(maxReactionTime)))).
Proof.
  split; intros H.
  - rewrite calculateClickPoints_miss by exact H. split; reflexivity.
  - apply calculateClickPoints_inside. lra.
Qed.

(** C5. With a positive target radius, a positive maximal reaction time
    and non-negative maximal click points, the points of a click do not
    increase when the distance grows nor when the reaction time grows,
    the step to the miss branch included. *)
Theorem calculateClickPoints_monotone
    (Hradius : 0 < cfg.(targetRadius))
    (Htime : 0 < cfg.(cfgPoints).(maxReactionTime))
    (Hmax : 0 <= cfg.(cfgPoints).(maxClickPoints)) :
  (forall d1 d2 rt, d1 <= d2 ->
     click_points (calculateClickPoints cfg d2 rt)
     <= click_points (calculateClickPoints cfg d1 rt)) /\
  (forall rt1 rt2 d, rt1 <= rt2 ->
     click_points (calculateClickPoints cfg d rt2)
     <= click_points (calculateClickPoints cfg d rt1)).
Proof.
  split.
  - intros d1 d2 rt Hd.
    destruct (Rle_dec d2 cfg.(targetRadius)) as [H2 | H2].
    + rewrite !calculateClickPoints_inside by lra.
      apply round_monotone.
      apply Rmult_le_compat_r; [apply max_nonneg |].
      apply Rmult_le_compat_l; [exact Hmax |].
      apply max_monotone.
      apply Rplus_le_compat_l, Ropp_le_contravar.
      apply Rmult_le_compat_r; [| exact Hd].
      left. apply Rinv_0_lt_compat. exact Hradius.
    + rewrite (calculateClickPoints_miss d2) by lra.
      apply click_points_nonneg. exact Hmax.
  - intros rt1 rt2 d Hrt.
    destruct (Rle_dec d cfg.(targetRadius)) as [Hd | Hd].
    + rewrite !calculateClickPoints_inside by lra.
      apply round_monotone.
      apply Rmult_le_compat_l.
      * apply Rmult_le_pos; [exact Hmax | apply max_nonneg].
      * apply max_monotone.
        apply Rplus_le_compat_l, Ropp_le_contravar.
        apply Rmult_le_compat_r; [| exact Hrt].
        left. apply Rinv_0_lt_compat. exact Htime.
    + rewrite !calculateClickPoints_miss by lra. simpl. lra.
Qed.

(** C6. A sample taken while the pointer is not pressed scores 0; a
    pressed sample scores [maxPointsPerSample * max 0 (1 - d /
    trackingMaxDistance)], which is [maxPointsPerSample] at distance 0
    and 0 at every distance at or beyond [trackingMaxDistance]. *)
Theorem calculateTrackingSamplePoints_values
    (Hdist : 0 < cfg.(trackingMaxDistance)) :
  (forall d, calculateTrackingSamplePoints cfg d false = 0) /\
  (forall d,
     calculateTrackingSamplePoints cfg d true =
     cfg.(cfgPoints).(maxPointsPerSample)
     * Math.max 0 (1 - d / cfg.(trackingMaxDistance))) /\
  calculateTrackingSamplePoints cfg 0 true
  = cfg.(cfgPoints).(maxPointsPerSample) /\
  (forall d, cfg.(trackingMaxDistance) <= d ->
     calculateTrackingSamplePoints cfg d true = 0).
Proof.
  split; [| split; [| split]].
  - intros d. reflexivity.
  - intros d. reflexivity.
  - unfold calculateTrackingSamplePoints. simpl.
    rewrite max_of_nonneg; [lra |].
    unfold Rdiv. rewrite Rmult_0_l. lra.
  - intros d Hd. unfold calculateTrackingSamplePoints. simpl.
    rewrite max_zero_of_nonpos; [lra |].
    assert (1 <= d / cfg.(trackingMaxDistance)); [| lra].
    apply Rmult_le_reg_r with (r := cfg.(trackingMaxDistance));
      [exact Hdist |].
    unfold Rdiv. rewrite Rmult_assoc, Rinv_l by lra. lra.
Qed.

(** C10. A click at a distance equal to the target radius does not take
    the miss branch: for every reaction time its points are 0, its grade
    is not MISS, and the grade is OK when both distance thresholds of the
    labels lie below the radius, as the default ones do. *)
Theorem calculateClickPoints_at_radius
    (Hradius : 0 < cfg.(targetRadius)) (rt : R) :
  click_points (calculateClickPoints cfg cfg.(targetRadius) rt) = 0 /\
  click_grade (calculateClickPoints cfg cfg.(targetRadius) rt) <> MISS /\
  (cfg.(cfgPoints).(clickPerfectDist) < cfg.(targetRadius) ->
   cfg.(cfgPoints).(clickGreatDist) < cfg.(targetRadius) ->
   click_grade (calculateClickPoints cfg cfg.(targetRadius) rt) = OK).
Proof.
  assert (Hone : cfg.(targetRadius) / cfg.(targetRadius) = 1)
    by (unfold Rdiv; apply Rinv_r; lra).
  split; [| split].
  - rewrite calculateClickPoints_inside by lra.
    rewrite Hone, max_zero_of_nonpos by lra.
    rewrite Rmult_0_r, Rmult_0_l. apply round_zero.
  - unfold calculateClickPoints.
    rewrite (proj2 (Rgtb_false _ _)) by lra. simpl.
    destruct (_ && _); [discriminate |].
    destruct (_ && _); discriminate.
  - intros HP HG. unfold calculateClickPoints.
    rewrite (proj2 (Rgtb_false _ _)) by lra. simpl.
    rewrite (proj2 (Rleb_false cfg.(targetRadius)
                      cfg.(cfgPoints).(clickPerfectDist))) by lra.
    rewrite (proj2 (Rleb_false cfg.(targetRadius)
                      cfg.(cfgPoints).(clickGreatDist))) by lra.
    reflexivity.
Qed.

End Scoring.

Lemma calculateClickPoints_points_witness :
  (click_points (calculateClickPoints TRIAL_CONFIG 50 0) = 0 /\
   click_grade (calculateClickPoints TRIAL_CONFIG 50 0) = MISS) /\
  click_points (calculateClickPoints TRIAL_CONFIG 20 500) =
  Math.round (400 * Math.max 0 (1 - 20 / 40) * Math.max 0 (1 - 500 / 1000)).
Proof.
  split.
  - apply (proj1 (calculateClickPoints_points TRIAL_CONFIG 50 0)).
    simpl. lra.
  - apply (proj2 (calculateClickPoints_points TRIAL_CONFIG 20 500)).
    simpl. lra.
Defined.

Lemma calculateClickPoints_monotone_witness :
  click_points (calculateClickPoints TRIAL_CONFIG 50 100)
  <= click_points (calculateClickPoints TRIAL_CONFIG 10 100) /\
  click_points (calculateClickPoints TRIAL_CONFIG 10 900)
  <= click_points (calculateClickPoints TRIAL_CONFIG 10 100).
Proof.
  assert (H : 0 < targetRadius TRIAL_CONFIG /\
              0 < maxReactionTime (cfgPoints TRIAL_CONFIG) /\
              0 <= maxClickPoints (cfgPoints TRIAL_CONFIG))
    by (simpl; lra).
  destruct H as [Hr [Ht Hm]].
  destruct (calculateClickPoints_monotone TRIAL_CONFIG Hr Ht Hm)
    as [Hd Hrt].
  split.
  - apply Hd. lra.
  - apply Hrt. lra.
Defined.

Lemma calculateTrackingSamplePoints_values_witness :
  calculateTrackingSamplePoints TRIAL_CONFIG 0 true = 5 /\
  calculateTrackingSamplePoints TRIAL_CONFIG 80 true = 0 /\
  calculateTrackingSamplePoints TRIAL_CONFIG 3 false = 0.
Proof.
  assert (H : 0 < trackingMaxDistance TRIAL_CONFIG) by (simpl; lra).
  destruct (calculateTrackingSamplePoints_values TRIAL_CONFIG H)
    as [Hfalse [_ [Hzero Hfar]]].
  split; [exact Hzero | split].
  - apply Hfar. simpl. lra.
  - apply Hfalse.
Defined.

Lemma calculateClickPoints_at_radius_witness :
  click_points (calculateClickPoints TRIAL_CONFIG 40 250) = 0 /\
  click_grade (calculateClickPoints TRIAL_CONFIG 40 250) = OK.
Proof.
  assert (H : 0 < targetRadius TRIAL_CONFIG) by (simpl; lra).
  destruct (calculateClickPoints_at_radius TRIAL_CONFIG H 250)
    as [Hpoints [_ Hgrade]].
  split; [exact Hpoints |].
  apply Hgrade; simpl; lra.
Defined.

(** ** Path calculator *)

(** C9. For a shape name other than line, wave, circle, blob and zigzag,
    [getPositionOnPath] returns normally, for every progress value and every
    canvas size, and the position it returns is the centre of the canvas. *)
Theorem getPositionOnPath_unknown_shape
    (shape : string) (params : Params) (progress w h : R) :
  shape <> "line" -> shape <> "wave" -> shape <> "circle" ->
  shape <> "blob" -> shape <> "zigzag" ->
  getPositionOnPath shape params progress w h
  = Returns (mkPosition (w / 2) (h / 2)).
Proof.
  intros Hline Hwave Hcircle Hblob Hzigzag.
  unfold getPositionOnPath.
  apply String.eqb_neq in Hline, Hwave, Hcircle, Hblob, Hzigzag.
  rewrite Hline, Hwave, Hcircle, Hblob, Hzigzag. reflexivity.
Qed.

Lemma getPositionOnPath_unknown_shape_witness :
  getPositionOnPath "spiral" (mkParams 0.1 0.5 0.9 0.5 0 0 0 0 0 [] 3000)
    0.25 800 600
  = Returns (mkPosition (800 / 2) (600 / 2)).
Proof.
  apply getPositionOnPath_unknown_shape; discriminate.
Defined.

Lemma catmullRom_start (p0 p1 p2 p3 : R) : catmullRom p0 p1 p2 p3 0 = p1.
Proof. unfold catmullRom. lra. Qed.

Lemma getPositionOnPath_line_start (params : Params) (w h : R) :
  getPositionOnPath "line" params 0 w h
  = Returns (mkPosition (params.(startX) * w) (params.(startY) * h)).
Proof.
  unfold getPositionOnPath. rewrite clamp_zero. simpl.
  apply f_equal, f_equal2; ring.
Qed.

Lemma getPositionOnPath_wave_start (params : Params) (w h : R) :
  getPositionOnPath "wave" params 0 w h
  = Returns (mkPosition (params.(startX) * w) (params.(startY) * h)).
Proof.
  unfold getPositionOnPath. rewrite clamp_zero. simpl.
  unfold Math.sin. rewrite !Rmult_0_l, sin_0.
  apply f_equal, f_equal2; ring.
Qed.

(** Progress 0 on the circle is its top: one radius above the centre. *)
Lemma getPositionOnPath_circle_start (params : Params) (w h : R) :
  getPositionOnPath "circle" params 0 w h
  = Returns (mkPosition (params.(centerX) * w)
                        ((params.(centerY) - params.(radius)) * h)).
Proof.
  unfold getPositionOnPath. rewrite clamp_zero. simpl.
  unfold Math.sin, Math.cos, Math.PI.
  replace (0 * PI * 2 - PI / 2) with (- (PI / 2)) by lra.
  rewrite cos_neg, sin_neg, cos_PI2, sin_PI2.
  apply f_equal, f_equal2; ring.
Qed.

(** Progress 0 on a polyline of at least two points is its first point,
    on the straight segments as on the smooth curve. *)
Lemma getPositionOnPath_polyline_start
    (shape : string) (params : Params) (w h : R) (p q : R * R)
    (rest : list (R * R)) :
  shape = "blob" \/ shape = "zigzag" ->
  params.(points) = p :: q :: rest ->
  getPositionOnPath shape params 0 w h
  = Returns (mkPosition (fst p * w) (snd p * h)).
Proof.
  intros Hshape Hpoints.
  assert (Hbranch :
    (shape =? "line")%string = false /\ (shape =? "wave")%string = false /\
    (shape =? "circle")%string = false /\
    ((shape =? "blob") || (shape =? "zigzag"))%string = true)
    by (destruct Hshape; subst shape; repeat split; reflexivity).
  destruct Hbranch as [Hl [Hw [Hc Hb]]].
  unfold getPositionOnPath. rewrite Hl, Hw, Hc, Hb, clamp_zero, Hpoints.
  cbv zeta. rewrite Rmult_0_l.
  replace (Math.floor 0) with 0%Z by (symmetry; apply (ZfloorZ 0)).
  assert (Hmin : Z.min 0 (Z.of_nat (List.length (p :: q :: rest)) - 1 - 1)
                 = 0%Z) by (simpl List.length; lia).
  rewrite Hmin. simpl array_get at 1 2.
  replace (0 - 0) with 0 by lra.
  destruct ((shape =? "blob")%string
            && (4 <=? List.length (p :: q :: rest))%nat) eqn:Hsmooth.
  - apply andb_prop in Hsmooth. destruct Hsmooth as [_ Hlen].
    apply Nat.leb_le in Hlen.
    destruct rest as [| r1 [| r2 rest']]; simpl in Hlen; try lia.
    replace (Z.min (Z.of_nat (List.length (p :: q :: r1 :: r2 :: rest')) - 1)
               (0 + 2)) with 2%Z by (simpl List.length; lia).
    simpl. rewrite !catmullRom_start. reflexivity.
  - apply f_equal, f_equal2; ring.
Qed.

(** C4. For every track shape of the configured catalog and every positive
    canvas width and height, the position at progress 0, computed on the
    parameters that trial selection hands to the runner, is the declared
    start position scaled to the canvas. *)
Theorem getPositionOnPath_start (s : TrackShape) (w h : R) :
  In s TRIAL_CONFIG.(trackShapes) -> 0 < w -> 0 < h ->
  getPositionOnPath s.(shape) (withStart s).(params) 0 w h
  = Returns (mkPosition (s.(track_startX) * w) (s.(track_startY) * h)).
Proof.
  intros Hin _ _. simpl in Hin.
  destruct Hin as [H | [H | [H | [H | [H | []]]]]]; subst s;
    cbn [shape withStart params track_startX track_startY].
  - apply getPositionOnPath_line_start.
  - apply getPositionOnPath_wave_start.
  - rewrite getPositionOnPath_circle_start.
    apply f_equal, f_equal2; cbn [centerX centerY radius]; lra.
  - apply (getPositionOnPath_polyline_start "blob" _ w h (0.3, 0.3)
             (0.7, 0.25) [(0.75, 0.7); (0.25, 0.65)]);
      [left; reflexivity | reflexivity].
  - apply (getPositionOnPath_polyline_start "zigzag" _ w h (0.1, 0.3)
             (0.3, 0.7) [(0.5, 0.3); (0.7, 0.7); (0.9, 0.3)]);
      [right; reflexivity | reflexivity].
Qed.

Lemma getPositionOnPath_start_witness :
  getPositionOnPath "circle"
    (mkParams 0.5 0.25 0 0 0 0 0.5 0.5 0.25 [] 4000) 0 800 600
  = Returns (mkPosition (0.5 * 800) (0.25 * 600)).
Proof.
  apply (getPositionOnPath_start
           (mkTrackShape "track_circle" "circle" 0.5 0.25
              (mkParams 0 0 0 0 0 0 0.5 0.5 0.25 [] 4000)) 800 600).
  - simpl. right. right. left. reflexivity.
  - lra.
  - lra.
Defined.

(** ** Trial runner *)

Arguments Rgtb : simpl never.
Arguments Rgeb : simpl never.
Arguments Rleb : simpl never.
Arguments Math.min : simpl never.
Arguments Math.max : simpl never.
Arguments Math.floor : simpl never.
Arguments Math.round : simpl never.
Arguments Math.sqrt : simpl never.
Arguments Math.pow : simpl never.
Arguments getPositionOnPath : simpl never.
Arguments calculateClickPoints : simpl never.
Arguments calculateTrackingSamplePoints : simpl never.
Arguments getTrackingGrade : simpl never.
Arguments Number.div : simpl never.

Lemma awards_nothing (st st' : State) :
  st'.(trialData) = st.(trialData) ->
  st'.(totalScore) = st.(totalScore) ->
  awards st st' [].
Proof.
  intros Hd Hs. unfold awards. rewrite Hd, Hs, app_nil_r. simpl.
  split; [reflexivity | split; [lra | constructor]].
Qed.

Lemma sum_points_app (l1 l2 : list TrialData) :
  sum_points (l1 ++ l2) = sum_points l1 + sum_points l2.
Proof.
  unfold sum_points.
  induction l1 as [| d l1 IH]; simpl; [lra |].
  rewrite IH. lra.
Qed.

Lemma sum_points_nonneg (l : list TrialData) :
  Forall (fun d => 0 <= data_points d) l -> 0 <= sum_points l.
Proof.
  unfold sum_points.
  induction 1 as [| d l Hd _ IH]; simpl; lra.
Qed.

Lemma awards_trans (st1 st2 st3 : State) (new1 new2 : list TrialData) :
  awards st1 st2 new1 -> awards st2 st3 new2 ->
  awards st1 st3 (new1 ++ new2).
Proof.
  intros [Hd1 [Hs1 Hp1]] [Hd2 [Hs2 Hp2]]. unfold awards.
  rewrite Hd2, Hd1, Hs2, Hs1, sum_points_app, app_assoc.
  split; [reflexivity | split; [lra |]].
  apply Forall_app. split; assumption.
Qed.

Lemma Forall_update_nth {A : Type} (P : A -> Prop) (f : A -> A)
    (k : nat) (l : list A) :
  Forall P l -> (forall a, P a -> P (f a)) -> Forall P (update_nth k f l).
Proof.
  intros Hl Hf. revert k.
  induction Hl as [| a l Ha Hl IH]; intros k; simpl.
  - constructor.
  - destruct k; constructor; auto.
Qed.

Lemma startTrial_frame (now : R) (st st' : State) :
  startTrial now st = Returns st' ->
  st'.(trialData) = st.(trialData) /\
  st'.(totalScore) = st.(totalScore) /\
  st'.(trackers) = st.(trackers) /\
  st'.(timeouts) = st.(timeouts).
Proof.
  unfold startTrial. intros H.
  destruct (nth_error (trials st) (currentTrialIndex st)) as [trial |].
  - destruct (def trial) as [[c | s] |].
    + destruct (array_get (positions c) 0); [| discriminate].
      injection H as <-. simpl. auto.
    + unfold bind in H.
      destruct (getPositionOnPath _ _ _ _ _); [| discriminate].
      injection H as <-. simpl. auto.
    + injection H as <-. simpl. auto.
  - injection H as <-. auto.
Qed.

Lemma startTrialEffect_frame (now : R) (st st' : State) :
  startTrialEffect now st = Returns st' ->
  st'.(trialData) = st.(trialData) /\
  st'.(totalScore) = st.(totalScore) /\
  st'.(trackers) = st.(trackers) /\
  st'.(timeouts) = st.(timeouts).
Proof.
  unfold startTrialEffect. intros H.
  destruct (_ && _).
  - apply startTrial_frame in H. exact H.
  - injection H as <-. auto.
Qed.

Section Awards.

Variable cfg : Config.
Hypothesis click_max_nonneg : 0 <= cfg.(cfgPoints).(maxClickPoints).
Hypothesis sample_max_nonneg : 0 <= cfg.(cfgPoints).(maxPointsPerSample).

Lemma handlePointerDown_awards (x y now date : R) (st st' : State) :
  accumulators_nonneg st ->
  handlePointerDown cfg x y now date st = Returns st' ->
  (exists new, awards st st' new) /\ accumulators_nonneg st'.
Proof.
  unfold handlePointerDown, accumulators_nonneg. intros Hacc H.
  destruct (negb _).
  { injection H as <-. split; [exists []; apply awards_nothing |]; auto. }
  destruct (nth_error (trials st) (currentTrialIndex st)) as [trial |].
  2: { injection H as <-.
       split; [exists []; apply awards_nothing |]; auto. }
  destruct (def trial) as [[c | s] |].
  - cbn [currentClickIndex setTrialData setTotalScore setIsClickingRef
         targetPosition clickStartTime] in H.
    match type of H with
    | context [click ?d] => set (data := d) in H
    end.
    assert (Hnew : 0 <= data_points (click data))
      by (apply click_points_nonneg; exact click_max_nonneg).
    destruct (_ <? _)%nat.
    + destruct (nth_error _ _); [| discriminate].
      injection H as <-. split; [| exact Hacc].
      exists [click data]. unfold awards. cbn.
      split; [reflexivity | split; [lra | auto]].
    + injection H as <-. split; [| exact Hacc].
      exists [click data]. unfold awards. cbn.
      split; [reflexivity | split; [lra | auto]].
  - destruct (negb _); injection H as <-.
    + split; [exists []; apply awards_nothing; reflexivity |].
      cbn. apply Forall_app. split; [exact Hacc |].
      constructor; [cbn; lra | constructor].
    + split; [exists []; apply awards_nothing |]; auto.
  - injection H as <-.
    split; [exists []; apply awards_nothing; reflexivity | exact Hacc].
Qed.

Lemma sampleTick_awards (k : nat) (now : R) (st st' : State) :
  accumulators_nonneg st ->
  sampleTick cfg k now st = Returns st' ->
  (exists new, awards st st' new) /\ accumulators_nonneg st'.
Proof.
  unfold sampleTick, accumulators_nonneg. intros Hacc H.
  destruct (nth_error (trackers st) k) as [tk |] eqn:Hk.
  2: { injection H as <-.
       split; [exists []; apply awards_nothing |]; auto. }
  destruct (negb _).
  { injection H as <-. split; [exists []; apply awards_nothing |]; auto. }
  destruct (Number.leb _ _).
  2: { injection H as <-.
       split; [exists []; apply awards_nothing |]; auto. }
  unfold bind in H.
  destruct (getPositionOnPath _ _ _ _ _) as [targetPos |]; [| discriminate].
  injection H as <-.
  split; [exists []; apply awards_nothing; reflexivity |].
  cbn. apply Forall_update_nth; [exact Hacc |].
  intros a _. cbn.
  assert (0 <= tk_accumulatedPoints tk).
  { apply nth_error_In in Hk.
    exact (proj1 (Forall_forall _ _) Hacc tk Hk). }
  pose proof (tracking_sample_points_nonneg cfg
                (Math.sqrt
                   (Math.pow (pos_x (cursorRef st) - pos_x targetPos) 2 +
                    Math.pow (pos_y (cursorRef st) - pos_y targetPos) 2))
                (isClickingRef st) sample_max_nonneg).
  lra.
Qed.

Lemma clearInterval_accumulators (ref : option nat) (live : list Tracker) :
  Forall (fun tk => 0 <= tk.(tk_accumulatedPoints)) live ->
  Forall (fun tk => 0 <= tk.(tk_accumulatedPoints))
         (clearInterval ref live).
Proof.
  intros H. destruct ref as [id |]; [| exact H].
  apply Forall_update_nth; [exact H | intros a Ha; exact Ha].
Qed.

Lemma animate_awards (k : nat) (now date : R) (st st' : State) :
  accumulators_nonneg st ->
  animate cfg k now date st = Returns st' ->
  (exists new, awards st st' new) /\ accumulators_nonneg st'.
Proof.
  unfold animate, accumulators_nonneg. intros Hacc H.
  destruct (nth_error (trackers st) k) as [tk |] eqn:Hk.
  2: { injection H as <-.
       split; [exists []; apply awards_nothing |]; auto. }
  destruct (negb _).
  { injection H as <-. split; [exists []; apply awards_nothing |]; auto. }
  destruct (Number.geb _ _).
  - injection H as <-. split.
    + exists [tracked (trackData cfg tk date)]. unfold awards. cbn.
      split; [reflexivity | split; [lra |]].
      constructor; [| constructor]. cbn.
      apply round_nonneg. apply nth_error_In in Hk.
      exact (proj1 (Forall_forall _ _) Hacc tk Hk).
    + cbn. apply Forall_update_nth.
      * apply clearInterval_accumulators. exact Hacc.
      * intros a Ha. exact Ha.
  - unfold bind in H.
    destruct (getPositionOnPath _ _ _ _ _) as [newPos |]; [| discriminate].
    injection H as <-.
    split; [exists []; apply awards_nothing; reflexivity |].
    cbn. apply Forall_update_nth; [exact Hacc | intros a Ha; exact Ha].
Qed.

Lemma startTrialEffect_awards (now : R) (st0 st st' : State) :
  st.(trialData) = st0.(trialData) ->
  st.(totalScore) = st0.(totalScore) ->
  st.(trackers) = st0.(trackers) ->
  accumulators_nonneg st0 ->
  startTrialEffect now st = Returns st' ->
  (exists new, awards st0 st' new) /\ accumulators_nonneg st'.
Proof.
  intros Hd Hs Ht Hacc H.
  apply startTrialEffect_frame in H. destruct H as [Hd' [Hs' [Ht' _]]].
  split.
  - exists []. apply awards_nothing; congruence.
  - unfold accumulators_nonneg in *. rewrite Ht', Ht. exact Hacc.
Qed.

Lemma step_awards (e : Event) (st st' : State) :
  begins_run e = false ->
  accumulators_nonneg st ->
  step cfg st e = Returns st' ->
  (exists new, awards st st' new) /\ accumulators_nonneg st'.
Proof.
  intros Hrun Hacc H.
  destruct e as [random | now | rw rh now | x y | x y now date | | now
                | k now | k now date |]; try discriminate Hrun; cbn in H.
  - unfold countdownTick in H.
    destruct (_ && _).
    + destruct (_ =? _)%nat.
      * apply (startTrialEffect_awards now st) in H; auto.
      * injection H as <-.
        split; [exists []; apply awards_nothing |]; auto.
    + injection H as <-.
      split; [exists []; apply awards_nothing |]; auto.
  - apply (startTrialEffect_awards now st) in H; auto.
  - injection H as <-.
    split; [exists []; apply awards_nothing |]; auto.
  - apply handlePointerDown_awards in H; auto.
  - injection H as <-.
    split; [exists []; apply awards_nothing |]; auto.
  - destruct (timeouts st) as [| c pending].
    + injection H as <-.
      split; [exists []; apply awards_nothing |]; auto.
    + apply (startTrialEffect_awards now st) in H; auto;
        unfold nextTrial; destruct (_ <? _)%nat; reflexivity.
  - apply sampleTick_awards in H; auto.
  - apply animate_awards in H; auto.
Qed.

Lemma step_accumulators (e : Event) (st st' : State) :
  accumulators_nonneg st ->
  step cfg st e = Returns st' ->
  accumulators_nonneg st'.
Proof.
  intros Hacc H.
  destruct (begins_run e) eqn:Hrun.
  - destruct e; try discriminate Hrun; cbn in H;
      destruct (GameState_eqb _ _); injection H as <-; exact Hacc.
  - apply (step_awards e st st' Hrun Hacc H).
Qed.

Lemma run_accumulators (es : list Event) (st st' : State) :
  accumulators_nonneg st ->
  run cfg st es = Returns st' ->
  accumulators_nonneg st'.
Proof.
  revert st. induction es as [| e es IH]; intros st Hacc H; cbn in H.
  - injection H as <-. exact Hacc.
  - unfold bind in H. destruct (step cfg st e) as [st1 |] eqn:Hstep;
      [| discriminate].
    apply (IH st1); [| exact H].
    apply (step_accumulators e st st1 Hacc Hstep).
Qed.

Lemma run_awards (es : list Event) (st st' : State) :
  Forall (fun e => begins_run e = false) es ->
  accumulators_nonneg st ->
  run cfg st es = Returns st' ->
  exists new, awards st st' new.
Proof.
  intros Hes. revert st.
  induction Hes as [| e es He _ IH]; intros st Hacc H; cbn in H.
  - injection H as <-. exists []. apply awards_nothing; reflexivity.
  - unfold bind in H. destruct (step cfg st e) as [st1 |] eqn:Hstep;
      [| discriminate].
    destruct (step_awards e st st1 He Hacc Hstep) as [[new1 H1] Hacc1].
    destruct (IH st1 Hacc1 H) as [new2 H2].
    exists (new1 ++ new2). apply (awards_trans st st1 st'); assumption.
Qed.

End Awards.

(** On events whose pointer coordinates are real numbers, which are the
    events of [step]: with non-negative maximal points, every click scores
    at least 0, and between any state reached from the first render and
    any state reached from it without beginning a new run, the results
    recorded in between all have non-negative points, click results and
    tracking results alike, the total score has grown by exactly their
    sum, and so the total score has not decreased. *)
Lemma totalScore_never_decreases (cfg : Config)
    (Hclick : 0 <= cfg.(cfgPoints).(maxClickPoints))
    (Hsample : 0 <= cfg.(cfgPoints).(maxPointsPerSample)) :
  (forall d rt, 0 <= click_points (calculateClickPoints cfg d rt)) /\
  (forall before st es st',
     run cfg initialState before = Returns st ->
     Forall (fun e => begins_run e = false) es ->
     run cfg st es = Returns st' ->
     st.(totalScore) <= st'.(totalScore) /\
     exists new, awards st st' new).
Proof.
  split.
  - intros d rt. apply click_points_nonneg. exact Hclick.
  - intros before st es st' Hbefore Hes Hrun.
    assert (Hacc : accumulators_nonneg st).
    { apply (run_accumulators cfg Hclick Hsample before initialState);
        [constructor | exact Hbefore]. }
    destruct (run_awards cfg Hclick Hsample es st st' Hes Hacc Hrun)
      as [new Hnew].
    split; [| exists new; exact Hnew].
    destruct Hnew as [_ [Hscore Hpoints]].
    apply sum_points_nonneg in Hpoints. lra.
Qed.

(** Under their guards the two quotients of the tracking statistics are
    real numbers. *)
Lemma accuracy_real (samples : list Sample) :
  Special.accuracy samples
  = Num (if (0 <? List.length samples)%nat
         then INR (List.length (filter (fun s => s.(s_isClicking)) samples))
              / INR (List.length samples)
         else 0).
Proof.
  unfold Special.accuracy.
  destruct (0 <? List.length samples)%nat eqn:Hlen; [| reflexivity].
  apply div_nonzero, not_0_INR. apply Nat.ltb_lt in Hlen. lia.
Qed.

Lemma avgDistance_real (samples : list Sample) :
  Special.avgDistance samples
  = Num (if (0 <? List.length samples)%nat
         then fold_left (fun sum s => sum + s.(s_distance)) samples 0
              / INR (List.length samples)
         else 0).
Proof.
  unfold Special.avgDistance.
  destruct (0 <? List.length samples)%nat eqn:Hlen; [| reflexivity].
  apply div_nonzero, not_0_INR. apply Nat.ltb_lt in Hlen. lia.
Qed.

(** The statistics of a finished trial, with the quotients of real
    numbers. *)
Lemma trackData_real (cfg : Config) (tk : Tracker) (date : R) :
  trackData cfg tk date
  = let samples := tk.(tk_samples) in
    let clickingSamples := filter (fun s => s.(s_isClicking)) samples in
    let accuracy :=
      if (0 <? List.length samples)%nat
      then INR (List.length clickingSamples) / INR (List.length samples)
      else 0 in
    let avgDistance :=
      if (0 <? List.length samples)%nat
      then fold_left (fun sum s => sum + s.(s_distance)) samples 0
           / INR (List.length samples)
      else 0 in
    let totalPoints := Math.round tk.(tk_accumulatedPoints) in
    let grade := getTrackingGrade cfg accuracy in
    {| t_trialId := tk.(tk_trial).(track_id);
       t_instanceId := tk.(tk_instanceId);
       t_shape := tk.(tk_trial).(shape);
       t_duration := tk.(tk_trial).(params).(duration);
       t_accuracy := accuracy;
       t_averageDistance := avgDistance;
       t_points := totalPoints;
       t_grade := grade;
       t_samples := samples;
       t_timestamp := date |}.
Proof.
  unfold trackData. rewrite accuracy_real, avgDistance_real. reflexivity.
Qed.

(** C8. When [animate] finds a tracking trial over, a trial of duration 0
    at its first frame after the start included, the result it records has
    the accuracy that line 621 computes with the division of the source,
    and that is a real number, never [NaN]: it is 0 if no sample was
    collected, where nothing is divided, and otherwise the number of
    samples taken while pressed divided by the number of samples, a
    divisor that is not 0. *)
Theorem tracking_accuracy (cfg : Config) (k : nat) (now date : R)
    (st : State) (tk : Tracker) :
  nth_error st.(trackers) k = Some tk ->
  tk.(tk_animating) = true ->
  Number.geb
    (Number.div (Num (now - tk.(tk_startTime)))
                (Num tk.(tk_trial).(params).(duration)))
    (Num 1) = true ->
  exists st' data,
    animate cfg k now date st = Returns st' /\
    st'.(trialData) = st.(trialData) ++ [tracked data] /\
    Special.accuracy tk.(tk_samples) = Num data.(t_accuracy) /\
    (tk.(tk_samples) = [] -> data.(t_accuracy) = 0) /\
    (tk.(tk_samples) <> [] ->
     INR (List.length tk.(tk_samples)) <> 0 /\
     data.(t_accuracy) =
     INR (pressed_samples tk.(tk_samples))
     / INR (List.length tk.(tk_samples))).
Proof.
  intros Hk Hanim Hover.
  unfold animate. rewrite Hk, Hanim. cbn [negb].
  cbv zeta. rewrite Hover.
  eexists. exists (trackData cfg tk date).
  split; [reflexivity |].
  split; [reflexivity |].
  unfold trackData. cbn [t_accuracy].
  rewrite accuracy_real. cbn [Number.real].
  split; [reflexivity |].
  destruct (tk_samples tk) as [| s samples].
  - split; [reflexivity | congruence].
  - split; [discriminate |].
    intros _. split; [apply not_0_INR; discriminate | reflexivity].
Qed.

(** What the guard of line 621 prevents: on a trial without samples the
    quotient itself is 0 / 0, which is [NaN]. *)
Lemma accuracy_without_guard :
  Number.div
    (Num (INR (List.length
                 (filter (fun s : Sample => s.(s_isClicking)) []))))
    (Num (INR (List.length (@nil Sample))))
  = NaN.
Proof. exact div_zero_zero. Qed.

(** ** Concrete runs *)

(** Run the handlers on concrete states, leaving the arithmetic of real
    numbers and the scoring calls as they stand. *)
Ltac evaluate :=
  cbv -[Rplus Rmult Rminus Rdiv Ropp Rinv IZR INR Rgtb Rgeb Rleb
        Math.min Math.max Math.floor Math.round Math.sqrt Math.pow
        Math.sin Math.cos Math.PI calculateClickPoints
        calculateTrackingSamplePoints getPositionOnPath getTrackingGrade
        array_get click_points click_grade
        Number.div Number.geb Number.leb Number.real].

Ltac select_first :=
  rewrite ?Rmult_0_l;
  replace (Math.floor 0) with 0%Z by (symmetry; apply (ZfloorZ 0));
  cbv [array_get Z.ltb Z.compare Z.to_nat nth_error].

(** The same with the path calculator run as well. *)
Ltac evaluate_path :=
  cbv -[Rplus Rmult Rminus Rdiv Ropp Rinv IZR INR Rgtb Rgeb Rleb
        Math.min Math.max Math.floor Math.round Math.sqrt Math.pow
        Math.sin Math.cos Math.PI calculateClickPoints
        calculateTrackingSamplePoints getTrackingGrade
        array_get click_points click_grade
        Number.div Number.geb Number.leb Number.real].

(** One event on a concrete state: the draws of the first two trials and
    the progress tests are decided, the rest is run. *)
Ltac settle :=
  evaluate;
  rewrite ?Rmult_0_l, ?floor_zero, ?floor_half_of_two;
  cbv [array_get Z.ltb Z.compare Z.to_nat Pos.to_nat Pos.iter_op Nat.add
       nth_error];
  try rewrite progress_within_of_quotient by lra;
  try rewrite progress_over_of_quotient by lra;
  try rewrite zero_duration_beyond by lra;
  try rewrite zero_duration_over by lra;
  rewrite ?real_div;
  evaluate_path.

Lemma run_cons (cfg : Config) (st st' : State) (e : Event)
    (es : list Event) :
  step cfg st e = Returns st' ->
  run cfg st (e :: es) = run cfg st' es.
Proof. intros H. cbn [run]. rewrite H. reflexivity. Qed.

(** The first event of a run on a concrete state. *)
Ltac advance :=
  match goal with
  | |- run ?cfg ?st (?e :: ?es) = _ =>
      let s := fresh "s" in
      let H := fresh "H" in
      evar (s : State);
      assert (H : step cfg st e = Returns s)
        by (subst s; settle; reflexivity);
      rewrite (run_cons cfg st s e es H); subst s; clear H
  end.

Lemma startTrial_empty_sequence (now : R) (st : State)
    (trial : TrialInstance) (c : ClickSequence) :
  nth_error st.(trials) st.(currentTrialIndex) = Some trial ->
  trial.(def) = Some (click_sequence c) ->
  c.(positions) = [] ->
  startTrial now st = Throws.
Proof.
  intros Htrial Hdef Hpos. unfold startTrial.
  rewrite Htrial, Hdef, Hpos. reflexivity.
Qed.

Lemma getPositionOnPath_short_polyline (shape : string) (params : Params)
    (progress w h : R) :
  shape = "blob" \/ shape = "zigzag" ->
  (List.length params.(points) < 2)%nat ->
  getPositionOnPath shape params progress w h = Throws.
Proof.
  intros Hshape Hlen.
  assert (Hbranch :
    (shape =? "line")%string = false /\ (shape =? "wave")%string = false /\
    (shape =? "circle")%string = false /\
    ((shape =? "blob") || (shape =? "zigzag"))%string = true)
    by (destruct Hshape; subst shape; repeat split; reflexivity).
  destruct Hbranch as [Hl [Hw [Hc Hb]]].
  unfold getPositionOnPath. rewrite Hl, Hw, Hc, Hb. cbv zeta.
  assert (Hfew : (4 <=? List.length (points params))%nat = false)
    by (apply Nat.leb_gt; lia).
  rewrite Hfew, andb_false_r.
  set (i := Z.min _ _).
  assert (Hi : (i < 0)%Z) by (unfold i; lia).
  unfold array_get at 1.
  rewrite (proj2 (Z.ltb_lt i 0) Hi). reflexivity.
Qed.

Lemma initializeTrials_length (cfg : Config) (random : nat -> R)
    (st : State) :
  List.length (initializeTrials cfg random st).(trials)
  = cfg.(totalTrials).
Proof.
  unfold initializeTrials. cbn. rewrite length_map, length_seq.
  reflexivity.
Qed.

(** C3, as the code has it. Run initialization validates nothing: for every
    catalog and every random source, START on the intro screen returns
    normally, with the countdown begun and [totalTrials] trials selected.
    A click sequence without positions, or a blob or zigzag with fewer than
    two points, raises its error when such a trial is started. *)
Theorem initialization_accepts_every_catalog (cfg : Config)
    (random : nat -> R) (st : State) :
  st.(gameState) = Intro ->
  (exists st',
     step cfg st (StartGame random) = Returns st' /\
     st'.(gameState) = Countdown /\
     List.length st'.(trials) = cfg.(totalTrials)) /\
  (forall now st1 trial c,
     nth_error st1.(trials) st1.(currentTrialIndex) = Some trial ->
     trial.(def) = Some (click_sequence c) ->
     c.(positions) = [] ->
     startTrial now st1 = Throws) /\
  (forall shape params progress w h,
     shape = "blob" \/ shape = "zigzag" ->
     (List.length params.(points) < 2)%nat ->
     getPositionOnPath shape params progress w h = Throws).
Proof.
  intros Hintro. split; [| split].
  - exists (startGame cfg random st). cbn [step]. rewrite Hintro.
    split; [reflexivity | split; [reflexivity |]].
    apply (initializeTrials_length cfg random st).
  - exact startTrial_empty_sequence.
  - exact getPositionOnPath_short_polyline.
Qed.

Lemma initialization_accepts_every_catalog_witness :
  exists st',
    step empty_sequence_config initialState (StartGame always_first)
    = Returns st' /\
    st'.(gameState) = Countdown /\
    List.length st'.(trials) = 20%nat.
Proof.
  exact (proj1 (initialization_accepts_every_catalog empty_sequence_config
                  always_first initialState eq_refl)).
Defined.

(** C3, as the specification has it, fails: a catalog that holds a click
    sequence without positions is accepted by START, and when the draws
    select its well-formed entry the countdown ends in the first trial,
    started and awaiting its first click. *)
Lemma malformed_catalog_is_accepted :
  malformed_catalog config_with_empty_sequence = true /\
  exists st st',
    step config_with_empty_sequence initialState (StartGame always_first)
    = Returns st /\
    st.(gameState) = Countdown /\
    run config_with_empty_sequence st
      [CountdownTick 0; CountdownTick 0; CountdownTick 0]
    = Returns st' /\
    st'.(gameState) = Playing /\
    st'.(currentTrialIndex) = 0%nat /\
    st'.(currentClickIndex) = 0%nat /\
    st'.(targetPosition) = mkPosition (0.2 * 800) (0.3 * 600).
Proof.
  split; [reflexivity |].
  eexists. eexists.
  split. { evaluate. select_first. evaluate. reflexivity. }
  split; [reflexivity |].
  split. { evaluate. reflexivity. }
  repeat split; reflexivity.
Qed.

(** When the malformed entry is the one selected, the error is raised
    three countdown ticks after START, by the start of the first trial. *)
Lemma empty_sequence_fails_at_trial_start :
  exists st,
    step empty_sequence_config initialState (StartGame always_first)
    = Returns st /\
    run empty_sequence_config st [CountdownTick 0; CountdownTick 0]
    = Returns (st |> setCountdown 1) /\
    run empty_sequence_config st
      [CountdownTick 0; CountdownTick 0; CountdownTick 0]
    = Throws.
Proof.
  eexists. split; [reflexivity |].
  split.
  - reflexivity.
  - evaluate. select_first. reflexivity.
Qed.

(** A press on the target, 50 ms after the target appeared, scores 380. *)
Lemma late_press_points :
  click_points
    (calculateClickPoints TRIAL_CONFIG
       (Math.sqrt (Math.pow (0.5 * 800 - 0.5 * 800) 2 +
                   Math.pow (0.7 * 600 - 0.7 * 600) 2))
       (50 - 0))
  = 380.
Proof.
  rewrite sqrt_of_squares_zero.
  rewrite calculateClickPoints_inside by (cbn; lra).
  cbn [TRIAL_CONFIG cfgPoints maxClickPoints targetRadius maxReactionTime].
  rewrite !max_of_nonneg by lra.
  replace (400 * (1 - 0 / 40) * (1 - (50 - 0) / 1000)) with (IZR 380)
    by lra.
  apply round_integer.
Qed.

(** C1 fails on the code. After the five clicks of the first trial the
    game is still playing, the click index is still 4 and one advance is
    pending. A sixth press before the advance fires is scored like a
    click: a sixth result is recorded, the total grows by its 380 points
    and a second advance is set. When both advances have fired the runner
    is on the trial of index 2: the trial of index 1 was never played. *)
Theorem late_press_is_scored :
  exists st5 st6 st7 st8,
    run TRIAL_CONFIG initialState five_clicks = Returns st5 /\
    st5.(gameState) = Playing /\
    st5.(currentClickIndex) = 4%nat /\
    List.length st5.(trialData) = 5%nat /\
    st5.(timeouts) = [mkNextTrialClosure 0 20] /\
    step TRIAL_CONFIG st5 late_press = Returns st6 /\
    List.length st6.(trialData) = 6%nat /\
    st6.(totalScore) = st5.(totalScore) + 380 /\
    st6.(timeouts) = [mkNextTrialClosure 0 20; mkNextTrialClosure 0 20] /\
    step TRIAL_CONFIG st6 (TimeoutFires 100) = Returns st7 /\
    st7.(currentTrialIndex) = 1%nat /\
    step TRIAL_CONFIG st7 (TimeoutFires 150) = Returns st8 /\
    st8.(currentTrialIndex) = 2%nat /\
    st8.(gameState) = Playing.
Proof.
  eexists. eexists. eexists. eexists.
  split. { evaluate. select_first. evaluate. reflexivity. }
  split; [reflexivity |].
  split; [reflexivity |].
  split; [reflexivity |].
  split; [reflexivity |].
  split. { evaluate. reflexivity. }
  split; [reflexivity |].
  split. { cbn [totalScore]. apply f_equal. exact late_press_points. }
  split; [reflexivity |].
  split. { evaluate. reflexivity. }
  split; [reflexivity |].
  split. { evaluate. reflexivity. }
  split; reflexivity.
Qed.

(** The same on every state: while the game is playing a click sequence
    whose click index is on its last position, each press is scored,
    recorded and followed by one more pending advance, whether or not an
    advance is pending already. *)
Lemma handlePointerDown_on_last_index (cfg : Config) (x y now date : R)
    (st : State) (trial : TrialInstance) (c : ClickSequence) :
  st.(gameState) = Playing ->
  nth_error st.(trials) st.(currentTrialIndex) = Some trial ->
  trial.(def) = Some (click_sequence c) ->
  (st.(currentClickIndex) <? List.length c.(positions) - 1)%nat = false ->
  exists st' data,
    handlePointerDown cfg x y now date st = Returns st' /\
    st'.(trialData) = st.(trialData) ++ [click data] /\
    st'.(totalScore) = st.(totalScore) + data.(c_points) /\
    st'.(timeouts) =
      st.(timeouts) ++
      [mkNextTrialClosure st.(currentTrialIndex) (List.length st.(trials))]
    /\ st'.(currentClickIndex) = st.(currentClickIndex).
Proof.
  intros Hplaying Htrial Hdef Hlast.
  unfold handlePointerDown.
  rewrite Hplaying, Htrial, Hdef. cbn [GameState_eqb negb].
  cbn [currentClickIndex setTrialData setTotalScore setIsClickingRef].
  rewrite Hlast.
  eexists. eexists. split; [reflexivity |].
  cbn. auto.
Qed.

(** The tracking path has the guard that the click path lacks: once
    tracking has started, a press changes the pressed flag only. *)
Lemma handlePointerDown_after_tracking_started (cfg : Config)
    (x y now date : R) (st : State) (trial : TrialInstance)
    (s : TrackShape) :
  st.(gameState) = Playing ->
  nth_error st.(trials) st.(currentTrialIndex) = Some trial ->
  trial.(def) = Some (track s) ->
  st.(trackingStarted) = true ->
  handlePointerDown cfg x y now date st
  = Returns (st |> setIsClickingRef true).
Proof.
  intros Hplaying Htrial Hdef Hstarted.
  unfold handlePointerDown.
  rewrite Hplaying, Htrial, Hdef. cbn [GameState_eqb negb].
  cbn [trackingStarted setIsClickingRef]. rewrite Hstarted.
  reflexivity.
Qed.

(** ** Special values *)

Lemma or_else_zero (b : option R) : or_else (Some 0) b = b.
Proof. unfold or_else. destruct (Req_dec_T 0 0); [reflexivity | lra]. Qed.

Lemma or_else_nonzero (x : R) (b : option R) :
  x <> 0 -> or_else (Some x) b = Some x.
Proof.
  intros Hx. unfold or_else.
  destruct (Req_dec_T x 0); [contradiction | reflexivity].
Qed.



Lemma distance_NaN_x (y : number) (target : Position) :
  Special.distance NaN y target = NaN.
Proof. unfold Special.distance. destruct y; reflexivity. Qed.

Lemma distance_NaN_y (x : number) (target : Position) :
  Special.distance x NaN target = NaN.
Proof.
  unfold Special.distance.
  destruct (Number.pow (Number.sub x (Num (pos_x target))) 2); reflexivity.
Qed.


(** A click at a distance that is not a number scores points that are not
    a number, with the label OK. *)
Lemma calculateClickPoints_NaN (cfg : Config) (rt : R) :
  Special.click_points (Special.calculateClickPoints cfg NaN rt) = NaN /\
  Special.click_grade (Special.calculateClickPoints cfg NaN rt) = OK.
Proof.
  unfold Special.calculateClickPoints.
  cbn [Number.gtb Number.div Number.sub Number.neg Number.add Number.max
       Number.mul Number.round Number.leb Number.geb andb
       Special.click_points Special.click_grade].
  split; reflexivity.
Qed.

(** So does a pressed tracking sample. *)
Lemma calculateTrackingSamplePoints_NaN (cfg : Config) :
  Special.calculateTrackingSamplePoints cfg NaN true = NaN.
Proof. reflexivity. Qed.

(** On a real distance, with a radius and a maximal reaction time that
    are not 0, the scoring over [number] is the scoring over the reals. *)
Lemma calculateClickPoints_real (cfg : Config) (d rt : R) :
  cfg.(targetRadius) <> 0 ->
  cfg.(cfgPoints).(maxReactionTime) <> 0 ->
  Special.calculateClickPoints cfg (Num d) rt
  = Special.mkClickPoints
      (Num (click_points (calculateClickPoints cfg d rt)))
      (click_grade (calculateClickPoints cfg d rt))
      (Num (accuracyFactor (calculateClickPoints cfg d rt)))
      (Num (timeFactor (calculateClickPoints cfg d rt))).
Proof.
  intros Hr Ht.
  unfold Special.calculateClickPoints, calculateClickPoints.
  cbn [Number.gtb]. destruct (d >? targetRadius cfg); [reflexivity |].
  rewrite !div_nonzero by assumption.
  unfold Number.leb. cbn [Number.geb Number.sub Number.neg Number.add
                          Number.max Number.mul Number.round].
  rewrite !Rgeb_Rleb.
  cbn [click_points click_grade accuracyFactor timeFactor].
  reflexivity.
Qed.

Lemma calculateTrackingSamplePoints_real (cfg : Config) (d : R)
    (isClicking : bool) :
  cfg.(trackingMaxDistance) <> 0 ->
  Special.calculateTrackingSamplePoints cfg (Num d) isClicking
  = Num (calculateTrackingSamplePoints cfg d isClicking).
Proof.
  intros Hm.
  unfold Special.calculateTrackingSamplePoints,
    calculateTrackingSamplePoints.
  destruct isClicking; [| reflexivity]. cbn [negb].
  rewrite div_nonzero by exact Hm. reflexivity.
Qed.

(** With a radius of 0 the source divides 0 by 0 on a click at distance 0:
    such a click scores [NaN], where the quotient of real numbers would
    score the maximum. The positive radius in the hypotheses of the
    properties of the click score excludes it. *)
Lemma calculateClickPoints_zero_radius (cfg : Config) (rt : R) :
  cfg.(targetRadius) = 0 ->
  Special.click_points (Special.calculateClickPoints cfg (Num 0) rt) = NaN.
Proof.
  intros Hr. unfold Special.calculateClickPoints. rewrite Hr.
  cbn [Number.gtb]. rewrite (proj2 (Rgtb_false 0 0)) by lra.
  rewrite div_zero_zero.
  cbn [Number.sub Number.neg Number.add Number.max Number.mul
       Number.round Special.click_points].
  reflexivity.
Qed.

(** C7 fails on the code. While a click sequence is played, a mouse press
    whose [clientX] or [clientY] is 0 has a coordinate that is [NaN]: 0 is
    falsy, the handler falls back on [e.touches], and a mouse event has
    none. Its distance to the target is [NaN], the scoring function gives
    it [NaN] points with the label OK, and line 512 makes the total score
    [NaN]: the points awarded are not at least 0 and the total is not at
    least what it was. *)
Theorem mouse_press_at_zero_scores_NaN (cfg : Config) (e : PointerEvent)
    (rect : DOMRect) (now : R) (st : State) (trial : TrialInstance)
    (c : ClickSequence) :
  st.(gameState) = Playing ->
  nth_error st.(trials) st.(currentTrialIndex) = Some trial ->
  trial.(def) = Some (click_sequence c) ->
  e.(touches) = None ->
  e.(clientX) = Some 0 \/ e.(clientY) = Some 0 ->
  exists press,
    Special.handlePointerDown cfg e rect now st = Some press /\
    (Special.press_x press = NaN \/ Special.press_y press = NaN) /\
    Special.press_distance press = NaN /\
    Special.press_points press = NaN /\
    Special.press_grade press = OK /\
    Special.press_totalScore press = NaN /\
    Number.geb (Special.press_points press) (Num 0) = false /\
    Number.geb (Special.press_totalScore press) (Num st.(totalScore))
    = false.
Proof.
  intros Hplaying Htrial Hdef Hmouse Hzero.
  unfold Special.handlePointerDown.
  rewrite Hplaying, Htrial, Hdef. cbn [GameState_eqb negb].
  eexists. split; [reflexivity |].
  cbn [Special.press_x Special.press_y Special.press_distance
       Special.press_points Special.press_grade Special.press_totalScore].
  assert (Hcoord : pointerX e rect = NaN \/ pointerY e rect = NaN).
  { unfold pointerX, pointerY, firstTouch. rewrite Hmouse.
    cbn [option_map].
    destruct Hzero as [-> | ->]; rewrite or_else_zero; auto. }
  assert (Hdist : Special.distance (pointerX e rect) (pointerY e rect)
                    (targetPosition st) = NaN).
  { destruct Hcoord as [-> | ->];
      [apply distance_NaN_x | apply distance_NaN_y]. }
  rewrite Hdist.
  destruct (calculateClickPoints_NaN cfg (now - clickStartTime st))
    as [-> ->].
  repeat split; try reflexivity. exact Hcoord.
Qed.

Lemma mouse_press_at_zero_scores_NaN_witness :
  exists st press,
    run TRIAL_CONFIG initialState first_trial = Returns st /\
    st.(targetPosition) = mkPosition (0.2 * 800) (0.3 * 600) /\
    Special.handlePointerDown TRIAL_CONFIG (mouse 176 0) scrolled_canvas
      300 st = Some press /\
    Special.press_x press = Num (176 - 16) /\
    Special.press_y press = NaN /\
    Special.press_points press = NaN /\
    Special.press_totalScore press = NaN.
Proof.
  evar (st : State).
  assert (Hrun : run TRIAL_CONFIG initialState first_trial = Returns st).
  { subst st. unfold first_trial. do 4 advance. reflexivity. }
  evar (trial : TrialInstance). evar (c : ClickSequence).
  assert (Htrial : nth_error (trials st) (currentTrialIndex st)
                   = Some trial) by (subst st trial; reflexivity).
  assert (Hdef : def trial = Some (click_sequence c))
    by (subst trial c; reflexivity).
  destruct (mouse_press_at_zero_scores_NaN TRIAL_CONFIG (mouse 176 0)
              scrolled_canvas 300 st trial c eq_refl Htrial Hdef eq_refl
              (or_intror eq_refl))
    as [press [Hpress [_ [_ [Hpoints [_ [Htotal _]]]]]]].
  exists st, press.
  split; [exact Hrun |].
  split; [subst st; cbn [targetPosition]; apply f_equal2; lra |].
  split; [exact Hpress |].
  revert Hpress. unfold Special.handlePointerDown.
  rewrite Htrial, Hdef. subst st. cbn [gameState GameState_eqb negb].
  intros Hpress. injection Hpress as <-.
  cbn [Special.press_x Special.press_y].
  split.
  { unfold pointerX, mouse, scrolled_canvas.
    cbn [clientX rect_left]. rewrite or_else_nonzero by lra.
    reflexivity. }
  split.
  { unfold pointerY, mouse, scrolled_canvas, firstTouch.
    cbn [clientY touches option_map]. rewrite or_else_zero.
    reflexivity. }
  split; [exact Hpoints | exact Htotal].
Defined.

Lemma tracking_accuracy_witness :
  (exists st st' data,
     run zero_duration_config initialState zero_duration_trial
     = Returns st /\
     animate zero_duration_config 0 216 216 st = Returns st' /\
     st'.(trialData) = [tracked data] /\
     data.(t_samples) = [] /\
     Special.accuracy data.(t_samples) = Num 0 /\
     data.(t_accuracy) = 0) /\
  (exists st st' data,
     run click_and_line_config initialState line_sampled = Returns st /\
     animate click_and_line_config 0 3200 3200 st = Returns st' /\
     trackTrials st'.(trialData) = [data] /\
     List.length data.(t_samples) = 2%nat /\
     Special.accuracy data.(t_samples) = Num (INR 1 / INR 2) /\
     data.(t_accuracy) = INR 1 / INR 2).
Proof.
  split.
  - evar (st : State).
    assert (Hrun : run zero_duration_config initialState
                     zero_duration_trial = Returns st).
    { subst st. unfold zero_duration_trial. do 6 advance. reflexivity. }
    evar (tk : Tracker).
    assert (Hk : nth_error (trackers st) 0 = Some tk)
      by (subst st tk; reflexivity).
    assert (Hover : Number.geb
                      (Number.div (Num (216 - tk_startTime tk))
                         (Num (duration (params (tk_trial tk)))))
                      (Num 1) = true).
    { subst tk. cbn [tk_startTime tk_trial params duration].
      apply zero_duration_over. lra. }
    destruct (tracking_accuracy zero_duration_config 0 216 216 st tk Hk
                eq_refl Hover)
      as [st' [data [Hframe [Hdata [Hnumber [Hempty _]]]]]].
    exists st, st', data.
    split; [exact Hrun |].
    split; [exact Hframe |].
    split; [exact Hdata |].
    assert (Hsamples : t_samples data = []).
    { revert Hframe Hdata. unfold animate. rewrite Hk.
      cbn [tk_animating tk negb]. cbv zeta. rewrite Hover.
      intros Hframe. injection Hframe as <-.
      cbn [trialData setTrialData setTrackers setTotalScore setTimeouts].
      intros Hdata.
      apply app_inv_head in Hdata. injection Hdata as <-. reflexivity. }
    split; [exact Hsamples |].
    split; [rewrite Hsamples; reflexivity |].
    apply Hempty. reflexivity.
  - evar (st : State).
    assert (Hrun : run click_and_line_config initialState line_sampled
                   = Returns st).
    { subst st. unfold line_sampled. do 11 advance. reflexivity. }
    evar (tk : Tracker).
    assert (Hk : nth_error (trackers st) 0 = Some tk)
      by (subst st tk; reflexivity).
    assert (Hover : Number.geb
                      (Number.div (Num (3200 - tk_startTime tk))
                         (Num (duration (params (tk_trial tk)))))
                      (Num 1) = true).
    { subst tk. cbn [tk_startTime tk_trial params duration].
      apply progress_over_of_quotient. lra. }
    destruct (tracking_accuracy click_and_line_config 0 3200 3200 st tk Hk
                eq_refl Hover)
      as [st' [data [Hframe [Hdata [Hnumber [_ Hquotient]]]]]].
    exists st, st', data.
    split; [exact Hrun |].
    split; [exact Hframe |].
    assert (Hrecord : data = trackData click_and_line_config tk 3200).
    { revert Hframe Hdata. unfold animate. rewrite Hk.
      cbn [tk_animating tk negb]. cbv zeta. rewrite Hover.
      intros Hframe. injection Hframe as <-.
      cbn [trialData setTrialData setTrackers setTotalScore setTimeouts].
      intros Hdata.
      apply app_inv_head in Hdata. injection Hdata as <-. reflexivity. }
    split.
    { rewrite Hdata. subst st. cbn [trialData]. reflexivity. }
    assert (Hsamples : t_samples data = tk_samples tk)
      by (rewrite Hrecord; reflexivity).
    split; [rewrite Hsamples; subst tk; reflexivity |].
    destruct Hquotient as [_ Hq]; [subst tk; discriminate |].
    assert (Hcount : INR (pressed_samples (tk_samples tk))
                     / INR (List.length (tk_samples tk)) = INR 1 / INR 2)
      by (subst tk; reflexivity).
    split.
    + rewrite Hsamples, Hnumber, Hq, Hcount. reflexivity.
    + rewrite Hq. exact Hcount.
Defined.

(** * Further properties of the code *)

(** ** Path calculator: progress, bounds and shapes *)

Lemma clamp_bounds (p : R) : 0 <= Math.min 1 (Math.max 0 p) <= 1.
Proof.
  unfold Math.min, Math.max. split.
  - apply Rmin_glb; [lra | apply Rmax_l].
  - apply Rmin_l.
Qed.

Lemma clamp_below (p : R) : p <= 0 -> Math.min 1 (Math.max 0 p) = 0.
Proof.
  intros H. unfold Math.min, Math.max.
  rewrite Rmax_left by exact H. apply Rmin_right. lra.
Qed.

Lemma clamp_above (p : R) : 1 <= p -> Math.min 1 (Math.max 0 p) = 1.
Proof.
  intros H. unfold Math.min, Math.max.
  rewrite Rmax_right by lra. apply Rmin_left. exact H.
Qed.

Lemma clamp_inside (p : R) : 0 <= p <= 1 -> Math.min 1 (Math.max 0 p) = p.
Proof.
  intros H. unfold Math.min, Math.max.
  rewrite Rmax_right by lra. apply Rmin_right. lra.
Qed.

Lemma getPositionOnPath_same_clamp (shape : string) (params : Params)
    (p q w h : R) :
  Math.min 1 (Math.max 0 p) = Math.min 1 (Math.max 0 q) ->
  getPositionOnPath shape params p w h
  = getPositionOnPath shape params q w h.
Proof.
  intros H. unfold getPositionOnPath. rewrite H. reflexivity.
Qed.

(** X1. Progress is clamped to the unit interval: a progress at or below 0
    gives the position of progress 0 and a progress at or above 1 gives the
    position of progress 1, for every shape, the failing ones included. *)
Theorem getPositionOnPath_clamps_progress (shape : string) (params : Params)
    (progress w h : R) :
  (progress <= 0 ->
   getPositionOnPath shape params progress w h
   = getPositionOnPath shape params 0 w h) /\
  (1 <= progress ->
   getPositionOnPath shape params progress w h
   = getPositionOnPath shape params 1 w h).
Proof.
  split; intros H; apply getPositionOnPath_same_clamp.
  - rewrite (clamp_below progress H), (clamp_below 0); lra.
  - rewrite (clamp_above progress H), (clamp_above 1); lra.
Qed.

Lemma getPositionOnPath_clamps_progress_witness :
  getPositionOnPath "wave"
    (mkParams 0.1 0.5 0.9 0 0.15 2 0 0 0 [] 4000) (-3) 800 600
  = getPositionOnPath "wave"
      (mkParams 0.1 0.5 0.9 0 0.15 2 0 0 0 [] 4000) 0 800 600 /\
  getPositionOnPath "wave"
    (mkParams 0.1 0.5 0.9 0 0.15 2 0 0 0 [] 4000) 7 800 600
  = getPositionOnPath "wave"
      (mkParams 0.1 0.5 0.9 0 0.15 2 0 0 0 [] 4000) 1 800 600.
Proof.
  split.
  - apply (proj1 (getPositionOnPath_clamps_progress "wave" _ (-3) 800 600)).
    lra.
  - apply (proj2 (getPositionOnPath_clamps_progress "wave" _ 7 800 600)).
    lra.
Defined.

Lemma array_get_in_range {A : Type} (l : list A) (i : Z) :
  (0 <= i < Z.of_nat (List.length l))%Z ->
  exists a, array_get l i = Some a.
Proof.
  intros H. unfold array_get.
  rewrite (proj2 (Z.ltb_ge i 0)) by lia.
  destruct (nth_error l (Z.to_nat i)) as [a |] eqn:Hn; [eauto |].
  apply nth_error_None in Hn. lia.
Qed.

Lemma polyline_branch (shape : string) :
  shape = "blob" \/ shape = "zigzag" ->
  (shape =? "line")%string = false /\ (shape =? "wave")%string = false /\
  (shape =? "circle")%string = false /\
  ((shape =? "blob") || (shape =? "zigzag"))%string = true.
Proof.
  intros [H | H]; subst shape; repeat split; reflexivity.
Qed.

(** The segment index of a polyline of at least two points is the index
    of one of its segments. *)
Lemma segmentIndex_in_range (t : R) (n : Z) :
  0 <= t -> (1 <= n)%Z ->
  (0 <= Z.min (Math.floor (t * IZR n)) (n - 1) <= n - 1)%Z.
Proof.
  intros Ht Hn. split; [| apply Z.le_min_r].
  apply Z.min_glb; [| lia].
  unfold Math.floor. apply Zfloor_lub. simpl.
  apply Rmult_le_pos; [exact Ht |]. apply IZR_le. lia.
Qed.

Lemma getPositionOnPath_long_polyline (shape : string) (params : Params)
    (progress w h : R) :
  shape = "blob" \/ shape = "zigzag" ->
  (2 <= List.length params.(points))%nat ->
  exists pos, getPositionOnPath shape params progress w h = Returns pos.
Proof.
  intros Hshape Hlen.
  destruct (polyline_branch shape Hshape) as [Hl [Hw [Hc Hb]]].
  unfold getPositionOnPath. rewrite Hl, Hw, Hc, Hb. cbv zeta.
  set (t := Math.min 1 (Math.max 0 progress)).
  set (n := (Z.of_nat (List.length (points params)) - 1)%Z).
  assert (Hsi := segmentIndex_in_range t n (proj1 (clamp_bounds progress))
                   ltac:(unfold n; lia)).
  set (si := Z.min (Math.floor (t * IZR n)) (n - 1)) in *.
  destruct (array_get_in_range (points params) si) as [p1 H1];
    [unfold n in *; lia |].
  destruct (array_get_in_range (points params) (si + 1)) as [p2 H2];
    [unfold n in *; lia |].
  destruct (array_get_in_range (points params) (Z.max 0 (si - 1)))
    as [p0 H0]; [unfold n in *; lia |].
  destruct (array_get_in_range (points params) (Z.min n (si + 2)))
    as [p3 H3]; [unfold n in *; lia |].
  rewrite H0, H1, H2, H3.
  destruct (_ && _); eauto.
Qed.

(** X2. The path calculator raises an error exactly on a blob or a zigzag
    with fewer than two points; on every other input, whatever the progress
    and the canvas, it returns a position. *)
Theorem getPositionOnPath_throws_iff (shape : string) (params : Params)
    (progress w h : R) :
  getPositionOnPath shape params progress w h = Throws <->
  (shape = "blob" \/ shape = "zigzag") /\
  (List.length params.(points) < 2)%nat.
Proof.
  split.
  - intros H.
    destruct (String.eqb_spec shape "blob") as [Hb | Hb];
      [| destruct (String.eqb_spec shape "zigzag") as [Hz | Hz]].
    + split; [left; exact Hb |].
      destruct (Nat.lt_ge_cases (List.length (points params)) 2)
        as [Hlt | Hge]; [exact Hlt |].
      destruct (getPositionOnPath_long_polyline shape params progress w h
                  (or_introl Hb) Hge) as [pos Hpos].
      congruence.
    + split; [right; exact Hz |].
      destruct (Nat.lt_ge_cases (List.length (points params)) 2)
        as [Hlt | Hge]; [exact Hlt |].
      destruct (getPositionOnPath_long_polyline shape params progress w h
                  (or_intror Hz) Hge) as [pos Hpos].
      congruence.
    + exfalso. apply String.eqb_neq in Hb, Hz.
      unfold getPositionOnPath in H. rewrite Hb, Hz in H.
      destruct (shape =? "line")%string; [discriminate |].
      destruct (shape =? "wave")%string; [discriminate |].
      destruct (shape =? "circle")%string; discriminate.
  - intros [Hshape Hlen].
    apply getPositionOnPath_short_polyline; assumption.
Qed.

(** ** Scoring: bounds and grades *)

Lemma factor_bounds (a b : R) :
  0 <= a -> 0 < b -> 0 <= Math.max 0 (1 - a / b) <= 1.
Proof.
  intros Ha Hb. split; [apply max_nonneg |].
  unfold Math.max. apply Rmax_lub; [lra |].
  assert (0 <= a / b); [| lra].
  apply Rmult_le_pos; [exact Ha |]. left. apply Rinv_0_lt_compat. exact Hb.
Qed.

(** X10. With a positive target radius and maximal reaction time and
    non-negative maximal points, a click at a non-negative distance and
    reaction time scores between 0 and the rounded maximal click points,
    and both of its factors lie in the unit interval. *)
Theorem calculateClickPoints_bounds (cfg : Config) (d rt : R) :
  0 < cfg.(targetRadius) ->
  0 < cfg.(cfgPoints).(maxReactionTime) ->
  0 <= cfg.(cfgPoints).(maxClickPoints) ->
  0 <= d -> 0 <= rt ->
  0 <= click_points (calculateClickPoints cfg d rt)
    <= Math.round cfg.(cfgPoints).(maxClickPoints) /\
  0 <= accuracyFactor (calculateClickPoints cfg d rt) <= 1 /\
  0 <= timeFactor (calculateClickPoints cfg d rt) <= 1.
Proof.
  intros Hr Ht Hm Hd Hrt.
  pose proof (factor_bounds d _ Hd Hr) as Ha.
  pose proof (factor_bounds rt _ Hrt Ht) as Hf.
  split; [split; [apply click_points_nonneg; exact Hm |] |].
  - destruct (Rle_dec d cfg.(targetRadius)) as [Hin | Hout].
    + rewrite calculateClickPoints_inside by exact Hin.
      apply round_monotone.
      set (af := Math.max 0 (1 - d / targetRadius cfg)) in *.
      set (tf := Math.max 0 (1 - rt / maxReactionTime (cfgPoints cfg))) in *.
      assert (af * tf <= 1) by nra.
      assert (0 <= af * tf) by nra.
      rewrite Rmult_assoc. nra.
    + rewrite calculateClickPoints_miss by lra. cbn [click_points].
      apply round_nonneg. exact Hm.
  - unfold calculateClickPoints.
    destruct (d >? targetRadius cfg); cbn [accuracyFactor timeFactor];
      [lra | auto].
Qed.

Lemma calculateClickPoints_bounds_witness :
  0 <= click_points (calculateClickPoints TRIAL_CONFIG 12 340)
    <= Math.round 400.
Proof.
  apply (calculateClickPoints_bounds TRIAL_CONFIG 12 340);
    cbn; lra.
Defined.

(** X11. A click on the centre of the target with no delay scores the
    rounded maximal click points with grade PERFECT and both factors 1,
    whenever the radius and the maximal reaction time are positive and the
    PERFECT thresholds are not negative; the divisions of the source meet
    no zero divisor there, and the scoring with special values gives the
    same real numbers. *)
Theorem calculateClickPoints_perfect (cfg : Config) :
  0 < cfg.(targetRadius) ->
  0 < cfg.(cfgPoints).(maxReactionTime) ->
  0 <= cfg.(cfgPoints).(clickPerfectDist) ->
  0 <= cfg.(cfgPoints).(clickPerfectTime) ->
  calculateClickPoints cfg 0 0
  = mkClickPoints (Math.round cfg.(cfgPoints).(maxClickPoints)) PERFECT 1 1
  /\
  Special.calculateClickPoints cfg (Num 0) 0
  = Special.mkClickPoints
      (Num (Math.round cfg.(cfgPoints).(maxClickPoints))) PERFECT
      (Num 1) (Num 1).
Proof.
  intros Hr Hm Hd Ht.
  assert (H : calculateClickPoints cfg 0 0
              = mkClickPoints (Math.round cfg.(cfgPoints).(maxClickPoints))
                  PERFECT 1 1).
  { unfold calculateClickPoints.
    rewrite (proj2 (Rgtb_false 0 _)) by lra.
    rewrite (proj2 (Rleb_true 0 _) Hd), (proj2 (Rleb_true 0 _) Ht).
    cbn [andb]. unfold Rdiv. rewrite !Rmult_0_l, Rminus_0_r.
    rewrite (max_of_nonneg 1) by lra.
    rewrite !Rmult_1_r. reflexivity. }
  split; [exact H |].
  rewrite calculateClickPoints_real by lra. rewrite H. reflexivity.
Qed.

Lemma calculateClickPoints_perfect_witness :
  calculateClickPoints TRIAL_CONFIG 0 0
  = mkClickPoints (Math.round 400) PERFECT 1 1 /\
  Special.calculateClickPoints TRIAL_CONFIG (Num 0) 0
  = Special.mkClickPoints (Num (Math.round 400)) PERFECT (Num 1) (Num 1).
Proof.
  apply (calculateClickPoints_perfect TRIAL_CONFIG); cbn; lra.
Defined.

Lemma click_grade_cases (cfg : Config) (d rt : R) :
  (d > cfg.(targetRadius) /\
   click_grade (calculateClickPoints cfg d rt) = MISS) \/
  (d <= cfg.(targetRadius) /\
   d <= cfg.(cfgPoints).(clickPerfectDist) /\
   rt <= cfg.(cfgPoints).(clickPerfectTime) /\
   click_grade (calculateClickPoints cfg d rt) = PERFECT) \/
  (d <= cfg.(targetRadius) /\
   ~ (d <= cfg.(cfgPoints).(clickPerfectDist) /\
      rt <= cfg.(cfgPoints).(clickPerfectTime)) /\
   d <= cfg.(cfgPoints).(clickGreatDist) /\
   rt <= cfg.(cfgPoints).(clickGreatTime) /\
   click_grade (calculateClickPoints cfg d rt) = GREAT) \/
  (d <= cfg.(targetRadius) /\
   ~ (d <= cfg.(cfgPoints).(clickPerfectDist) /\
      rt <= cfg.(cfgPoints).(clickPerfectTime)) /\
   ~ (d <= cfg.(cfgPoints).(clickGreatDist) /\
      rt <= cfg.(cfgPoints).(clickGreatTime)) /\
   click_grade (calculateClickPoints cfg d rt) = OK).
Proof.
  unfold calculateClickPoints, Rgtb, Rleb.
  destruct (Rgt_dec d (targetRadius cfg)) as [Hout | Hin].
  { left. split; [exact Hout | reflexivity]. }
  right. assert (d <= targetRadius cfg) by lra.
  cbn [click_grade].
  destruct (Rle_dec d (clickPerfectDist (cfgPoints cfg)));
    destruct (Rle_dec rt (clickPerfectTime (cfgPoints cfg)));
    destruct (Rle_dec d (clickGreatDist (cfgPoints cfg)));
    destruct (Rle_dec rt (clickGreatTime (cfgPoints cfg)));
    cbn [andb]; tauto.
Qed.

(** X12. The grade of a click is MISS exactly when the distance exceeds the
    target radius, it is never POOR, and it is monotone: a click that is
    both at least as close and at least as fast never gets a worse
    label. *)
Theorem click_grade_monotone (cfg : Config) (d1 d2 rt1 rt2 : R) :
  (click_grade (calculateClickPoints cfg d1 rt1) = MISS
   <-> d1 > cfg.(targetRadius)) /\
  click_grade (calculateClickPoints cfg d1 rt1) <> POOR /\
  (d1 <= d2 -> rt1 <= rt2 ->
   (grade_rank (click_grade (calculateClickPoints cfg d2 rt2))
    <= grade_rank (click_grade (calculateClickPoints cfg d1 rt1)))%nat).
Proof.
  split; [| split].
  - destruct (click_grade_cases cfg d1 rt1)
      as [[H G] | [[H [_ [_ G]]] | [[H [_ [_ [_ G]]]] | [H [_ [_ G]]]]]];
      rewrite G; split; intros; try discriminate; try lra; reflexivity.
  - destruct (click_grade_cases cfg d1 rt1)
      as [[H G] | [[H [_ [_ G]]] | [[H [_ [_ [_ G]]]] | [H [_ [_ G]]]]]];
      rewrite G; discriminate.
  - intros Hd Hrt.
    destruct (click_grade_cases cfg d2 rt2)
      as [[H2 G2] | [[H2 [P2 [Q2 G2]]]
                    | [[H2 [_ [P2 [Q2 G2]]]] | [H2 [_ [_ G2]]]]]];
      rewrite G2;
      destruct (click_grade_cases cfg d1 rt1)
        as [[H1 G1] | [[H1 [P1 [Q1 G1]]]
                      | [[H1 [N1 [P1 [Q1 G1]]]] | [H1 [N1 [M1 G1]]]]]];
      rewrite G1; cbn [grade_rank]; try lia; exfalso; try lra;
      try (apply N1; split; lra); try (apply M1; split; lra).
Qed.

Lemma click_grade_monotone_witness :
  (grade_rank (click_grade (calculateClickPoints TRIAL_CONFIG 20 300))
   <= grade_rank (click_grade (calculateClickPoints TRIAL_CONFIG 5 100)))%nat.
Proof.
  apply (proj2 (proj2 (click_grade_monotone TRIAL_CONFIG 5 20 100 300)));
    lra.
Defined.



(** X14. With a positive tracking distance and non-negative maximal sample
    points, a sample at a non-negative distance scores between 0 and the
    maximal sample points, a pressed sample never scores less than an
    unpressed one, and the score does not increase with the distance. *)
Theorem calculateTrackingSamplePoints_bounds (cfg : Config)
    (d1 d2 : R) (b : bool) :
  0 < cfg.(trackingMaxDistance) ->
  0 <= cfg.(cfgPoints).(maxPointsPerSample) ->
  0 <= d1 -> d1 <= d2 ->
  0 <= calculateTrackingSamplePoints cfg d1 b
    <= cfg.(cfgPoints).(maxPointsPerSample) /\
  calculateTrackingSamplePoints cfg d1 false
  <= calculateTrackingSamplePoints cfg d1 true /\
  calculateTrackingSamplePoints cfg d2 b
  <= calculateTrackingSamplePoints cfg d1 b.
Proof.
  intros Hdist Hm Hd Hle.
  pose proof (factor_bounds d1 _ Hd Hdist) as Hf.
  split; [| split].
  - unfold calculateTrackingSamplePoints. destruct b; cbn [negb]; nra.
  - unfold calculateTrackingSamplePoints. cbn [negb]. nra.
  - unfold calculateTrackingSamplePoints. destruct b; cbn [negb]; [| lra].
    apply Rmult_le_compat_l; [exact Hm |].
    apply max_monotone.
    apply Rplus_le_compat_l, Ropp_le_contravar.
    apply Rmult_le_compat_r; [| exact Hle].
    left. apply Rinv_0_lt_compat. exact Hdist.
Qed.

Lemma calculateTrackingSamplePoints_bounds_witness :
  0 <= calculateTrackingSamplePoints TRIAL_CONFIG 10 true <= 5 /\
  calculateTrackingSamplePoints TRIAL_CONFIG 10 false
  <= calculateTrackingSamplePoints TRIAL_CONFIG 10 true /\
  calculateTrackingSamplePoints TRIAL_CONFIG 30 true
  <= calculateTrackingSamplePoints TRIAL_CONFIG 10 true.
Proof.
  apply (calculateTrackingSamplePoints_bounds TRIAL_CONFIG 10 30 true);
    cbn; lra.
Defined.

Lemma tracking_grade_cases (cfg : Config) (a : R) :
  (a >= cfg.(cfgPoints).(trackPerfectPct) /\
   getTrackingGrade cfg a = PERFECT) \/
  (a < cfg.(cfgPoints).(trackPerfectPct) /\
   a >= cfg.(cfgPoints).(trackGreatPct) /\
   getTrackingGrade cfg a = GREAT) \/
  (a < cfg.(cfgPoints).(trackPerfectPct) /\
   a < cfg.(cfgPoints).(trackGreatPct) /\
   a >= cfg.(cfgPoints).(trackOkPct) /\
   getTrackingGrade cfg a = OK) \/
  (a < cfg.(cfgPoints).(trackPerfectPct) /\
   a < cfg.(cfgPoints).(trackGreatPct) /\
   a < cfg.(cfgPoints).(trackOkPct) /\
   getTrackingGrade cfg a = POOR).
Proof.
  unfold getTrackingGrade, Rgeb.
  destruct (Rge_dec a (trackPerfectPct (cfgPoints cfg)));
    [left; auto | right].
  destruct (Rge_dec a (trackGreatPct (cfgPoints cfg)));
    [left; repeat split; auto; lra | right].
  destruct (Rge_dec a (trackOkPct (cfgPoints cfg)));
    [left | right]; repeat split; auto; lra.
Qed.

(** X15. The grade of a tracking trial is never MISS and is monotone in the
    accuracy: a higher accuracy never gets a worse label, whatever the
    three thresholds are. *)
Theorem getTrackingGrade_monotone (cfg : Config) (a1 a2 : R) :
  getTrackingGrade cfg a1 <> MISS /\
  (a1 <= a2 ->
   (grade_rank (getTrackingGrade cfg a1)
    <= grade_rank (getTrackingGrade cfg a2))%nat).
Proof.
  split.
  - destruct (tracking_grade_cases cfg a1)
      as [[_ G] | [[_ [_ G]] | [[_ [_ [_ G]]] | [_ [_ [_ G]]]]]];
      rewrite G; discriminate.
  - intros Hle.
    destruct (tracking_grade_cases cfg a1)
      as [[P1 G1] | [[P1 [Q1 G1]] | [[P1 [Q1 [R1 G1]]] | [P1 [Q1 [R1 G1]]]]]];
      rewrite G1;
      destruct (tracking_grade_cases cfg a2)
        as [[P2 G2] | [[P2 [Q2 G2]]
                      | [[P2 [Q2 [R2 G2]]] | [P2 [Q2 [R2 G2]]]]]];
      rewrite G2; cbn [grade_rank]; try lia; exfalso; lra.
Qed.

Lemma getTrackingGrade_monotone_witness :
  (grade_rank (getTrackingGrade TRIAL_CONFIG 0.6)
   <= grade_rank (getTrackingGrade TRIAL_CONFIG 0.95))%nat.
Proof.
  apply (proj2 (getTrackingGrade_monotone TRIAL_CONFIG 0.6 0.95)). lra.
Defined.

(** ** Tracking results *)

Lemma filter_length_bound {A : Type} (f : A -> bool) (l : list A) :
  (List.length (filter f l) <= List.length l)%nat.
Proof.
  induction l as [| a l IH]; simpl; [lia |].
  destruct (f a); simpl; lia.
Qed.

Lemma fold_left_sum {A : Type} (f : A -> R) (l : list A) (a : R) :
  fold_left (fun s t => s + f t) l a
  = a + fold_right (fun t acc => f t + acc) 0 l.
Proof.
  revert a. induction l as [| x l IH]; intros a; simpl; [lra |].
  rewrite IH. lra.
Qed.

Lemma fold_right_sum_bounds {A : Type} (f : A -> R) (lo hi : R)
    (l : list A) :
  Forall (fun t => lo <= f t <= hi) l ->
  lo * INR (List.length l)
  <= fold_right (fun t acc => f t + acc) 0 l
  <= hi * INR (List.length l).
Proof.
  induction 1 as [| x l Hx _ IH].
  - simpl. lra.
  - cbn [fold_right]. change (List.length (x :: l)) with (S (List.length l)).
    rewrite S_INR. lra.
Qed.

Lemma tracking_sample_points_upper (cfg : Config) (d : R) (b : bool) :
  0 < cfg.(trackingMaxDistance) ->
  0 <= cfg.(cfgPoints).(maxPointsPerSample) ->
  0 <= d ->
  calculateTrackingSamplePoints cfg d b
  <= cfg.(cfgPoints).(maxPointsPerSample).
Proof.
  intros Hdist Hm Hd.
  pose proof (factor_bounds d _ Hd Hdist) as Hf.
  unfold calculateTrackingSamplePoints. destruct b; cbn [negb]; nra.
Qed.

Lemma accuracy_bounds (samples : list Sample) :
  samples <> [] ->
  0 <= INR (pressed_samples samples) / INR (List.length samples) <= 1.
Proof.
  intros Hne.
  assert (Hlen : 0 < INR (List.length samples)).
  { apply lt_0_INR. destruct samples; [congruence | simpl; lia]. }
  assert (Hle : INR (pressed_samples samples)
                <= INR (List.length samples))
    by (apply le_INR, filter_length_bound).
  pose proof (pos_INR (pressed_samples samples)) as Hpos.
  split.
  - apply Rmult_le_pos; [exact Hpos |].
    left. apply Rinv_0_lt_compat. exact Hlen.
  - apply Rmult_le_reg_r with (r := INR (List.length samples));
      [exact Hlen |].
    unfold Rdiv. rewrite Rmult_assoc, Rinv_l by lra. lra.
Qed.

Lemma trackData_accuracy (cfg : Config) (tk : Tracker) (date : R) :
  t_accuracy (trackData cfg tk date)
  = match tk.(tk_samples) with
    | [] => 0
    | _ :: _ =>
        INR (pressed_samples tk.(tk_samples))
        / INR (List.length tk.(tk_samples))
    end.
Proof.
  rewrite trackData_real. cbn [t_accuracy].
  destruct (tk_samples tk); reflexivity.
Qed.

Lemma trackData_accuracy_bounds (cfg : Config) (tk : Tracker) (date : R) :
  0 <= t_accuracy (trackData cfg tk date) <= 1.
Proof.
  rewrite trackData_accuracy.
  destruct (tk_samples tk) as [| s l] eqn:Hs; [lra |].
  apply accuracy_bounds. discriminate.
Qed.

(** X16. The result of a tracking trial whose samples are as the sampler
    records them has an accuracy in the unit interval, a non-negative
    average distance, and points between 0 and the rounded product of the
    maximal sample points by the number of samples. *)
Theorem trackData_bounds (cfg : Config) (tk : Tracker) (date : R) :
  0 < cfg.(trackingMaxDistance) ->
  0 <= cfg.(cfgPoints).(maxPointsPerSample) ->
  tracker_consistent cfg tk ->
  0 <= t_accuracy (trackData cfg tk date) <= 1 /\
  0 <= t_averageDistance (trackData cfg tk date) /\
  0 <= t_points (trackData cfg tk date)
    <= Math.round (cfg.(cfgPoints).(maxPointsPerSample)
                   * INR (List.length tk.(tk_samples))).
Proof.
  intros Hdist Hm [Hacc Hsamples].
  split; [apply trackData_accuracy_bounds | split].
  - rewrite trackData_real. cbn [t_averageDistance].
    destruct (0 <? List.length (tk_samples tk))%nat eqn:Hlen; [| lra].
    apply Nat.ltb_lt in Hlen.
    rewrite fold_left_sum, Rplus_0_l.
    apply Rmult_le_pos.
    + assert (H : Forall (fun s => 0 <= s_distance s <= s_distance s)
                         (tk_samples tk)).
      { apply Forall_forall. intros s Hs.
        apply (proj1 (Forall_forall _ _) Hsamples) in Hs.
        destruct Hs as [_ [Hd _]]. lra. }
      clear Hacc Hsamples.
      induction H as [| s l Hs _ IH]; simpl; [lra |].
      assert (0 < List.length l \/ l = [])%nat as [Hl | Hl]
        by (destruct l; [right; reflexivity | left; simpl; lia]).
      * specialize (IH Hl). lra.
      * subst l. simpl. lra.
    + left. apply Rinv_0_lt_compat. apply lt_0_INR. exact Hlen.
  - unfold trackData. cbn [t_points]. rewrite Hacc.
    assert (H : Forall (fun s => 0 <= s_samplePoints s
                                 <= maxPointsPerSample (cfgPoints cfg))
                       (tk_samples tk)).
    { apply Forall_forall. intros s Hs.
      apply (proj1 (Forall_forall _ _) Hsamples) in Hs.
      destruct Hs as [Hp [Hd _]]. rewrite Hp. split.
      - apply tracking_sample_points_nonneg. exact Hm.
      - apply tracking_sample_points_upper; assumption. }
    apply (fold_right_sum_bounds s_samplePoints) in H.
    unfold sample_points_sum.
    split; [apply round_nonneg | apply round_monotone]; lra.
Qed.

Lemma finished_tracker_consistent :
  tracker_consistent TRIAL_CONFIG finished_tracker.
Proof.
  split.
  - cbn. lra.
  - repeat constructor; cbn [s_samplePoints s_distance s_isClicking
                             s_progress];
      try lra;
      unfold calculateTrackingSamplePoints; cbn;
      rewrite ?max_of_nonneg by lra; lra.
Qed.

Lemma trackData_bounds_witness :
  0 <= t_accuracy (trackData TRIAL_CONFIG finished_tracker 0) <= 1 /\
  0 <= t_averageDistance (trackData TRIAL_CONFIG finished_tracker 0) /\
  0 <= t_points (trackData TRIAL_CONFIG finished_tracker 0)
    <= Math.round (5 * INR 2).
Proof.
  apply (trackData_bounds TRIAL_CONFIG finished_tracker 0).
  - cbn. lra.
  - cbn. lra.
  - exact finished_tracker_consistent.
Defined.

(** X17. A tracking trial held on the target throughout: when every sample
    was taken pressed at distance 0, the accuracy is 1, the average
    distance is 0, the points are the rounded product of the maximal
    sample points by the number of samples, and the grade is PERFECT as
    soon as its threshold is at most 1. *)
Theorem trackData_held_on_target (cfg : Config) (tk : Tracker) (date : R) :
  tracker_consistent cfg tk ->
  tk.(tk_samples) <> [] ->
  Forall (fun s => s.(s_isClicking) = true /\ s.(s_distance) = 0)
         tk.(tk_samples) ->
  t_accuracy (trackData cfg tk date) = 1 /\
  t_averageDistance (trackData cfg tk date) = 0 /\
  t_points (trackData cfg tk date)
  = Math.round (cfg.(cfgPoints).(maxPointsPerSample)
                * INR (List.length tk.(tk_samples))) /\
  (cfg.(cfgPoints).(trackPerfectPct) <= 1 ->
   t_grade (trackData cfg tk date) = PERFECT).
Proof.
  intros [Hacc Hsamples] Hne Hheld.
  assert (Hlen : 0 < INR (List.length (tk_samples tk))).
  { apply lt_0_INR. destruct (tk_samples tk); [congruence | simpl; lia]. }
  assert (Hpressed : pressed_samples (tk_samples tk)
                     = List.length (tk_samples tk)).
  { unfold pressed_samples. clear Hacc Hsamples Hne Hlen.
    induction Hheld as [| s l [Hs _] _ IH]; simpl; [reflexivity |].
    rewrite Hs. simpl. rewrite IH. reflexivity. }
  assert (Hone : t_accuracy (trackData cfg tk date) = 1).
  { rewrite trackData_accuracy.
    destruct (tk_samples tk) as [| s l] eqn:Hs; [congruence |].
    rewrite Hpressed. unfold Rdiv. apply Rinv_r. lra. }
  split; [exact Hone | split; [| split]].
  - rewrite trackData_real. cbn [t_averageDistance].
    destruct (0 <? List.length (tk_samples tk))%nat; [| reflexivity].
    rewrite fold_left_sum, Rplus_0_l.
    assert (Hz : fold_right (fun t acc => s_distance t + acc) 0
                   (tk_samples tk) = 0).
    { clear Hacc Hsamples Hne Hlen Hpressed Hone.
      induction Hheld as [| s l [_ Hd] _ IH]; simpl; [reflexivity |].
      rewrite Hd, IH. lra. }
    rewrite Hz. unfold Rdiv. apply Rmult_0_l.
  - unfold trackData. cbn [t_points]. rewrite Hacc. f_equal.
    unfold sample_points_sum.
    clear Hacc Hne Hlen Hpressed Hone.
    induction Hheld as [| s l [Hs Hd] _ IH].
    + simpl. lra.
    + cbn [fold_right]. change (List.length (s :: l)) with (S (List.length l)).
      rewrite S_INR. inversion Hsamples as [| ? ? [Hp _] Hrest]; subst.
      rewrite (IH Hrest), Hp, Hs, Hd.
      unfold calculateTrackingSamplePoints. cbn [negb].
      unfold Rdiv. rewrite Rmult_0_l, Rminus_0_r, max_of_nonneg by lra.
      lra.
  - intros Hp. unfold trackData at 1. cbn [t_grade].
    fold (t_accuracy (trackData cfg tk date)).
    change (getTrackingGrade cfg (t_accuracy (trackData cfg tk date))
            = PERFECT).
    rewrite Hone. unfold getTrackingGrade.
    rewrite (proj2 (Rgeb_true 1 _)) by lra. reflexivity.
Qed.

Lemma held_tracker_consistent : tracker_consistent TRIAL_CONFIG held_tracker.
Proof.
  split.
  - cbn. lra.
  - repeat constructor; cbn [s_samplePoints s_distance s_isClicking
                             s_progress];
      try lra;
      unfold calculateTrackingSamplePoints; cbn;
      rewrite ?max_of_nonneg by lra; lra.
Qed.

Lemma trackData_held_on_target_witness :
  t_accuracy (trackData TRIAL_CONFIG held_tracker 0) = 1 /\
  t_averageDistance (trackData TRIAL_CONFIG held_tracker 0) = 0 /\
  t_points (trackData TRIAL_CONFIG held_tracker 0)
  = Math.round (5 * INR 2) /\
  t_grade (trackData TRIAL_CONFIG held_tracker 0) = PERFECT.
Proof.
  destruct (trackData_held_on_target TRIAL_CONFIG held_tracker 0
              held_tracker_consistent)
    as [Hacc [Hdist [Hpoints Hgrade]]].
  - discriminate.
  - repeat constructor.
  - split; [exact Hacc | split; [exact Hdist | split; [exact Hpoints |]]].
    apply Hgrade. cbn. lra.
Defined.

(** ** Trial runner: what every run keeps *)

Lemma sample_points_sum_app (l : list Sample) (s : Sample) :
  sample_points_sum (l ++ [s]) = sample_points_sum l + s.(s_samplePoints).
Proof.
  unfold sample_points_sum.
  induction l as [| a l IH]; simpl; [lra |].
  rewrite IH. lra.
Qed.

Lemma sqrt_nonneg (a : R) : 0 <= Math.sqrt a.
Proof. unfold Math.sqrt. apply sqrt_pos. Qed.

Lemma Forall_update_nth_at {A : Type} (P : A -> Prop) (f : A -> A)
    (k : nat) (l : list A) :
  Forall P l ->
  (forall a, nth_error l k = Some a -> P (f a)) ->
  Forall P (update_nth k f l).
Proof.
  intros Hl. revert k.
  induction Hl as [| a l Ha Hl IH]; intros k Hf; simpl.
  - constructor.
  - destruct k as [| k]; constructor.
    + apply (Hf a). reflexivity.
    + exact Hl.
    + exact Ha.
    + apply IH. intros b Hb. apply Hf. exact Hb.
Qed.

Lemma startTrial_click_index (now : R) (s st' : State) :
  startTrial now s = Returns st' -> click_index_in_range st'.
Proof.
  unfold startTrial. intros H.
  destruct (nth_error (trials s) (currentTrialIndex s)) as [trial |] eqn:Ht.
  - destruct (def trial) as [[c | sh] |] eqn:Hd.
    + destruct (array_get (positions c) 0) as [firstPos |] eqn:Hp;
        [| discriminate].
      injection H as <-. intros _ trial' c' Ht' Hd'. cbn in *.
      assert (trial' = trial) by congruence. subst trial'.
      assert (c' = c) by congruence. subst c'.
      destruct (positions c); [discriminate | simpl; lia].
    + unfold bind in H.
      destruct (getPositionOnPath _ _ _ _ _); [| discriminate].
      injection H as <-. intros _ trial' c' Ht' Hd'. cbn in *.
      congruence.
    + injection H as <-. intros _ trial' c' Ht' Hd'. cbn in *.
      congruence.
  - injection H as <-. intros _ trial' c' Ht' Hd'. congruence.
Qed.

Lemma startTrialEffect_click_index (now : R) (s st' : State) :
  startTrialEffect now s = Returns st' -> click_index_in_range st'.
Proof.
  unfold startTrialEffect. intros H.
  destruct (GameState_eqb (gameState s) Playing) eqn:Hg; cbn [andb] in H.
  - destruct (0 <? List.length (trials s))%nat eqn:Hl.
    + apply startTrial_click_index in H. exact H.
    + injection H as <-. intros _ trial c Ht _.
      apply Nat.ltb_ge in Hl.
      destruct (trials s); [| simpl in Hl; lia].
      destruct (currentTrialIndex s); discriminate.
  - injection H as <-. intros Hp. rewrite Hp in Hg. discriminate.
Qed.

Lemma startTrialEffect_invariant (cfg : Config) (now : R)
    (st0 s st' : State) :
  s.(trialData) = st0.(trialData) ->
  s.(totalScore) = st0.(totalScore) ->
  s.(trackers) = st0.(trackers) ->
  run_invariant cfg st0 ->
  startTrialEffect now s = Returns st' ->
  run_invariant cfg st'.
Proof.
  intros Hd Hs Ht [Hsum [Htk [Hres _]]] H.
  pose proof (startTrialEffect_click_index now s st' H) as Hidx.
  apply startTrialEffect_frame in H. destruct H as [Hd' [Hs' [Ht' _]]].
  unfold run_invariant. rewrite Hd', Hs', Ht', Hd, Hs, Ht. auto.
Qed.

Lemma handlePointerDown_returns (cfg : Config) (x y now date : R)
    (st : State) :
  exists st', handlePointerDown cfg x y now date st = Returns st'.
Proof.
  unfold handlePointerDown.
  destruct (negb _); [eauto |].
  destruct (nth_error (trials st) (currentTrialIndex st)) as [trial |];
    [| eauto].
  destruct (def trial) as [[c | s] |]; [| destruct (negb _); eauto | eauto].
  cbn [currentClickIndex setTrialData setTotalScore setIsClickingRef].
  destruct (_ <? _)%nat eqn:Hlt; [| eauto].
  apply Nat.ltb_lt in Hlt.
  destruct (nth_error (positions c) (currentClickIndex st + 1)) eqn:Hn;
    [eauto |].
  apply nth_error_None in Hn. lia.
Qed.

Lemma handlePointerDown_invariant (cfg : Config) (x y now date : R)
    (st st' : State) :
  run_invariant cfg st ->
  handlePointerDown cfg x y now date st = Returns st' ->
  run_invariant cfg st'.
Proof.
  intros Hinv H. pose proof Hinv as [Hsum [Htk [Hres Hidx]]].
  unfold handlePointerDown in H.
  destruct (negb _); [injection H as <-; exact Hinv |].
  destruct (nth_error (trials st) (currentTrialIndex st)) as [trial |]
    eqn:Ht; [| injection H as <-; exact Hinv].
  destruct (def trial) as [[c | s] |] eqn:Hd.
  - cbn [currentClickIndex setTrialData setTotalScore setIsClickingRef
         targetPosition clickStartTime] in H.
    match type of H with
    | context [click ?d] => set (data := d) in H
    end.
    assert (Hdata : result_consistent cfg (click data)).
    { cbn. repeat split; try reflexivity. apply sqrt_nonneg. }
    assert (Hsum' : totalScore st + c_points data
                    = sum_points (trialData st ++ [click data])).
    { rewrite sum_points_app, Hsum. cbn. lra. }
    assert (Hres' : Forall (result_consistent cfg)
                           (trialData st ++ [click data])).
    { apply Forall_app. split; [exact Hres | constructor; auto]. }
    destruct (_ <? _)%nat eqn:Hlt.
    + destruct (nth_error (positions c) _); [| discriminate].
      injection H as <-. unfold run_invariant. cbn.
      split; [exact Hsum' | split; [exact Htk | split; [exact Hres' |]]].
      intros Hp trial' c' Ht' Hd'. cbn in *.
      assert (trial' = trial) by congruence. subst trial'.
      assert (c' = c) by congruence. subst c'.
      apply Nat.ltb_lt in Hlt. lia.
    + injection H as <-. unfold run_invariant. cbn.
      split; [exact Hsum' | split; [exact Htk | split; [exact Hres' |]]].
      intros Hp trial' c' Ht' Hd'. cbn in *.
      apply (Hidx Hp trial' c' Ht' Hd').
  - destruct (negb _); injection H as <-; [| exact Hinv].
    unfold run_invariant. cbn.
    split; [exact Hsum | split; [| split; [exact Hres |]]].
    + apply Forall_app. split; [exact Htk |].
      constructor; [| constructor].
      split; [reflexivity | constructor].
    + intros Hp trial' c' Ht' Hd'. cbn in *. congruence.
  - injection H as <-. unfold run_invariant. cbn.
    split; [exact Hsum | split; [exact Htk | split; [exact Hres |]]].
    intros Hp trial' c' Ht' Hd'. cbn in *. congruence.
Qed.

Lemma sampleTick_invariant (cfg : Config) (k : nat) (now : R)
    (st st' : State) :
  run_invariant cfg st ->
  sampleTick cfg k now st = Returns st' ->
  run_invariant cfg st'.
Proof.
  intros Hinv H. pose proof Hinv as [Hsum [Htk [Hres Hidx]]].
  unfold sampleTick in H.
  destruct (nth_error (trackers st) k) as [tk |] eqn:Hk;
    [| injection H as <-; exact Hinv].
  destruct (negb _); [injection H as <-; exact Hinv |].
  destruct (Number.leb _ _) eqn:Hprogress;
    [| injection H as <-; exact Hinv].
  apply progress_within in Hprogress.
  unfold bind in H.
  destruct (getPositionOnPath _ _ _ _ _) as [targetPos |]; [| discriminate].
  injection H as <-. unfold run_invariant. cbn.
  split; [exact Hsum | split; [| split; [exact Hres | exact Hidx]]].
  apply Forall_update_nth_at; [exact Htk |].
  intros a Ha. rewrite Hk in Ha. injection Ha as <-.
  apply nth_error_In in Hk.
  destruct (proj1 (Forall_forall _ _) Htk tk Hk) as [Hacc Hsamples].
  split; cbn.
  - rewrite sample_points_sum_app, Hacc. reflexivity.
  - apply Forall_app. split; [exact Hsamples |].
    constructor; [| constructor].
    split; [reflexivity | split; [apply sqrt_nonneg |]].
    cbn [s_progress]. rewrite real_div. exact Hprogress.
Qed.

Lemma clearInterval_consistent (cfg : Config) (ref : option nat)
    (live : list Tracker) :
  Forall (tracker_consistent cfg) live ->
  Forall (tracker_consistent cfg) (clearInterval ref live).
Proof.
  intros H. destruct ref as [id |]; [| exact H].
  apply Forall_update_nth; [exact H | intros a Ha; exact Ha].
Qed.

Lemma animate_invariant (cfg : Config) (k : nat) (now date : R)
    (st st' : State) :
  run_invariant cfg st ->
  animate cfg k now date st = Returns st' ->
  run_invariant cfg st'.
Proof.
  intros Hinv H. pose proof Hinv as [Hsum [Htk [Hres Hidx]]].
  unfold animate in H.
  destruct (nth_error (trackers st) k) as [tk |] eqn:Hk;
    [| injection H as <-; exact Hinv].
  destruct (negb _); [injection H as <-; exact Hinv |].
  destruct (Number.geb _ _).
  - injection H as <-. unfold run_invariant. cbn.
    split; [| split; [| split; [| exact Hidx]]].
    + rewrite sum_points_app, Hsum. cbn. lra.
    + apply Forall_update_nth;
        [apply clearInterval_consistent; exact Htk | intros a Ha; exact Ha].
    + apply Forall_app. split; [exact Hres |].
      constructor; [| constructor].
      exists tk, date. split; [reflexivity |].
      apply nth_error_In in Hk.
      exact (proj1 (Forall_forall _ _) Htk tk Hk).
  - unfold bind in H.
    destruct (getPositionOnPath _ _ _ _ _) as [newPos |]; [| discriminate].
    injection H as <-. unfold run_invariant. cbn.
    split; [exact Hsum | split; [| split; [exact Hres | exact Hidx]]].
    apply Forall_update_nth; [exact Htk | intros a Ha; exact Ha].
Qed.

Lemma step_invariant (cfg : Config) (e : Event) (st st' : State) :
  run_invariant cfg st ->
  step cfg st e = Returns st' ->
  run_invariant cfg st'.
Proof.
  intros Hinv H. pose proof Hinv as [Hsum [Htk [Hres Hidx]]].
  destruct e as [random | now | rw rh now | x y | x y now date | | now
                | k now | k now date |]; cbn [step] in H.
  - destruct (GameState_eqb _ _); injection H as <-; [| exact Hinv].
    unfold run_invariant. cbn.
    split; [reflexivity | split; [exact Htk | split; [constructor |]]].
    intros Hp. discriminate.
  - unfold countdownTick in H.
    destruct (GameState_eqb (gameState st) Countdown) eqn:Hg;
      cbn [andb] in H; [| injection H as <-; exact Hinv].
    destruct (0 <? countdown st)%nat; [| injection H as <-; exact Hinv].
    destruct (_ =? _)%nat.
    + apply (startTrialEffect_invariant cfg now st) in H; auto.
    + injection H as <-. unfold run_invariant. cbn.
      split; [exact Hsum | split; [exact Htk | split; [exact Hres |]]].
      intros Hp. cbn in Hp. rewrite Hp in Hg. discriminate.
  - apply (startTrialEffect_invariant cfg now st) in H; auto.
  - injection H as <-. exact Hinv.
  - apply (handlePointerDown_invariant cfg x y now date st); assumption.
  - injection H as <-. exact Hinv.
  - destruct (timeouts st) as [| c pending];
      [injection H as <-; exact Hinv |].
    apply (startTrialEffect_invariant cfg now st) in H; auto;
      unfold nextTrial; destruct (_ <? _)%nat; reflexivity.
  - apply (sampleTick_invariant cfg k now st); assumption.
  - apply (animate_invariant cfg k now date st); assumption.
  - destruct (GameState_eqb _ _); injection H as <-; [| exact Hinv].
    unfold run_invariant. cbn.
    split; [reflexivity | split; [exact Htk | split; [constructor |]]].
    intros Hp. discriminate.
Qed.

Lemma run_invariant_kept (cfg : Config) (es : list Event) (st st' : State) :
  run_invariant cfg st ->
  run cfg st es = Returns st' ->
  run_invariant cfg st'.
Proof.
  revert st. induction es as [| e es IH]; intros st Hinv H; cbn in H.
  - injection H as <-. exact Hinv.
  - unfold bind in H. destruct (step cfg st e) as [st1 |] eqn:Hstep;
      [| discriminate].
    apply (IH st1); [| exact H].
    apply (step_invariant cfg e st st1 Hinv Hstep).
Qed.

Lemma run_invariant_initial (cfg : Config) : run_invariant cfg initialState.
Proof.
  unfold run_invariant. cbn.
  split; [reflexivity | split; [constructor | split; [constructor |]]].
  intros Hp. discriminate.
Qed.

Lemma run_invariant_reachable (cfg : Config) (es : list Event)
    (st : State) :
  run cfg initialState es = Returns st -> run_invariant cfg st.
Proof.
  apply run_invariant_kept, run_invariant_initial.
Qed.

Lemma sum_points_split (l : list TrialData) :
  sum_points l
  = clickPoints (clickStats l) + trackPoints (trackStats l).
Proof.
  unfold clickStats, trackStats. cbn [clickPoints trackPoints].
  rewrite !fold_left_sum, !Rplus_0_l. unfold sum_points.
  induction l as [| d l IH]; simpl; [lra |].
  destruct d as [c | t]; simpl; rewrite IH; lra.
Qed.

(** X19. In every state of every sequence of events from the first render,
    the total score is the sum of the points of the recorded results, so
    that on the results screen the points of the click panel and of the
    tracking panel add up to the total. *)
Theorem totalScore_is_sum_of_records (cfg : Config) (es : list Event)
    (st : State) :
  run cfg initialState es = Returns st ->
  st.(totalScore) = sum_points st.(trialData) /\
  clickPoints (clickStats st.(trialData))
  + trackPoints (trackStats st.(trialData))
  = st.(totalScore).
Proof.
  intros H. apply run_invariant_reachable in H.
  destruct H as [Hsum _]. split; [exact Hsum |].
  rewrite Hsum. symmetry. apply sum_points_split.
Qed.

Lemma totalScore_is_sum_of_records_witness :
  exists st,
    run TRIAL_CONFIG initialState five_clicks = Returns st /\
    List.length st.(trialData) = 5%nat /\
    st.(totalScore) = sum_points st.(trialData) /\
    clickPoints (clickStats st.(trialData))
    + trackPoints (trackStats st.(trialData))
    = st.(totalScore).
Proof.
  eexists. split.
  { evaluate. select_first. evaluate. reflexivity. }
  split; [reflexivity |].
  apply (totalScore_is_sum_of_records TRIAL_CONFIG five_clicks).
  evaluate. select_first. evaluate. reflexivity.
Defined.

(** X20. In every state of every sequence of events from the first render,
    while the game is playing a click sequence the click index is the
    index of one of its positions. *)
Theorem click_index_stays_in_range (cfg : Config) (es : list Event)
    (st : State) (trial : TrialInstance) (c : ClickSequence) :
  run cfg initialState es = Returns st ->
  st.(gameState) = Playing ->
  nth_error st.(trials) st.(currentTrialIndex) = Some trial ->
  trial.(def) = Some (click_sequence c) ->
  (st.(currentClickIndex) < List.length c.(positions))%nat.
Proof.
  intros H Hp Ht Hd. apply run_invariant_reachable in H.
  destruct H as [_ [_ [_ Hidx]]]. exact (Hidx Hp trial c Ht Hd).
Qed.

(** X21. A press never raises an error, whatever the state; and while the
    game is not playing, or when no trial is current, it leaves the state
    as it is. *)
Theorem handlePointerDown_never_throws (cfg : Config) (x y now date : R)
    (st : State) :
  (exists st', handlePointerDown cfg x y now date st = Returns st') /\
  (st.(gameState) <> Playing \/
   nth_error st.(trials) st.(currentTrialIndex) = None ->
   handlePointerDown cfg x y now date st = Returns st).
Proof.
  split; [apply handlePointerDown_returns |].
  intros [Hg | Ht]; unfold handlePointerDown.
  - destruct (gameState st); try reflexivity. congruence.
  - destruct (negb _); [reflexivity |]. rewrite Ht. reflexivity.
Qed.

Lemma handlePointerDown_never_throws_witness :
  handlePointerDown TRIAL_CONFIG 10 20 0 0 initialState
  = Returns initialState.
Proof.
  apply (proj2 (handlePointerDown_never_throws TRIAL_CONFIG 10 20 0 0
                  initialState)).
  left. discriminate.
Defined.




Lemma trackTrials_accuracy_sum (cfg : Config) (l : list TrialData) :
  Forall (result_consistent cfg) l ->
  0 <= fold_right (fun t acc => t_accuracy t + acc) 0 (trackTrials l)
    <= INR (List.length (trackTrials l)).
Proof.
  intros H.
  assert (Hb : Forall (fun t => 0 <= t_accuracy t <= 1) (trackTrials l)).
  { induction H as [| d l Hd _ IH]; simpl; [constructor |].
    destruct d as [c | t]; simpl; [exact IH |].
    constructor; [| exact IH].
    destruct Hd as [tk [date [-> _]]]. apply trackData_accuracy_bounds. }
  apply (fold_right_sum_bounds t_accuracy) in Hb. lra.
Qed.

(** X22. In every state of every sequence of events from the first render,
    the click time percentage of the tracking panel of the results screen
    lies between 0 and 100, and the perfect and great hits of the click
    panel together do not exceed the number of recorded clicks. *)
Theorem results_screen_figures_in_range (cfg : Config) (es : list Event)
    (st : State) :
  run cfg initialState es = Returns st ->
  0 <= avgAcc (trackStats st.(trialData)) <= 100 /\
  (perfectHits (clickStats st.(trialData))
   + greatHits (clickStats st.(trialData))
   <= List.length (clickTrials st.(trialData)))%nat.
Proof.
  intros H. apply run_invariant_reachable in H.
  destruct H as [_ [_ [Hres _]]]. split.
  - unfold trackStats. cbn [avgAcc].
    destruct (0 <? List.length (trackTrials (trialData st)))%nat eqn:Hlen;
      [| lra].
    apply Nat.ltb_lt, lt_0_INR in Hlen.
    rewrite fold_left_sum, Rplus_0_l.
    pose proof (trackTrials_accuracy_sum cfg _ Hres) as Hsum.
    set (total := fold_right _ _ _) in *.
    set (n := INR _) in *.
    assert (Hq : 0 <= total / n <= 1).
    { split.
      - apply Rmult_le_pos; [lra |]. left. apply Rinv_0_lt_compat. exact Hlen.
      - apply Rmult_le_reg_r with (r := n); [exact Hlen |].
        unfold Rdiv. rewrite Rmult_assoc, Rinv_l by lra. lra. }
    set (q := total / n) in *.
    split.
    + apply round_nonneg. lra.
    + apply Rle_trans with (Math.round 100);
        [apply round_monotone; lra |].
      rewrite (round_integer 100). lra.
  - unfold clickStats. cbn [perfectHits greatHits].
    generalize (clickTrials (trialData st)). intros l.
    induction l as [| c l IH]; simpl; [lia |].
    destruct (c_grade c); simpl; lia.
Qed.

Lemma results_screen_figures_in_range_witness :
  exists st,
    run click_and_line_config initialState click_then_track = Returns st /\
    List.length (clickTrials st.(trialData)) = 1%nat /\
    List.length (trackTrials st.(trialData)) = 1%nat /\
    avgAcc (trackStats st.(trialData)) = 50 /\
    0 <= avgAcc (trackStats st.(trialData)) <= 100 /\
    (perfectHits (clickStats st.(trialData))
     + greatHits (clickStats st.(trialData))
     <= List.length (clickTrials st.(trialData)))%nat.
Proof.
  evar (st : State).
  assert (Hrun : run click_and_line_config initialState click_then_track
                 = Returns st).
  { subst st. unfold click_then_track, line_sampled. cbn [app].
    do 12 advance. reflexivity. }
  exists st.
  split; [exact Hrun |].
  split; [subst st; reflexivity |].
  split; [subst st; reflexivity |].
  split.
  { subst st. evaluate.
    rewrite ?real_div.
    replace ((0 + INR 1 / INR 2) / INR 1 * 100) with (IZR 50)
      by (simpl; lra).
    apply (round_integer 50). }
  apply (results_screen_figures_in_range click_and_line_config
           click_then_track st Hrun).
Defined.

Lemma click_index_stays_in_range_witness :
  exists st,
    run TRIAL_CONFIG initialState
      [StartGame always_first; CountdownTick 0; CountdownTick 0;
       CountdownTick 0]
    = Returns st /\
    (st.(currentClickIndex) < 5)%nat.
Proof.
  eexists. split.
  { evaluate. select_first. evaluate. reflexivity. }
  apply (click_index_stays_in_range TRIAL_CONFIG
           [StartGame always_first; CountdownTick 0; CountdownTick 0;
            CountdownTick 0] _
           (mkTrialInstance
              (Some (click_sequence
                       (mkClickSequence "seq_1"
                          [ mkPosition 0.2 0.3; mkPosition 0.4 0.5;
                            mkPosition 0.6 0.3; mkPosition 0.8 0.5;
                            mkPosition 0.5 0.7 ]))) 0)
           (mkClickSequence "seq_1"
              [ mkPosition 0.2 0.3; mkPosition 0.4 0.5;
                mkPosition 0.6 0.3; mkPosition 0.8 0.5;
                mkPosition 0.5 0.7 ])).
  - evaluate. select_first. evaluate. reflexivity.
  - reflexivity.
  - reflexivity.
  - reflexivity.
Defined.

(** ** Trial runner: how the handlers compose *)

Lemma handlePointerDown_click_step (cfg : Config) (x y now date : R)
    (st : State) (trial : TrialInstance) (c : ClickSequence) :
  st.(gameState) = Playing ->
  nth_error st.(trials) st.(currentTrialIndex) = Some trial ->
  trial.(def) = Some (click_sequence c) ->
  (st.(currentClickIndex) < List.length c.(positions))%nat ->
  exists st',
    handlePointerDown cfg x y now date st = Returns st' /\
    st'.(gameState) = Playing /\
    st'.(trials) = st.(trials) /\
    st'.(currentTrialIndex) = st.(currentTrialIndex) /\
    List.length st'.(trialData) = S (List.length st.(trialData)) /\
    (((st.(currentClickIndex) + 1 < List.length c.(positions))%nat /\
      st'.(currentClickIndex) = (st.(currentClickIndex) + 1)%nat /\
      st'.(timeouts) = st.(timeouts)) \/
     ((st.(currentClickIndex) + 1 = List.length c.(positions))%nat /\
      st'.(currentClickIndex) = st.(currentClickIndex) /\
      st'.(timeouts) =
        st.(timeouts) ++
        [mkNextTrialClosure st.(currentTrialIndex)
                            (List.length st.(trials))])).
Proof.
  intros Hp Ht Hd Hidx. unfold handlePointerDown.
  rewrite Hp, Ht, Hd. cbn [GameState_eqb negb].
  cbn [currentClickIndex setTrialData setTotalScore setIsClickingRef].
  destruct (_ <? _)%nat eqn:Hlt.
  - apply Nat.ltb_lt in Hlt.
    destruct (nth_error (positions c) (currentClickIndex st + 1)) eqn:Hn.
    + eexists. split; [reflexivity |]. cbn.
      rewrite length_app. cbn.
      split; [exact Hp | split; [reflexivity | split; [reflexivity |]]].
      split; [lia |]. left.
      split; [lia | split; reflexivity].
    + apply nth_error_None in Hn. lia.
  - apply Nat.ltb_ge in Hlt.
    eexists. split; [reflexivity |]. cbn.
    rewrite length_app. cbn.
    split; [exact Hp | split; [reflexivity | split; [reflexivity |]]].
    split; [lia |]. right.
    split; [lia | split; reflexivity].
Qed.

(** X23. A click sequence is completed by exactly as many presses as it has
    positions left: from a click index in range, that many presses,
    wherever and whenever they fall, all return normally, record one
    result each, leave the click index on the last position and set
    exactly one advance, while the game keeps playing the same trial. *)
Theorem click_sequence_completes (cfg : Config) (es : list Event)
    (st : State) (trial : TrialInstance) (c : ClickSequence) :
  st.(gameState) = Playing ->
  nth_error st.(trials) st.(currentTrialIndex) = Some trial ->
  trial.(def) = Some (click_sequence c) ->
  (st.(currentClickIndex) < List.length c.(positions))%nat ->
  Forall is_press es ->
  List.length es
  = (List.length c.(positions) - st.(currentClickIndex))%nat ->
  exists st',
    run cfg st es = Returns st' /\
    st'.(gameState) = Playing /\
    st'.(currentTrialIndex) = st.(currentTrialIndex) /\
    st'.(currentClickIndex) = (List.length c.(positions) - 1)%nat /\
    List.length st'.(trialData)
    = (List.length st.(trialData) + List.length es)%nat /\
    st'.(timeouts) =
      st.(timeouts) ++
      [mkNextTrialClosure st.(currentTrialIndex) (List.length st.(trials))].
Proof.
  intros Hp Ht Hd Hidx Hes. revert st Hp Ht Hd Hidx.
  induction Hes as [| e es He _ IH]; intros st Hp Ht Hd Hidx Hlen.
  - simpl in Hlen. lia.
  - destruct e as [| | | | x y now date | | | | |]; try contradiction.
    destruct (handlePointerDown_click_step cfg x y now date st trial c
                Hp Ht Hd Hidx)
      as [st1 [Hstep [Hp1 [Htr1 [Hti1 [Hdata1 Hcase]]]]]].
    cbn [run step]. rewrite Hstep. cbn [bind].
    destruct Hcase as [[Hmore [Hci1 Hto1]] | [Hlast [Hci1 Hto1]]].
    + destruct (IH st1) as [st' [Hrun [Hp' [Hti' [Hci' [Hdata' Hto']]]]]].
      * exact Hp1.
      * rewrite Htr1, Hti1. exact Ht.
      * exact Hd.
      * rewrite Hci1. exact Hmore.
      * rewrite Hci1. simpl in Hlen. lia.
      * exists st'. split; [exact Hrun |]. split; [exact Hp' |].
        split; [congruence |]. split; [exact Hci' |].
        split; [rewrite Hdata', Hdata1; simpl; lia |].
        rewrite Hto', Hto1, Hti1, Htr1. reflexivity.
    + assert (es = []) by (destruct es; [reflexivity | simpl in Hlen; lia]).
      subst es. exists st1. cbn [run].
      split; [reflexivity |]. split; [exact Hp1 |].
      split; [exact Hti1 |]. split; [lia |].
      split; [rewrite Hdata1; simpl; lia | exact Hto1].
Qed.

Lemma click_sequence_completes_witness :
  exists st',
    run TRIAL_CONFIG
      (initialState
         |> setGameState Playing
         |> setTrials
              [mkTrialInstance
                 (Some (click_sequence
                          (mkClickSequence "two"
                             [mkPosition 0.2 0.3; mkPosition 0.4 0.5]))) 0])
      [PointerDown 1 2 3 4; PointerDown 5 6 7 8]
    = Returns st' /\
    st'.(gameState) = Playing /\
    st'.(currentTrialIndex) = 0%nat /\
    st'.(currentClickIndex) = 1%nat /\
    List.length st'.(trialData) = 2%nat /\
    st'.(timeouts) = [mkNextTrialClosure 0 1].
Proof.
  apply (click_sequence_completes TRIAL_CONFIG
           [PointerDown 1 2 3 4; PointerDown 5 6 7 8]
           (initialState
              |> setGameState Playing
              |> setTrials
                   [mkTrialInstance
                      (Some (click_sequence
                               (mkClickSequence "two"
                                  [mkPosition 0.2 0.3;
                                   mkPosition 0.4 0.5]))) 0])
           (mkTrialInstance
              (Some (click_sequence
                       (mkClickSequence "two"
                          [mkPosition 0.2 0.3; mkPosition 0.4 0.5]))) 0)
           (mkClickSequence "two"
              [mkPosition 0.2 0.3; mkPosition 0.4 0.5])).
  - reflexivity.
  - reflexivity.
  - reflexivity.
  - simpl. lia.
  - repeat constructor.
  - reflexivity.
Defined.

Lemma nth_error_update_nth_same {A : Type} (f : A -> A) (k : nat)
    (l : list A) (a : A) :
  nth_error l k = Some a -> nth_error (update_nth k f l) k = Some (f a).
Proof.
  revert k. induction l as [| b l IH]; intros k H.
  - destruct k; discriminate.
  - destruct k as [| k]; simpl in *.
    + injection H as <-. reflexivity.
    + apply IH. exact H.
Qed.

Lemma nth_error_update_nth_other {A : Type} (f : A -> A) (j k : nat)
    (l : list A) :
  j <> k -> nth_error (update_nth k f l) j = nth_error l j.
Proof.
  revert j k. induction l as [| b l IH]; intros j k H.
  - reflexivity.
  - destruct k as [| k]; destruct j as [| j]; simpl; try reflexivity;
      try congruence.
    apply IH. congruence.
Qed.

Section ScheduleFlags.

Variable flag : Tracker -> bool.
Hypothesis flag_schedule : schedule_flag flag.

Lemma flag_off_update_nth (f : Tracker -> Tracker) (j k : nat)
    (l : list Tracker) :
  (forall a, (tk_sampling (f a) = tk_sampling a
              \/ tk_sampling (f a) = false) /\
             (tk_animating (f a) = tk_animating a
              \/ tk_animating (f a) = false)) ->
  (exists tk, nth_error l k = Some tk /\ flag tk = false) ->
  exists tk, nth_error (update_nth j f l) k = Some tk /\ flag tk = false.
Proof.
  intros Hf [tk [Hk Ha]].
  destruct (Nat.eq_dec k j) as [-> | Hne].
  - exists (f tk). split; [apply nth_error_update_nth_same; exact Hk |].
    destruct (Hf tk) as [Hs Hanim].
    exact (flag_schedule tk (f tk) Hs Hanim Ha).
  - exists tk. split; [| exact Ha].
    rewrite nth_error_update_nth_other by exact Hne. exact Hk.
Qed.

Lemma flag_off_clearInterval (ref : option nat) (k : nat)
    (l : list Tracker) :
  (exists tk, nth_error l k = Some tk /\ flag tk = false) ->
  exists tk, nth_error (clearInterval ref l) k = Some tk /\ flag tk = false.
Proof.
  intros H. destruct ref as [id |]; [| exact H].
  apply flag_off_update_nth; [| exact H].
  intros a. cbn. auto.
Qed.

Lemma step_flag_off (cfg : Config) (k : nat) (e : Event) (st st' : State) :
  tracker_flag_off flag k st ->
  step cfg st e = Returns st' ->
  tracker_flag_off flag k st'.
Proof.
  unfold tracker_flag_off. intros Hfin H.
  assert (Hframe : forall now s,
            trackers s = trackers st ->
            startTrialEffect now s = Returns st' ->
            exists tk, nth_error (trackers st') k = Some tk /\
                       flag tk = false).
  { intros now s Hs Heff. apply startTrialEffect_frame in Heff.
    destruct Heff as [_ [_ [Ht _]]]. rewrite Ht, Hs. exact Hfin. }
  destruct e as [random | now | rw rh now | x y | x y now date | | now
                | j now | j now date |]; cbn [step] in H.
  - destruct (GameState_eqb _ _); injection H as <-; exact Hfin.
  - unfold countdownTick in H.
    destruct (_ && _); [| injection H as <-; exact Hfin].
    destruct (_ =? _)%nat; [| injection H as <-; exact Hfin].
    refine (Hframe now _ _ H). reflexivity.
  - refine (Hframe now _ _ H). reflexivity.
  - injection H as <-. exact Hfin.
  - unfold handlePointerDown in H.
    destruct (negb _); [injection H as <-; exact Hfin |].
    destruct (nth_error (trials st) (currentTrialIndex st)) as [trial |];
      [| injection H as <-; exact Hfin].
    destruct (def trial) as [[c | s] |].
    + cbn [currentClickIndex setTrialData setTotalScore
           setIsClickingRef] in H.
      destruct (_ <? _)%nat.
      * destruct (nth_error (positions c) _); [| discriminate].
        injection H as <-. exact Hfin.
      * injection H as <-. exact Hfin.
    + destruct (negb _); injection H as <-; [| exact Hfin].
      cbn. destruct Hfin as [tk [Hk Ha]]. exists tk.
      split; [| exact Ha].
      rewrite nth_error_app1; [exact Hk |].
      apply nth_error_Some. congruence.
    + injection H as <-. exact Hfin.
  - injection H as <-. exact Hfin.
  - destruct (timeouts st) as [| c pending];
      [injection H as <-; exact Hfin |].
    apply (Hframe now _) in H; [exact H |].
    unfold nextTrial. destruct (_ <? _)%nat; reflexivity.
  - unfold sampleTick in H.
    destruct (nth_error (trackers st) j) as [tk |];
      [| injection H as <-; exact Hfin].
    destruct (negb _); [injection H as <-; exact Hfin |].
    destruct (Number.leb _ _); [| injection H as <-; exact Hfin].
    unfold bind in H.
    destruct (getPositionOnPath _ _ _ _ _); [| discriminate].
    injection H as <-. cbn.
    apply flag_off_update_nth; [| exact Hfin].
    intros ?. cbn. auto.
  - unfold animate in H.
    destruct (nth_error (trackers st) j) as [tk |];
      [| injection H as <-; exact Hfin].
    destruct (negb _); [injection H as <-; exact Hfin |].
    destruct (Number.geb _ _).
    + injection H as <-. cbn.
      apply flag_off_update_nth; [intros ?; cbn; auto |].
      apply flag_off_clearInterval. exact Hfin.
    + unfold bind in H.
      destruct (getPositionOnPath _ _ _ _ _); [| discriminate].
      injection H as <-. cbn.
      apply flag_off_update_nth; [| exact Hfin].
      intros ?. cbn. auto.
  - destruct (GameState_eqb _ _); injection H as <-; exact Hfin.
Qed.

Lemma run_flag_off (cfg : Config) (k : nat) (es : list Event)
    (st st' : State) :
  tracker_flag_off flag k st ->
  run cfg st es = Returns st' ->
  tracker_flag_off flag k st'.
Proof.
  revert st. induction es as [| e es IH]; intros st Hfin H; cbn in H.
  - injection H as <-. exact Hfin.
  - unfold bind in H. destruct (step cfg st e) as [st1 |] eqn:Hstep;
      [| discriminate].
    apply (IH st1); [| exact H].
    apply (step_flag_off cfg k e st st1 Hfin Hstep).
Qed.

End ScheduleFlags.

Lemma animating_schedule : schedule_flag tk_animating.
Proof. intros a b _ [H | H] Ha; congruence. Qed.

Lemma sampling_schedule : schedule_flag tk_sampling.
Proof. intros a b [H | H] _ Ha; congruence. Qed.

(** The state that [animate] gives when it finds the trial over. *)
Lemma animate_over (cfg : Config) (k : nat) (now date : R)
    (st st1 : State) (tk : Tracker) :
  nth_error st.(trackers) k = Some tk ->
  tk.(tk_animating) = true ->
  (now - tk.(tk_startTime)) / tk.(tk_trial).(params).(duration) >= 1 ->
  animate cfg k now date st = Returns st1 ->
  tracker_flag_off tk_animating k st1 /\
  (st.(sampleIntervalRef) = Some k -> tracker_flag_off tk_sampling k st1).
Proof.
  intros Hk Hanim Hover Hdone.
  unfold animate in Hdone. rewrite Hk, Hanim in Hdone.
  cbn [negb] in Hdone.
  rewrite (progress_over_of_quotient _ _ Hover) in Hdone.
  injection Hdone as <-. unfold tracker_flag_off. cbn. split.
  - assert (Hc : exists a,
              nth_error (clearInterval (sampleIntervalRef st)
                           (trackers st)) k = Some a).
    { destruct (sampleIntervalRef st) as [id |]; cbn [clearInterval];
        [| eauto].
      destruct (Nat.eq_dec k id) as [-> | Hne].
      - eexists. apply nth_error_update_nth_same. exact Hk.
      - exists tk. rewrite nth_error_update_nth_other by exact Hne.
        exact Hk. }
    destruct Hc as [a Ha].
    eexists. split; [apply nth_error_update_nth_same; exact Ha |].
    reflexivity.
  - intros Href. rewrite Href. cbn [clearInterval].
    eexists. split.
    + apply nth_error_update_nth_same.
      apply nth_error_update_nth_same. exact Hk.
    + reflexivity.
Qed.

(** X27. Sampling stops with the trial: when the animation frame that finds
    the trial over belongs to the closure whose interval the interval
    reference holds, every later tick of that interval, after any further
    events, leaves the state as it is, so that no sample is added to a
    finished trial. *)
Theorem sampling_stops_with_trial (cfg : Config) (k : nat) (now date : R)
    (st st1 : State) (tk : Tracker) :
  nth_error st.(trackers) k = Some tk ->
  tk.(tk_animating) = true ->
  (now - tk.(tk_startTime)) / tk.(tk_trial).(params).(duration) >= 1 ->
  st.(sampleIntervalRef) = Some k ->
  animate cfg k now date st = Returns st1 ->
  forall es st2 now',
    run cfg st1 es = Returns st2 ->
    sampleTick cfg k now' st2 = Returns st2.
Proof.
  intros Hk Hanim Hover Href Hdone es st2 now' Hrun.
  destruct (animate_over cfg k now date st st1 tk Hk Hanim Hover Hdone)
    as [_ Hoff].
  destruct (run_flag_off tk_sampling sampling_schedule cfg k es st1 st2
              (Hoff Href) Hrun) as [tk2 [Hk2 Ha2]].
  unfold sampleTick. rewrite Hk2, Ha2. reflexivity.
Qed.

Lemma sampling_stops_with_trial_witness :
  exists st1,
    animate TRIAL_CONFIG 0 3000 0 tracking_example = Returns st1 /\
    sampleTick TRIAL_CONFIG 0 3016 st1 = Returns st1.
Proof.
  assert (Hover : (3000 - tk_startTime finished_tracker)
                  / duration (params (tk_trial finished_tracker)) >= 1)
    by (cbn; lra).
  assert (Hdone : exists st1,
            animate TRIAL_CONFIG 0 3000 0 tracking_example = Returns st1).
  { unfold animate.
    change (nth_error (trackers tracking_example) 0)
      with (Some finished_tracker).
    cbn [tk_animating finished_tracker negb].
    rewrite (progress_over_of_quotient _ _ Hover). eexists. reflexivity. }
  destruct Hdone as [st1 Hdone]. exists st1. split; [exact Hdone |].
  apply (sampling_stops_with_trial TRIAL_CONFIG 0 3000 0 tracking_example
           st1 finished_tracker eq_refl eq_refl Hover eq_refl Hdone []
           st1 3016).
  reflexivity.
Defined.


(** ** Trial selection and advance *)

Lemma random_index_in_range (r : R) (n : nat) :
  0 <= r < 1 -> (0 < n)%nat ->
  (0 <= Math.floor (r * INR n) < Z.of_nat n)%Z.
Proof.
  intros Hr Hn. unfold Math.floor.
  assert (Hpos : 0 < INR n) by (apply lt_0_INR; exact Hn).
  split.
  - apply Zfloor_lub. simpl. nra.
  - apply lt_IZR. rewrite <- INR_IZR_INZ.
    pose proof (Zfloor_bound (r * INR n)). nra.
Qed.

Lemma initializeTrials_trials (cfg : Config) (random : nat -> R)
    (st : State) :
  (initializeTrials cfg random st).(trials)
  = map (fun i =>
           mkTrialInstance
             (array_get (allTrialTypes cfg)
                (Math.floor
                   (random i * INR (List.length (allTrialTypes cfg)))))
             i)
        (seq 0 cfg.(totalTrials)).
Proof. reflexivity. Qed.

(** X25. Trial selection numbers the selected trials 0, 1, 2, ... in
    order, as many as [totalTrials], and resets the score, the records and
    the trial index; and when the catalog is not empty and every draw lies
    in the interval from 0 included to 1 excluded, every selected trial is
    a definition of the catalog. *)
Theorem initializeTrials_selection (cfg : Config) (random : nat -> R)
    (st : State) :
  map instanceId (initializeTrials cfg random st).(trials)
  = seq 0 cfg.(totalTrials) /\
  (initializeTrials cfg random st).(totalScore) = 0 /\
  (initializeTrials cfg random st).(trialData) = [] /\
  (initializeTrials cfg random st).(currentTrialIndex) = 0%nat /\
  (allTrialTypes cfg <> [] ->
   (forall i, 0 <= random i < 1) ->
   forall t, In t (initializeTrials cfg random st).(trials) ->
   exists d, t.(def) = Some d /\ In d (allTrialTypes cfg)).
Proof.
  split; [| split; [reflexivity | split; [reflexivity
                                         | split; [reflexivity |]]]].
  - rewrite initializeTrials_trials, map_map. cbn [instanceId].
    apply map_id.
  - intros Hne Hrandom t Hin.
    rewrite initializeTrials_trials in Hin.
    apply in_map_iff in Hin. destruct Hin as [i [<- _]].
    cbn [def].
    assert (Hlen : (0 < List.length (allTrialTypes cfg))%nat)
      by (destruct (allTrialTypes cfg); [congruence | simpl; lia]).
    pose proof (random_index_in_range (random i) _ (Hrandom i) Hlen)
      as Hidx.
    destruct (array_get_in_range (allTrialTypes cfg) _ Hidx) as [d Hd].
    exists d. split; [exact Hd |].
    unfold array_get in Hd.
    destruct (_ <? 0)%Z; [discriminate |].
    apply nth_error_In in Hd. exact Hd.
Qed.

Lemma initializeTrials_selection_witness :
  exists d,
    def (mkTrialInstance
           (array_get (allTrialTypes TRIAL_CONFIG)
              (Math.floor
                 (always_first 0
                  * INR (List.length (allTrialTypes TRIAL_CONFIG)))))
           0)
    = Some d /\
    In d (allTrialTypes TRIAL_CONFIG).
Proof.
  apply (proj2 (proj2 (proj2 (proj2
           (initializeTrials_selection TRIAL_CONFIG always_first
              initialState))))).
  - discriminate.
  - intros i. unfold always_first. lra.
  - rewrite initializeTrials_trials. apply in_map_iff.
    exists 0%nat. split; [reflexivity |]. simpl. left. reflexivity.
Defined.

Lemma startTrial_resets (now : R) (s st' : State) (trial : TrialInstance) :
  nth_error s.(trials) s.(currentTrialIndex) = Some trial ->
  startTrial now s = Returns st' ->
  st'.(gameState) = s.(gameState) /\
  st'.(currentTrialIndex) = s.(currentTrialIndex) /\
  st'.(trials) = s.(trials) /\
  st'.(trackingStarted) = false /\
  st'.(isClickingRef) = false /\
  st'.(trackingPointsRef) = 0 /\
  (forall c, trial.(def) = Some (click_sequence c) ->
             st'.(currentClickIndex) = 0%nat).
Proof.
  intros Ht H. unfold startTrial in H. rewrite Ht in H.
  destruct (def trial) as [[c | sh] |].
  - destruct (array_get (positions c) 0); [| discriminate].
    injection H as <-. cbn. repeat split; reflexivity.
  - unfold bind in H.
    destruct (getPositionOnPath _ _ _ _ _); [| discriminate].
    injection H as <-. cbn. repeat split; try reflexivity.
    intros c Hc. discriminate.
  - injection H as <-. cbn. repeat split; try reflexivity.
    intros c Hc. discriminate.
Qed.

(** X26. An advance set by the trial that is current, firing while the
    game is playing, changes neither the score nor the records. When a
    trial is left it moves to the next one with the sub-state reset: not
    tracking, not pressed, no live points, and the click index 0 on a
    click sequence. After the last trial it shows the results and leaves
    the trial index where it is. *)
Theorem fresh_advance (cfg : Config) (now : R) (st st' : State)
    (pending : list NextTrialClosure) :
  st.(gameState) = Playing ->
  st.(timeouts) =
    mkNextTrialClosure st.(currentTrialIndex) (List.length st.(trials))
    :: pending ->
  step cfg st (TimeoutFires now) = Returns st' ->
  st'.(trialData) = st.(trialData) /\
  st'.(totalScore) = st.(totalScore) /\
  st'.(timeouts) = pending /\
  ((st.(currentTrialIndex) + 1 < List.length st.(trials))%nat ->
   st'.(gameState) = Playing /\
   st'.(currentTrialIndex) = (st.(currentTrialIndex) + 1)%nat /\
   st'.(trackingStarted) = false /\
   st'.(isClickingRef) = false /\
   st'.(trackingPointsRef) = 0 /\
   (forall trial c,
      nth_error st.(trials) (st.(currentTrialIndex) + 1) = Some trial ->
      trial.(def) = Some (click_sequence c) ->
      st'.(currentClickIndex) = 0%nat)) /\
  ((List.length st.(trials) <= st.(currentTrialIndex) + 1)%nat ->
   st'.(gameState) = Results /\
   st'.(currentTrialIndex) = st.(currentTrialIndex)).
Proof.
  intros Hp Hto H. cbn [step] in H. rewrite Hto in H.
  pose proof (startTrialEffect_frame now _ st' H) as [Hd [Hs [_ Htm]]].
  cbn in Hd, Hs, Htm.
  assert (Hd' : trialData st' = trialData st).
  { rewrite Hd. unfold nextTrial. destruct (_ <? _)%nat; reflexivity. }
  assert (Hs' : totalScore st' = totalScore st).
  { rewrite Hs. unfold nextTrial. destruct (_ <? _)%nat; reflexivity. }
  assert (Htm' : timeouts st' = pending).
  { rewrite Htm. unfold nextTrial. destruct (_ <? _)%nat; reflexivity. }
  split; [exact Hd' | split; [exact Hs' | split; [exact Htm' |]]].
  unfold nextTrial in H. cbn [nt_currentTrialIndex nt_trialsLength] in H.
  split.
  - intros Hnext.
    rewrite (proj2 (Nat.ltb_lt _ _)) in H by lia.
    unfold startTrialEffect in H.
    cbn [gameState trials setCurrentTrialIndex setTimeouts] in H.
    rewrite Hp in H. cbn [GameState_eqb andb] in H.
    rewrite (proj2 (Nat.ltb_lt 0 _)) in H by lia.
    destruct (nth_error (trials st) (currentTrialIndex st + 1))
      as [trial |] eqn:Ht;
      [| apply nth_error_None in Ht; lia].
    match type of H with
    | startTrial _ ?s = _ =>
        destruct (startTrial_resets now s st' trial Ht H)
          as [Hg [Hi [_ [Hts [Hic [Htp Hci]]]]]]
    end.
    cbn in Hg, Hi.
    split; [congruence | split; [exact Hi |]].
    split; [exact Hts | split; [exact Hic | split; [exact Htp |]]].
    intros trial' c Ht' Hc. apply (Hci c). congruence.
  - intros Hlast.
    rewrite (proj2 (Nat.ltb_ge _ _)) in H by lia.
    unfold startTrialEffect in H.
    cbn [gameState setGameState setTimeouts GameState_eqb andb] in H.
    injection H as <-. cbn. split; reflexivity.
Qed.

Lemma fresh_advance_witness :
  exists st',
    step TRIAL_CONFIG
      (initialState
         |> setGameState Playing
         |> setTrials
              [mkTrialInstance None 0;
               mkTrialInstance
                 (Some (click_sequence
                          (mkClickSequence "two"
                             [mkPosition 0.2 0.3; mkPosition 0.4 0.5]))) 1]
         |> setCurrentClickIndex 1
         |> setTimeouts (fun _ => [mkNextTrialClosure 0 2]))
      (TimeoutFires 100)
    = Returns st' /\
    st'.(gameState) = Playing /\
    st'.(currentTrialIndex) = 1%nat /\
    st'.(currentClickIndex) = 0%nat.
Proof.
  eexists. split; [evaluate; reflexivity |].
  destruct (fresh_advance TRIAL_CONFIG 100
              (initialState
                 |> setGameState Playing
                 |> setTrials
                      [mkTrialInstance None 0;
                       mkTrialInstance
                         (Some (click_sequence
                                  (mkClickSequence "two"
                                     [mkPosition 0.2 0.3;
                                      mkPosition 0.4 0.5]))) 1]
                 |> setCurrentClickIndex 1
                 |> setTimeouts (fun _ => [mkNextTrialClosure 0 2]))
              _ [] eq_refl eq_refl
              ltac:(evaluate; reflexivity))
    as [_ [_ [_ [Hnext _]]]].
  destruct Hnext as [Hg [Hi [_ [_ [_ Hci]]]]]; [simpl; lia |].
  split; [exact Hg | split; [exact Hi |]].
  apply (Hci (mkTrialInstance
                (Some (click_sequence
                         (mkClickSequence "two"
                            [mkPosition 0.2 0.3; mkPosition 0.4 0.5]))) 1)
             (mkClickSequence "two"
                [mkPosition 0.2 0.3; mkPosition 0.4 0.5]));
    reflexivity.
Defined.
